(** * Research pipeline: Planner, Scout, Analyst, Writer, orchestrator

    A shallow embedding of [research_workspace/core/enhanced_research_engine.py]
    and of the cross-reference step of
    [research_workspace/core/agent_collaboration.py].

    Conventions of the embedding.
    - Python [str] values are [string]s of ASCII characters; the string
      methods the code calls are defined in [PyStr].
    - A Python [dict] is an insertion-ordered association list ([PyDict]);
      a Python [set] of strings is a [gset string].
    - Python floats are rationals ([Q]): the code only adds, multiplies,
      divides small counts and compares against decimal literals.
    - A value decoded by [json.loads] whose shape the code does not check
      is a [Json.t]; an operation the value does not support raises, with
      the interpreter's message.
    - Code that talks to the outside (search API, page fetches, the
      generation service, the clock) runs in the monad [Eff.M]: a state
      carrying the external world and a trace of the calls made, with
      Python exceptions as the [Raise] outcome. *)

From Stdlib Require Import String Ascii List ZArith QArith Lia Lqa Bool DecimalString.
From stdpp Require Import base gmap sets list strings.

Local Open Scope string_scope.
Local Open Scope list_scope.

(** ** Python string methods (ASCII) *)

Module PyStr.

Definition code (c : ascii) : nat := nat_of_ascii c.

(** The double-quote character. *)
Definition dquote_char : ascii := ascii_of_nat 34.

(** The line-feed character. *)
Definition newline_char : ascii := ascii_of_nat 10.

(** [str.isspace] on one ASCII character: TAB..CR, FS..US and space. *)
Definition is_space (c : ascii) : bool :=
  let n := code c in
  ((9 <=? n)%nat && (n <=? 13)%nat) || ((28 <=? n)%nat && (n <=? 32)%nat).

Definition is_upper (c : ascii) : bool :=
  let n := code c in (65 <=? n)%nat && (n <=? 90)%nat.

Definition is_lower (c : ascii) : bool :=
  let n := code c in (97 <=? n)%nat && (n <=? 122)%nat.

Definition is_alpha (c : ascii) : bool := is_upper c || is_lower c.

Definition to_lower (c : ascii) : ascii :=
  if is_upper c then ascii_of_nat (code c + 32) else c.

Definition to_upper (c : ascii) : ascii :=
  if is_lower c then ascii_of_nat (code c - 32) else c.

Fixpoint map_chars (f : ascii -> ascii) (s : string) : string :=
  match s with
  | EmptyString => EmptyString
  | String c s' => String (f c) (map_chars f s')
  end.

(** [s.lower()] *)
Definition lower (s : string) : string := map_chars to_lower s.

Definition cons_word (w : string) (ws : list string) : list string :=
  match w with EmptyString => ws | _ => w :: ws end.

(** Right-to-left scan: the word in progress and the words after it. *)
Fixpoint split_scan (s : string) : string * list string :=
  match s with
  | EmptyString => (EmptyString, [])
  | String c s' =>
      let '(w, ws) := split_scan s' in
      if is_space c then (EmptyString, cons_word w ws) else (String c w, ws)
  end.

(** [s.split()]: maximal runs of non-whitespace characters. *)
Definition split (s : string) : list string :=
  let '(w, ws) := split_scan s in cons_word w ws.

Fixpoint split_on_scan (sep : ascii) (s : string) : string * list string :=
  match s with
  | EmptyString => (EmptyString, [])
  | String c s' =>
      let '(w, ws) := split_on_scan sep s' in
      if Ascii.eqb c sep then (EmptyString, w :: ws) else (String c w, ws)
  end.

(** [s.split(sep)] for a one-character separator: empty fields are kept. *)
Definition split_on (sep : ascii) (s : string) : list string :=
  let '(w, ws) := split_on_scan sep s in w :: ws.

Fixpoint lstrip_by (p : ascii -> bool) (s : string) : string :=
  match s with
  | EmptyString => EmptyString
  | String c s' => if p c then lstrip_by p s' else s
  end.

Fixpoint rstrip_by (p : ascii -> bool) (s : string) : string :=
  match s with
  | EmptyString => EmptyString
  | String c s' =>
      match rstrip_by p s' with
      | EmptyString => if p c then EmptyString else String c EmptyString
      | r => String c r
      end
  end.

(** [s.strip()] and [s.strip(ch)] *)
Definition strip (s : string) : string := rstrip_by is_space (lstrip_by is_space s).
Definition strip_char (ch : ascii) (s : string) : string :=
  rstrip_by (Ascii.eqb ch) (lstrip_by (Ascii.eqb ch) s).

Definition startswith (p s : string) : bool := String.prefix p s.

Fixpoint drop (n : nat) (s : string) : string :=
  match n, s with
  | O, _ => s
  | S n', String _ s' => drop n' s'
  | S _, EmptyString => EmptyString
  end.

Fixpoint take (n : nat) (s : string) : string :=
  match n, s with
  | S n', String c s' => String c (take n' s')
  | _, _ => EmptyString
  end.

Definition endswith (p s : string) : bool :=
  (String.length p <=? String.length s)%nat
  && String.eqb (drop (String.length s - String.length p) s) p.

(** [sub in s] *)
Fixpoint contains (sub s : string) : bool :=
  String.prefix sub s
  || match s with
     | EmptyString => false
     | String _ s' => contains sub s'
     end.

(** [s.replace(old, new)] for a non-empty [old] (every call site passes a
    literal): left to right, non-overlapping. [skip] counts the characters
    of a match still to be dropped. *)
Fixpoint replace_go (old new : string) (skip : nat) (s : string) : string :=
  match s with
  | EmptyString => EmptyString
  | String c s' =>
      match skip with
      | S k => replace_go old new k s'
      | O =>
          if String.prefix old s
          then new +:+ replace_go old new (String.length old - 1) s'
          else String c (replace_go old new 0 s')
      end
  end.

Definition replace (old new s : string) : string :=
  match old with
  | EmptyString => s
  | _ => replace_go old new 0 s
  end.

(** [s.title()]: a letter is upper-cased when the previous character is
    not a letter and lower-cased otherwise. *)
Fixpoint title_go (prev_cased : bool) (s : string) : string :=
  match s with
  | EmptyString => EmptyString
  | String c s' =>
      let c' := if is_alpha c
                then (if prev_cased then to_lower c else to_upper c)
                else c in
      String c' (title_go (is_alpha c) s')
  end.

Definition title (s : string) : string := title_go false s.

(** [sep.join(parts)] *)
Fixpoint join (sep : string) (parts : list string) : string :=
  match parts with
  | [] => EmptyString
  | [p] => p
  | p :: ps => p +:+ sep +:+ join sep ps
  end.

(** [str(n)] for a non-negative integer. *)
Definition of_nat (n : nat) : string :=
  NilEmpty.string_of_uint (Nat.to_uint n).

End PyStr.

(** ** Python sequence slicing *)

Module PySeq.

(** [l[:n]] for any integer [n]: a negative bound counts from the end. *)
Definition slice_to {A} (n : Z) (l : list A) : list A :=
  if (n <? 0)%Z
  then firstn (length l - Z.to_nat (- n)) l
  else firstn (Z.to_nat n) l.

End PySeq.

(** ** Python dictionaries: insertion-ordered, one entry per key *)

Module PyDict.
Section Dict.
Context {V : Type}.

Definition t : Type := list (string * V).

Definition empty : t := [].

(** [d.get(k)] *)
Fixpoint get (k : string) (d : t) : option V :=
  match d with
  | [] => None
  | (k', v) :: d' => if String.eqb k k' then Some v else get k d'
  end.

(** [k in d] *)
Definition mem (k : string) (d : t) : bool :=
  match get k d with Some _ => true | None => false end.

(** [d[k] = v]: an existing key keeps its position, a new key goes last. *)
Fixpoint set (k : string) (v : V) (d : t) : t :=
  match d with
  | [] => [(k, v)]
  | (k', v') :: d' =>
      if String.eqb k k' then (k, v) :: d' else (k', v') :: set k v d'
  end.

Definition keys (d : t) : list string := map fst d.
Definition values (d : t) : list V := map snd d.

(** A dictionary never holds a key twice. *)
Definition wf (d : t) : Prop := NoDup (keys d).

End Dict.
Arguments t : clear implicits.
End PyDict.

(** ** Values decoded by [json.loads] *)

Module Json.

(** [None], [bool], [int], [float], [str], [list], [dict]. *)
Inductive t : Type :=
| JNull
| JBool (b : bool)
| JInt (z : Z)
| JFloat (q : Q)
| JStr (s : string)
| JArr (items : list t)
| JObj (members : list (string * t)).

(** [type(v).__name__] *)
Definition type_name (v : t) : string :=
  match v with
  | JNull => "NoneType"
  | JBool _ => "bool"
  | JInt _ => "int"
  | JFloat _ => "float"
  | JStr _ => "str"
  | JArr _ => "list"
  | JObj _ => "dict"
  end.

(** The number a value stands for in a comparison with a float; [True]
    and [False] count as 1 and 0, the other values are not numbers. *)
Definition number (v : t) : option Q :=
  match v with
  | JInt z => Some (inject_Z z)
  | JFloat q => Some q
  | JBool b => Some (if b then 1%Q else 0%Q)
  | _ => None
  end.

End Json.

(** ** Effects: the outside world, the trace of calls, exceptions *)

Module Eff.

(** A Python [Exception] instance; [str e] is its message. *)
Inductive Exn : Type := Exception (msg : string).

Definition str (e : Exn) : string := match e with Exception m => m end.

Inductive outcome (A : Type) : Type :=
| Ok (a : A)
| Raise (e : Exn).
Arguments Ok {A} a.
Arguments Raise {A} e.

(** Sequencing of code that may raise and touches nothing outside. *)
Definition and_then {A B} (r : outcome A) (k : A -> outcome B) : outcome B :=
  match r with
  | Ok a => k a
  | Raise e => Raise e
  end.

(** The calls that leave the process, in the order they are made. *)
Inductive Event : Type :=
| EvSearch (query : string)
| EvFetch (url : string)
| EvPool
| EvGenerate (prompt : string)
| EvClock
| EvSleep (seconds : nat).

Record State (W : Type) : Type := mkState { world : W; trace : list Event }.
Arguments mkState {W} world trace.
Arguments world {W} s.
Arguments trace {W} s.

Definition M (W A : Type) : Type := State W -> outcome A * State W.

Section Ops.
Context {W : Type}.

Definition ret {A} (a : A) : M W A := fun s => (Ok a, s).

Definition raise {A} (e : Exn) : M W A := fun s => (Raise e, s).

Definition bind {A B} (c : M W A) (k : A -> M W B) : M W B :=
  fun s =>
    match c s with
    | (Ok a, s') => k a s'
    | (Raise e, s') => (Raise e, s')
    end.

(** [try: c  except Exception as e: h e] *)
Definition try_catch {A} (c : M W A) (h : Exn -> M W A) : M W A :=
  fun s =>
    match c s with
    | (Ok a, s') => (Ok a, s')
    | (Raise e, s') => h e s'
    end.

(** One call to an outside service: recorded, then answered by the world. *)
Definition call {A} (ev : Event) (f : W -> outcome A * W) : M W A :=
  fun s =>
    let '(r, w') := f (world s) in
    (r, mkState w' (trace s ++ [ev])).

(** Lifting a result that needs no outside call. *)
Definition lift {A} (r : outcome A) : M W A := fun s => (r, s).

Fixpoint mapM {A B} (f : A -> M W B) (l : list A) : M W (list B) :=
  match l with
  | [] => ret []
  | x :: xs =>
      bind (f x) (fun y => bind (mapM f xs) (fun ys => ret (y :: ys)))
  end.

End Ops.

(** The events of [s'] recorded after those of [s]. *)
Definition since {W} (s s' : State W) : list Event :=
  skipn (length (trace s)) (trace s').

Definition search_queries (evs : list Event) : list string :=
  flat_map (fun ev => match ev with EvSearch q => [q] | _ => [] end) evs.

End Eff.

Import Eff.

Declare Scope eff_scope.
Delimit Scope eff_scope with eff.
Notation "x <- c ;; k" := (Eff.bind c (fun x => k))
  (at level 100, c at next level, right associativity) : eff_scope.
Notation "c ;;; k" := (Eff.bind c (fun _ => k))
  (at level 100, right associativity) : eff_scope.

(** ** Planner *)

Module Planner.
Section Planner.
Context {W : Type}.

(** The generation service behind [self.client] / [self.model]: the
    response text for a prompt, or the exception the client raises. *)
Variable generate : string -> W -> outcome string * W.
(** The text of the planning prompt (an f-string over both arguments). *)
Variable planning_prompt : string -> Z -> string.
(** [json.loads] on the matched text, which opens and closes with a
    bracket: the array it denotes, whatever its elements, or the decoder's
    exception. *)
Variable json_loads : string -> outcome (list Json.t).

Definition call_generate (prompt : string) : M W string :=
  call (EvGenerate prompt) (generate prompt).

(** The six phrasings of [_fallback_decomposition]. *)
Definition base_aspects (user_query : string) : list string :=
  [ "What is " +:+ user_query +:+ " and how does it work?";
    "What are the current applications and use cases of " +:+ user_query +:+ "?";
    "What are the advantages and benefits of " +:+ user_query +:+ "?";
    "What are the challenges and limitations of " +:+ user_query +:+ "?";
    "What are the recent developments in " +:+ user_query +:+ "?";
    "What is the market outlook for " +:+ user_query +:+ "?" ].

Definition _fallback_decomposition (user_query : string) (num_questions : Z)
  : list string :=
  PySeq.slice_to num_questions (base_aspects user_query).

(** The shortest prefix that ends with the first closing bracket. *)
Fixpoint upto_close (s : string) : option string :=
  match s with
  | EmptyString => None
  | String c s' =>
      if Ascii.eqb c "]" then Some (String c EmptyString)
      else option_map (String c) (upto_close s')
  end.

(** [re.search(r'\[.*?\]', text, re.DOTALL)]: from the first opening
    bracket to the nearest closing one. *)
Fixpoint search_json_array (s : string) : option string :=
  match s with
  | EmptyString => None
  | String c s' =>
      if Ascii.eqb c "[" then option_map (String c) (upto_close s')
      else search_json_array s'
  end.

Definition dquote : string := String PyStr.dquote_char EmptyString.

(** The line-based parse used when the response holds no array. *)
Definition parse_lines (response_text : string) : list string :=
  let lines :=
    List.filter (fun l => negb (String.eqb l ""))
           (map PyStr.strip (PyStr.split_on PyStr.newline_char response_text)) in
  flat_map
    (fun line =>
       if PyStr.startswith dquote line && PyStr.endswith dquote line
       then [PyStr.take (String.length line - 2) (PyStr.drop 1 line)]
       else if PyStr.startswith "- " line
       then [PyStr.strip_char PyStr.dquote_char (PyStr.drop 2 line)]
       else [])
    lines.

(** The list returned holds whatever the array held on the first path,
    and strings on the two others. *)
Definition generate_focused_sub_questions
  (user_query : string) (num_questions : Z) : M W (list Json.t) :=
  try_catch
    (response_text <- call_generate (planning_prompt user_query num_questions) ;;
     match search_json_array response_text with
     | Some group =>
         sub_questions <- lift (json_loads group) ;;
         ret (PySeq.slice_to num_questions sub_questions)
     | None =>
         ret (map Json.JStr (PySeq.slice_to num_questions (parse_lines response_text)))
     end)%eff
    (fun _ => ret (map Json.JStr (_fallback_decomposition user_query num_questions))).

End Planner.
End Planner.


(** ** Scout *)

Module Scout.

(** One search result; the same object gains the extraction and scoring
    fields as it moves through Scout and Analyst, so those are optional. *)
Record Source : Type := mkSource {
  title : string;
  url : string;
  snippet : string;
  query : string;
  search_position : nat;
  extracted_content : option string;
  content_length : option nat;
  extraction_success : option bool;
  extraction_error : option string;
  relevance_score : option Q;
  quality_score : option Q
}.

(** One entry of the search API's [organic] list; every key may be absent. *)
Record OrganicItem : Type := mkItem {
  item_title : option string;
  item_link : option string;
  item_snippet : option string
}.

Definition min_sources_per_query : nat := 5.
Definition target_sources_per_query : nat := 3.
Definition max_search_results : nat := 12.

(** *** Deduplication *)

Fixpoint remove_duplicates_loop
  (seen_urls : gset string) (unique_results : list Source) (results : list Source)
  : list Source :=
  match results with
  | [] => unique_results
  | result :: rest =>
      let u := PyStr.lower (url result) in
      if negb (String.eqb u "") && negb (bool_decide (u ∈ seen_urls))
      then remove_duplicates_loop ({[ u ]} ∪ seen_urls) (unique_results ++ [result]) rest
      else remove_duplicates_loop seen_urls unique_results rest
  end.

Definition _remove_duplicates (results : list Source) : list Source :=
  remove_duplicates_loop ∅ [] results.

(** *** Relevance *)

(** [set(word.strip() for word in text.split() if len(word.strip()) > 2)] *)
Definition significant_words (text : string) : gset string :=
  list_to_set
    (map PyStr.strip
         (List.filter (fun word => (2 <? String.length (PyStr.strip word))%nat)
                 (PyStr.split text))).

Definition count (n : nat) : Q := inject_Z (Z.of_nat n).

(** [any(domain in url for domain in ['edu', 'org', 'gov'])] *)
Definition trusted_domain (u : string) : bool :=
  existsb (fun domain => PyStr.contains domain u) ["edu"; "org"; "gov"].

(** Python's [min(a, b)]: [b] only when it is strictly smaller. *)
Definition py_min (a b : Q) : Q :=
  match (b ?= a)%Q with Lt => b | _ => a end.

Definition _calculate_relevance_score (question : string) (source : Source) : Q :=
  let title_l := PyStr.lower (title source) in
  let snippet_l := PyStr.lower (snippet source) in
  let content_l := PyStr.lower (default "" (extracted_content source)) in
  let url_l := PyStr.lower (url source) in
  let query_words := significant_words (PyStr.lower question) in
  if bool_decide (query_words = ∅) then 0%Q
  else
    let title_words := significant_words title_l in
    let title_overlap := size (query_words ∩ title_words) in
    let title_score := ((count title_overlap / count (size query_words)) * (30 # 100))%Q in
    let content_words := significant_words content_l in
    let content_overlap := size (query_words ∩ content_words) in
    let content_score := ((count content_overlap / count (size query_words)) * (40 # 100))%Q in
    let snippet_words := significant_words snippet_l in
    let snippet_overlap := size (query_words ∩ snippet_words) in
    let snippet_score := ((count snippet_overlap / count (size query_words)) * (20 # 100))%Q in
    let quality0 := 0%Q in
    let quality1 :=
      if default false (extraction_success source) then (quality0 + (5 # 100))%Q else quality0 in
    let quality2 :=
      if trusted_domain url_l then (quality1 + (5 # 100))%Q else quality1 in
    let total_score := (title_score + content_score + snippet_score + quality2)%Q in
    py_min total_score 1%Q.

Definition set_relevance (r : Q) (s : Source) : Source :=
  mkSource (title s) (url s) (snippet s) (query s) (search_position s)
           (extracted_content s) (content_length s) (extraction_success s)
           (extraction_error s) (Some r) (quality_score s).

(** Stable insertion by decreasing key: [x] stood before every element of
    [l] in the input, so it goes in front of the elements it ties with. *)
Fixpoint insert_desc {A} (key : A -> Q) (x : A) (l : list A) : list A :=
  match l with
  | [] => [x]
  | y :: l' =>
      match (key x ?= key y)%Q with
      | Lt => y :: insert_desc key x l'
      | _ => x :: l
      end
  end.

(** [sorted(l, key=key, reverse=True)] *)
Definition sorted_desc {A} (key : A -> Q) (l : list A) : list A :=
  fold_right (insert_desc key) [] l.

Definition _rank_by_relevance (question : string) (sources : list Source) : list Source :=
  let scored := map (fun s => set_relevance (_calculate_relevance_score question s) s) sources in
  sorted_desc (fun s => default 0%Q (relevance_score s)) scored.

(** *** Searching, fetching, deepening *)

Section Effects.
Context {W : Type}.

(** The search API behind [requests.post]: the [organic] list of the JSON
    answer when it has one, or the exception raised by the request, by
    [raise_for_status] or by the JSON decoder. *)
Variable serper_post : string -> W -> outcome (option (list OrganicItem)) * W.
(** One page fetch: [requests.get], [raise_for_status], the text that
    BeautifulSoup leaves, whitespace collapsed ([cleaned_content]). *)
Variable http_get_text : string -> W -> outcome string * W.
(** Starting the worker pool ([ThreadPoolExecutor] and [submit]), which
    raises when no thread can be started. *)
Variable pool_start : W -> outcome unit * W.

Definition sleep (seconds : nat) : M W unit :=
  fun s => (Ok tt, mkState (world s) (trace s ++ [EvSleep seconds])).

(** The query as sent: at most twelve words, no quotes or parentheses. *)
Definition clean_query (q : string) : string :=
  let q1 :=
    if (12 <? length (PyStr.split q))%nat
    then PyStr.join " " (firstn 12 (PyStr.split q))
    else q in
  PyStr.replace ")" ""
    (PyStr.replace "(" ""
       (PyStr.replace (String PyStr.dquote_char EmptyString) "" q1)).

Fixpoint build_results (q : string) (position : nat) (items : list OrganicItem)
  : list Source :=
  match items with
  | [] => []
  | item :: rest =>
      mkSource (default "No title" (item_title item))
               (default "" (item_link item))
               (default "No snippet" (item_snippet item))
               q position None None None None None None
      :: build_results q (S position) rest
  end.

Definition _serper_search (q : string) : M W (list Source) :=
  let q := clean_query q in
  try_catch
    (data <- call (EvSearch q) (serper_post q) ;;
     ret (match data with
          | Some organic => build_results q 1 organic
          | None => []
          end))%eff
    (fun _ => ret []).

Definition with_content (text : string) (len : nat) (ok : bool) (err : option string)
  (s : Source) : Source :=
  mkSource (title s) (url s) (snippet s) (query s) (search_position s)
           (Some text) (Some len) (Some ok)
           (match err with Some e => Some e | None => extraction_error s end)
           (relevance_score s) (quality_score s).

Definition extract_single_url (result : Source) : M W (option Source) :=
  try_catch
    (if String.eqb (url result) "" then ret None
     else
       cleaned_content <- call (EvFetch (url result)) (http_get_text (url result)) ;;
       ret (Some (with_content (PyStr.take 1200 cleaned_content)
                               (String.length cleaned_content) true None result)))%eff
    (fun e =>
       ret (Some (with_content (snippet result) (String.length (snippet result))
                               false (Some (str e)) result))).

(** The pool is run as a sequential map: results are taken in submission
    order, and a worker that returns nothing contributes nothing. *)
Definition _extract_content_parallel (results : list Source) : M W (list Source) :=
  (call EvPool pool_start ;;;
   outcomes <- mapM extract_single_url results ;;
   ret (omap id outcomes))%eff.

Definition _deep_search_with_extraction (q : string) : M W (list Source) :=
  (direct_results <- _serper_search q ;;
   expanded_results <- _serper_search (q +:+ " guide examples") ;;
   let all_results := direct_results ++ expanded_results in
   let unique_results := _remove_duplicates all_results in
   _extract_content_parallel unique_results)%eff.

Definition deeper_terms (q : string) : list string :=
  [ q +:+ " research analysis";
    q +:+ " technical details";
    q +:+ " case studies examples" ].

Fixpoint search_deeper_loop (needed : Z) (terms : list string)
  (deeper_results : list Source) : M W (list Source) :=
  match terms with
  | [] => ret deeper_results
  | term :: rest =>
      if (needed <=? Z.of_nat (length deeper_results))%Z
      then ret deeper_results
      else
        (results <- _serper_search term ;;
         sleep 1 ;;;
         search_deeper_loop needed rest (deeper_results ++ firstn 3 results))%eff
  end.

Definition _search_deeper (q : string) (current_count : nat) : M W (list Source) :=
  let needed := (Z.of_nat min_sources_per_query - Z.of_nat current_count)%Z in
  (deeper_results <- search_deeper_loop needed (deeper_terms q) [] ;;
   ret (PySeq.slice_to needed deeper_results))%eff.

(** The [try] body of the loop of [deep_search_all_questions] for one
    question: the dictionary with the question's sources stored. *)
Definition search_one_question
  (all_sources_data : PyDict.t (list Source)) (question : string)
  : M W (PyDict.t (list Source)) :=
  (question_sources <- _deep_search_with_extraction question ;;
   additional_sources <-
     (if (length question_sources <? min_sources_per_query)%nat
      then _search_deeper question (length question_sources)
      else ret []) ;;
   let question_sources := question_sources ++ additional_sources in
   let ranked_sources := _rank_by_relevance question question_sources in
   let final_sources := firstn target_sources_per_query ranked_sources in
   let all_sources_data := PyDict.set question final_sources all_sources_data in
   sleep 2 ;;;
   ret all_sources_data)%eff.

(** One turn of the loop: the body under its handler. *)
Definition deep_search_step
  (all_sources_data : PyDict.t (list Source)) (question : string)
  : M W (PyDict.t (list Source)) :=
  try_catch
    (search_one_question all_sources_data question)
    (fun _ => ret (PyDict.set question [] all_sources_data)).

Fixpoint deep_search_loop
  (all_sources_data : PyDict.t (list Source)) (sub_questions : list string)
  : M W (PyDict.t (list Source)) :=
  match sub_questions with
  | [] => ret all_sources_data
  | question :: rest =>
      (all_sources_data <- deep_search_step all_sources_data question ;;
       deep_search_loop all_sources_data rest)%eff
  end.

Definition deep_search_all_questions (sub_questions : list string)
  : M W (PyDict.t (list Source)) :=
  deep_search_loop PyDict.empty sub_questions.

End Effects.
End Scout.

(** ** Analyst *)

Module Analyst.

(** One fact as the generation service returns it: a JSON object whose
    keys the code does not check. [_ai_extract_information] sets its
    [source_url] and [source_title] keys, which raises on anything but an
    object; [_fallback_synthesis] reads it with [f['fact']] and
    [f.get('confidence', 0)]. *)
Definition Fact : Type := PyDict.t Json.t.

Record SourceMeta : Type := mkMeta {
  url : string;
  title : string;
  quality_score : Q;
  relevance_score : Q
}.

(** The dictionary one extraction yields; the empty dictionary has no key.
    The facts are objects: on a response whose [key_information] holds
    anything else the tagging loop of [_ai_extract_information] raises, and
    the extraction is the empty dictionary. *)
Record Extraction : Type := mkExtraction {
  key_information : option (list Fact);
  main_points : option (list string);
  source_metadata : option SourceMeta
}.

Definition empty_extraction : Extraction := mkExtraction None None None.

Record KeyPoint : Type := mkKeyPoint {
  point : string;
  supporting_sources : list string;
  point_confidence : Q
}.

(** The JSON object asked of the synthesis call; each key may be absent. *)
Record SynthesisResult : Type := mkSynthesis {
  synthesized_answer : option string;
  synthesis_key_points : option (list KeyPoint);
  overall_confidence : option Q;
  information_completeness : option Q
}.

(** The answer to one sub-question; the fallback and failure answers leave
    the later keys out. *)
Record Answer : Type := mkAnswer {
  answer : string;
  key_points : option (list KeyPoint);
  source_urls : list string;
  confidence_score : Q;
  completeness_score : option Q;
  sources_count : option nat
}.

Record Insights : Type := mkInsights {
  key_insights : option (list string);
  thematic_connections : option (list (string * list string));
  knowledge_synthesis : option string
}.

Record QualityCount : Type := mkQualityCount {
  total_sources : nat;
  quality_sources : nat
}.

Record AnalysisResults : Type := mkAnalysis {
  sub_question_answers : PyDict.t Answer;
  synthesized_insights : Insights;
  source_quality_analysis : PyDict.t QualityCount;
  total_sources_analyzed : nat;
  high_quality_sources : nat
}.

Definition set_quality (q : Q) (s : Scout.Source) : Scout.Source :=
  Scout.mkSource (Scout.title s) (Scout.url s) (Scout.snippet s) (Scout.query s)
    (Scout.search_position s) (Scout.extracted_content s) (Scout.content_length s)
    (Scout.extraction_success s) (Scout.extraction_error s)
    (Scout.relevance_score s) (Some q).

Definition Qleb (a b : Q) : bool :=
  match (a ?= b)%Q with Gt => false | _ => true end.

Definition content_of (s : Scout.Source) : string :=
  default "" (Scout.extracted_content s).

Definition source_quality (source : Scout.Source) : Q :=
  let content_length := String.length (content_of source) in
  let relevance := default 0%Q (Scout.relevance_score source) in
  let q0 := 0%Q in
  let q1 :=
    if (500 <=? content_length)%nat then (q0 + (3 # 10))%Q
    else if (200 <=? content_length)%nat then (q0 + (2 # 10))%Q
    else if (100 <=? content_length)%nat then (q0 + (1 # 10))%Q
    else q0 in
  let q2 := (q1 + Scout.py_min (relevance * (4 # 10)) (4 # 10))%Q in
  let q3 := if default false (Scout.extraction_success source)
            then (q2 + (2 # 10))%Q else q2 in
  if Scout.trusted_domain (PyStr.lower (Scout.url source))
  then (q3 + (1 # 10))%Q else q3.

Definition passes_thresholds (source : Scout.Source) : bool :=
  (100 <=? String.length (content_of source))%nat
  && Qleb (2 # 10) (default 0%Q (Scout.relevance_score source)).

Definition _assess_source_quality (sources : list Scout.Source) : list Scout.Source :=
  let scored := map (fun s => set_quality (source_quality s) s) sources in
  let quality_sources := List.filter passes_thresholds scored in
  firstn 3 (Scout.sorted_desc (fun s => default 0%Q (Scout.quality_score s))
                              quality_sources).

Section Effects.
Context {W : Type}.

(** The generation service: the response text, or the exception raised. *)
Variable generate : string -> W -> outcome string * W.
(** Prompt texts (f-strings over the arguments shown). *)
Variable extraction_prompt : string -> string -> Scout.Source -> string.
Variable synthesis_prompt : string -> list Fact -> nat -> string.
Variable insights_prompt : PyDict.t Answer -> string.
(** [json.loads(self._clean_json_response(text))] at each call site, read
    into the record that call site expects; the exception is the decoder's,
    or the one the call site raises, inside its [try], on a value of
    another shape. *)
Variable parse_extraction : string -> outcome Extraction.
Variable parse_synthesis : string -> outcome SynthesisResult.
Variable parse_insights : string -> outcome Insights.

Definition call_generate (prompt : string) : M W string :=
  call (EvGenerate prompt) (generate prompt).

(** [fact['source_url'] = source.get('url')] and
    [fact['source_title'] = source.get('title')] *)
Definition tag_fact (source : Scout.Source) (f : Fact) : Fact :=
  PyDict.set "source_title" (Json.JStr (Scout.title source))
    (PyDict.set "source_url" (Json.JStr (Scout.url source)) f).

Definition _ai_extract_information
  (content sub_question : string) (source : Scout.Source) : M W Extraction :=
  try_catch
    (response_text <-
       call_generate (extraction_prompt sub_question (PyStr.take 1500 content) source) ;;
     extraction_data <- lift (parse_extraction response_text) ;;
     ret (mkExtraction
            (option_map (map (tag_fact source)) (key_information extraction_data))
            (main_points extraction_data)
            (Some (mkMeta (Scout.url source) (Scout.title source)
                          (default 0%Q (Scout.quality_score source))
                          (default 0%Q (Scout.relevance_score source))))))%eff
    (fun _ => ret empty_extraction).

(** [extraction_result and extraction_result.get('key_information')] *)
Definition has_key_information (e : Extraction) : bool :=
  match key_information e with
  | Some (_ :: _) => true
  | _ => false
  end.

Fixpoint _extract_information_from_sources
  (sources : list Scout.Source) (sub_question : string) : M W (list Extraction) :=
  match sources with
  | [] => ret []
  | source :: rest =>
      (found <-
         try_catch
           (let content := content_of source in
            if (String.length content <? 50)%nat then ret []
            else
              extraction_result <- _ai_extract_information content sub_question source ;;
              ret (if has_key_information extraction_result
                   then [extraction_result] else []))
           (fun _ => ret []) ;;
       others <- _extract_information_from_sources rest sub_question ;;
       ret (found ++ others))%eff
  end.

Definition collect_facts (extractions : list Extraction) : list Fact :=
  flat_map (fun e => default [] (key_information e)) extractions.

Definition collect_sources (extractions : list Extraction) : list SourceMeta :=
  omap source_metadata extractions.

(** [[s['url'] for s in all_sources if s.get('url')]] *)
Definition urls_of (all_sources : list SourceMeta) : list string :=
  List.filter (fun u => negb (String.eqb u "")) (map url all_sources).

(** [f.get('confidence', 0) >= 0.7]: a [TypeError] when the value is not
    a number. *)
Definition is_high_conf (f : Fact) : outcome bool :=
  let value := default (Json.JInt 0) (PyDict.get "confidence" f) in
  match Json.number value with
  | Some c => Ok (Qleb (7 # 10) c)
  | None =>
      Raise (Exception ("'>=' not supported between instances of '"
                        +:+ Json.type_name value +:+ "' and 'float'"))
  end.

(** [[f for f in all_facts if f.get('confidence', 0) >= 0.7]], evaluated
    from the left. *)
Fixpoint high_conf (all_facts : list Fact) : outcome (list Fact) :=
  match all_facts with
  | [] => Ok []
  | f :: rest =>
      and_then (is_high_conf f) (fun keep =>
      and_then (high_conf rest) (fun kept =>
      Ok (if keep then f :: kept else kept)))
  end.

(** [[f['fact'] for f in facts]]: a [KeyError], whose text is the quoted
    key, at the first fact without the key. *)
Fixpoint fact_values (facts : list Fact) : outcome (list Json.t) :=
  match facts with
  | [] => Ok []
  | f :: rest =>
      match PyDict.get "fact" f with
      | None => Raise (Exception "'fact'")
      | Some value =>
          and_then (fact_values rest) (fun values => Ok (value :: values))
      end
  end.

(** The items [str.join] accepts: a [TypeError] at the first item, counted
    from [position], that is not a string. *)
Fixpoint join_items (position : nat) (items : list Json.t) : outcome (list string) :=
  match items with
  | [] => Ok []
  | Json.JStr text :: rest =>
      and_then (join_items (S position) rest) (fun texts => Ok (text :: texts))
  | value :: _ =>
      Raise (Exception ("sequence item " +:+ PyStr.of_nat position
                        +:+ ": expected str instance, "
                        +:+ Json.type_name value +:+ " found"))
  end.

(** [". ".join([f['fact'] for f in facts])] *)
Definition join_facts (facts : list Fact) : outcome string :=
  and_then (fact_values facts) (fun values =>
  and_then (join_items 0 values) (fun texts =>
  Ok (PyStr.join ". " texts))).

Definition _fallback_synthesis
  (all_facts : list Fact) (all_sources : list SourceMeta) (sub_question : string)
  : outcome Answer :=
  match all_facts with
  | [] =>
      Ok (mkAnswer ("Unable to find sufficient information for: " +:+ sub_question)
                   None [] 0%Q None None)
  | _ =>
      and_then (high_conf all_facts) (fun high_conf_facts =>
      and_then
        match high_conf_facts with
        | _ :: _ => join_facts (firstn 3 high_conf_facts)
        | [] => join_facts (firstn 3 all_facts)
        end (fun answer_text =>
      Ok (mkAnswer answer_text None (urls_of all_sources) (6 # 10) None
                   (Some (length all_sources)))))
  end.

Definition _synthesize_information
  (extractions : list Extraction) (sub_question : string) : M W Answer :=
  match extractions with
  | [] =>
      ret (mkAnswer ("No sufficient information found for: " +:+ sub_question)
                    None [] 0%Q None None)
  | _ =>
      let all_facts := collect_facts extractions in
      let all_sources := collect_sources extractions in
      try_catch
        (response_text <-
           call_generate (synthesis_prompt sub_question all_facts (length all_sources)) ;;
         synthesis_result <- lift (parse_synthesis response_text) ;;
         ret (mkAnswer (default "" (synthesized_answer synthesis_result))
                       (Some (default [] (synthesis_key_points synthesis_result)))
                       (urls_of all_sources)
                       (default 0%Q (overall_confidence synthesis_result))
                       (Some (default 0%Q (information_completeness synthesis_result)))
                       (Some (length all_sources))))%eff
        (fun _ => lift (_fallback_synthesis all_facts all_sources sub_question))
  end.

Definition _generate_overall_insights (answers : PyDict.t Answer) : M W Insights :=
  try_catch
    (response_text <- call_generate (insights_prompt answers) ;;
     lift (parse_insights response_text))%eff
    (fun _ =>
       ret (mkInsights (Some ["Analysis completed across multiple sources"]) None
                       (Some "Information synthesized from multiple sources"))).

(** The per-question part of [analyze_and_synthesize]: quality filter,
    extraction, synthesis. *)
Definition answer_question (sub_question : string) (sources : list Scout.Source)
  : M W (Answer * nat) :=
  (let quality := _assess_source_quality sources in
   source_extractions <- _extract_information_from_sources quality sub_question ;;
   synthesized_answer <- _synthesize_information source_extractions sub_question ;;
   ret (synthesized_answer, length quality))%eff.

(** State of the loop: the answers, the quality counts, the source total. *)
Definition analysis_step
  (acc : PyDict.t Answer * PyDict.t QualityCount * nat)
  (entry : string * list Scout.Source)
  : M W (PyDict.t Answer * PyDict.t QualityCount * nat) :=
  let '(answers, counts, total) := acc in
  let '(sub_question, sources) := entry in
  match sources with
  | [] => ret acc
  | _ =>
      try_catch
        (res <- answer_question sub_question sources ;;
         let '(synthesized_answer, n_quality) := res in
         ret (PyDict.set sub_question synthesized_answer answers,
              PyDict.set sub_question (mkQualityCount (length sources) n_quality) counts,
              (total + length sources)%nat))%eff
        (fun e =>
           ret (PyDict.set sub_question
                  (mkAnswer ("Analysis failed: " +:+ str e) None [] 0%Q None None)
                  answers,
                counts, total))
  end.

Fixpoint analysis_loop
  (acc : PyDict.t Answer * PyDict.t QualityCount * nat)
  (items : list (string * list Scout.Source))
  : M W (PyDict.t Answer * PyDict.t QualityCount * nat) :=
  match items with
  | [] => ret acc
  | entry :: rest =>
      (acc <- analysis_step acc entry ;; analysis_loop acc rest)%eff
  end.

Definition analyze_and_synthesize (sources_data : PyDict.t (list Scout.Source))
  : M W AnalysisResults :=
  (acc <- analysis_loop (PyDict.empty, PyDict.empty, 0%nat) sources_data ;;
   let '(answers, counts, total) := acc in
   insights <- _generate_overall_insights answers ;;
   ret (mkAnalysis answers insights counts total 0))%eff.

End Effects.
End Analyst.

(** ** Writer *)

Module Writer.

Record CitationEntry : Type := mkCitation {
  title : string;
  url : string;
  question_context : string
}.

(** Report metadata; the fallback report carries only the first keys. *)
Record Metadata : Type := mkMetadata {
  generation_timestamp : string;
  user_topic : string;
  fallback_mode : option bool;
  word_count : nat;
  citation_count : nat;
  section_count : option nat;
  sources_analyzed : option nat;
  report_quality_score : option Q;
  sub_questions_covered : option nat
}.

Record Report : Type := mkReport {
  markdown_report : string;
  metadata : Metadata;
  source_citation_map : option (PyDict.t CitationEntry)
}.

Definition domain_titles : list (string * string) :=
  [ ("arxiv.org", "ArXiv Research Paper");
    ("github.com", "GitHub Repository");
    ("stackoverflow.com", "Stack Overflow");
    ("medium.com", "Medium Article");
    ("towardsdatascience.com", "Towards Data Science");
    ("pytorch.org", "PyTorch Documentation");
    ("tensorflow.org", "TensorFlow Documentation");
    ("wikipedia.org", "Wikipedia");
    ("nature.com", "Nature Journal");
    ("sciencedirect.com", "ScienceDirect") ].

Definition slash : ascii := ascii_of_nat 47.

(** An [IndexError] from [url.split('/')[2]] is caught and gives "Source". *)
Definition _generate_source_title_from_url (u : string) : string :=
  if String.eqb u "" then "Source"
  else
    match nth_error (PyStr.split_on slash u) 2 with
    | None => "Source"
    | Some part =>
        let domain := PyStr.replace "www." "" part in
        match List.find (fun entry => PyStr.contains (fst entry) domain) domain_titles with
        | Some entry => snd entry
        | None =>
            PyStr.title
              (PyStr.replace ".edu" ""
                 (PyStr.replace ".org" "" (PyStr.replace ".com" "" domain)))
        end
    end.

(** The inner loop of [_build_source_citation_map]: the URLs of one answer. *)
Fixpoint add_source_urls (question : string) (source_urls : list string)
  (citation_map : PyDict.t CitationEntry) : PyDict.t CitationEntry :=
  match source_urls with
  | [] => citation_map
  | u :: rest =>
      add_source_urls question rest
        (if PyDict.mem u citation_map then citation_map
         else PyDict.set u
                (mkCitation (_generate_source_title_from_url u) u question)
                citation_map)
  end.

(** The outer loop, over the answers in dictionary order. *)
Fixpoint build_citation_loop (items : PyDict.t Analyst.Answer)
  (citation_map : PyDict.t CitationEntry) : PyDict.t CitationEntry :=
  match items with
  | [] => citation_map
  | (question, answer_data) :: rest =>
      build_citation_loop rest
        (add_source_urls question (Analyst.source_urls answer_data) citation_map)
  end.

Definition _build_source_citation_map (sub_question_answers : PyDict.t Analyst.Answer)
  : PyDict.t CitationEntry :=
  build_citation_loop sub_question_answers PyDict.empty.

Definition nl : string := String PyStr.newline_char EmptyString.

Section Effects.
Context {W : Type}.

Variable generate : string -> W -> outcome string * W.
(** [datetime.now()] rendered with [strftime] (first component) and with
    [isoformat] (second component). *)
Variable clock : W -> (string * string) * W.
(** The report prompt (an f-string over the arguments shown). *)
Variable report_prompt :
  string -> PyDict.t Analyst.Answer -> Analyst.Insights -> PyDict.t CitationEntry -> string.
(** The regular-expression helpers: the number of inline citations, the
    number of header lines, and the spacing clean-up of a report. *)
Variable count_citations : string -> nat.
Variable count_sections : string -> nat.
Variable _ensure_markdown_formatting : string -> string.

Definition call_generate (prompt : string) : M W string :=
  call (EvGenerate prompt) (generate prompt).

Definition now : M W (string * string) :=
  call EvClock (fun w => let '(t, w') := clock w in (Ok t, w')).

Definition _generate_markdown_report (topic : string)
  (sub_question_answers : PyDict.t Analyst.Answer)
  (synthesized_insights : Analyst.Insights)
  (source_citation_map : PyDict.t CitationEntry) : M W string :=
  try_catch
    (response_text <-
       call_generate (report_prompt topic sub_question_answers synthesized_insights
                                    source_citation_map) ;;
     ret (PyStr.strip response_text))%eff
    (fun e => raise e).

Definition _add_report_header (report : string) : M W string :=
  (t <- now ;;
   ret (PyStr.join nl
          [ "---";
            "Generated: " +:+ fst t;
            "Generator: Enhanced AI Research Engine";
            "Format: Evidence-Backed Research Report";
            "---";
            "";
            "" ] +:+ report))%eff.

Definition _validate_and_format_report (markdown_report : string)
  (source_citation_map : PyDict.t CitationEntry) : M W string :=
  let formatted_report := _ensure_markdown_formatting markdown_report in
  _add_report_header formatted_report.

Definition _generate_report_metadata (topic report : string)
  (analysis_results : Analyst.AnalysisResults) : M W Metadata :=
  let word_count := length (PyStr.split report) in
  let citation_count := count_citations report in
  let section_count := count_sections report in
  let total_sources := Analyst.total_sources_analyzed analysis_results in
  (t <- now ;;
   ret (mkMetadata (snd t) topic None word_count citation_count
          (Some section_count) (Some total_sources)
          (Some (Scout.py_min (Scout.count citation_count * (1 # 10)) 1)%Q)
          (Some (length (Analyst.sub_question_answers analysis_results)))))%eff.

Definition fallback_text (timestamp topic : string) (n_answers : nat) : string :=
  PyStr.join nl
    [ "---";
      "Generated: " +:+ timestamp;
      "Generator: Enhanced AI Research Engine (Fallback Mode)";
      "---";
      "";
      "# " +:+ topic;
      "";
      "## Report Generation Notice";
      "";
      "This report was generated in fallback mode due to technical issues.";
      "";
      "## Research Summary";
      "";
      "Research was completed with " +:+ PyStr.of_nat n_answers
        +:+ " sub-questions analyzed.";
      "";
      "## Recommendations";
      "";
      "For complete analysis:";
      "1. Review saved research data";
      "2. Re-run report generation";
      "" ].

Definition _generate_fallback_report (topic : string)
  (analysis_results : Analyst.AnalysisResults) : M W Report :=
  (t1 <- now ;;
   let fallback_report :=
     fallback_text (fst t1) topic
       (length (Analyst.sub_question_answers analysis_results)) in
   t2 <- now ;;
   ret (mkReport fallback_report
          (mkMetadata (snd t2) topic (Some true)
                      (length (PyStr.split fallback_report)) 0 None None None None)
          None))%eff.

(** The body of the [try] of [generate_comprehensive_report]: draft,
    validate and format, compute the metadata. *)
Definition draft_report (topic : string)
  (analysis_results : Analyst.AnalysisResults)
  (source_citation_map : PyDict.t CitationEntry) : M W Report :=
  (markdown_report <-
     _generate_markdown_report topic
       (Analyst.sub_question_answers analysis_results)
       (Analyst.synthesized_insights analysis_results)
       source_citation_map ;;
   validated_report <- _validate_and_format_report markdown_report source_citation_map ;;
   report_metadata <- _generate_report_metadata topic validated_report analysis_results ;;
   ret (mkReport validated_report report_metadata (Some source_citation_map)))%eff.

Definition generate_comprehensive_report (topic : string)
  (analysis_results : Analyst.AnalysisResults) : M W Report :=
  let sub_question_answers := Analyst.sub_question_answers analysis_results in
  let source_citation_map := _build_source_citation_map sub_question_answers in
  try_catch
    (draft_report topic analysis_results source_citation_map)
    (fun _ => _generate_fallback_report topic analysis_results).

End Effects.
End Writer.

(** ** Orchestrator *)

Module Engine.

(** [research_context]: the keys present grow as the phases complete.
    Times are clock readings in seconds. *)
Record ResearchContext : Type := mkContext {
  user_query : string;
  start_time : Z;
  agents_used : list string;
  sub_questions : option (list Json.t);
  sources_data : option (PyDict.t (list Scout.Source));
  analysis_results : option Analyst.AnalysisResults;
  report_results : option Writer.Report;
  end_time : option Z;
  duration : option Z
}.

(** What [comprehensive_research] returns: the success dictionary or the
    failure dictionary, which has no report key. *)
Inductive Result : Type :=
| Success (research_context : ResearchContext) (markdown_report : string)
    (metadata : Writer.Metadata)
    (source_citation_map : PyDict.t Writer.CitationEntry)
    (analysis : Analyst.AnalysisResults)
| Failure (error : string) (research_context : ResearchContext).

Definition success (r : Result) : bool :=
  match r with Success _ _ _ _ _ => true | Failure _ _ => false end.

Definition context_of (r : Result) : ResearchContext :=
  match r with Success c _ _ _ _ => c | Failure _ c => c end.

Definition report_of (r : Result) : option string :=
  match r with Success _ md _ _ _ => Some md | Failure _ _ => None end.

Definition error_of (r : Result) : option string :=
  match r with Success _ _ _ _ _ => None | Failure e _ => Some e end.

Definition initial_context (q : string) (t : Z) : ResearchContext :=
  mkContext q t ["planner"; "scout"; "analyst"; "writer"]
            None None None None None None.

Definition with_sub_questions (v : list Json.t) (c : ResearchContext) : ResearchContext :=
  mkContext (user_query c) (start_time c) (agents_used c) (Some v)
            (sources_data c) (analysis_results c) (report_results c)
            (end_time c) (duration c).

Definition with_sources_data (v : PyDict.t (list Scout.Source)) (c : ResearchContext)
  : ResearchContext :=
  mkContext (user_query c) (start_time c) (agents_used c) (sub_questions c)
            (Some v) (analysis_results c) (report_results c)
            (end_time c) (duration c).

Definition with_analysis_results (v : Analyst.AnalysisResults) (c : ResearchContext)
  : ResearchContext :=
  mkContext (user_query c) (start_time c) (agents_used c) (sub_questions c)
            (sources_data c) (Some v) (report_results c)
            (end_time c) (duration c).

Definition with_report_results (v : Writer.Report) (c : ResearchContext)
  : ResearchContext :=
  mkContext (user_query c) (start_time c) (agents_used c) (sub_questions c)
            (sources_data c) (analysis_results c) (Some v)
            (end_time c) (duration c).

Definition with_end_time (v : Z) (c : ResearchContext) : ResearchContext :=
  mkContext (user_query c) (start_time c) (agents_used c) (sub_questions c)
            (sources_data c) (analysis_results c) (report_results c)
            (Some v) (Some (v - start_time c)%Z).

Section Engine.
Context {W : Type}.

(** The four components held by the engine. *)
Variable planner : string -> Z -> M W (list Json.t).
Variable scout : list Json.t -> M W (PyDict.t (list Scout.Source)).
Variable analyst : PyDict.t (list Scout.Source) -> M W Analyst.AnalysisResults.
Variable writer : string -> Analyst.AnalysisResults -> M W Writer.Report.
(** [datetime.now()] *)
Variable clock : W -> Z * W.

Definition now : M W Z :=
  call EvClock (fun w => let '(t, w') := clock w in (Ok t, w')).

(** Code that updates the [research_context] dictionary in place: the
    dictionary is threaded through, and an exception leaves it as the
    statements before the raise made it. *)
Definition CM (A : Type) : Type :=
  ResearchContext -> M W (outcome A * ResearchContext).

Definition cret {A} (a : A) : CM A := fun c => ret (Ok a, c).

Definition cbind {A B} (m : CM A) (k : A -> CM B) : CM B :=
  fun c =>
    (r <- m c ;;
     match r with
     | (Ok a, c') => k a c'
     | (Raise e, c') => ret (Raise e, c')
     end)%eff.

(** A component call made while the context is [c]. *)
Definition run {A} (m : M W A) : CM A :=
  fun c => try_catch (a <- m ;; ret (Ok a, c))%eff (fun e => ret (Raise e, c)).

(** [research_context[key] = value] *)
Definition store (f : ResearchContext -> ResearchContext) : CM unit :=
  fun c => ret (Ok tt, f c).

Definition current : CM ResearchContext := fun c => ret (Ok c, c).

(** The body of the [try] of [comprehensive_research]. *)
Definition research_phases (q : string) (num_sub_questions : Z) : CM Result :=
  cbind (run (planner q num_sub_questions)) (fun sub_qs =>
  cbind (store (with_sub_questions sub_qs)) (fun _ =>
  cbind (run (scout sub_qs)) (fun sources =>
  cbind (store (with_sources_data sources)) (fun _ =>
  cbind (run (analyst sources)) (fun analysis =>
  cbind (store (with_analysis_results analysis)) (fun _ =>
  cbind (run (writer q analysis)) (fun report =>
  cbind (store (with_report_results report)) (fun _ =>
  cbind (run now) (fun t1 =>
  cbind (store (with_end_time t1)) (fun _ =>
  cbind current (fun research_context =>
  cret (Success research_context
          (Writer.markdown_report report)
          (Writer.metadata report)
          (default PyDict.empty (Writer.source_citation_map report))
          analysis)))))))))))).

Definition comprehensive_research (q : string) (num_sub_questions : Z) : M W Result :=
  (t0 <- now ;;
   r <- research_phases q num_sub_questions (initial_context q t0) ;;
   match r with
   | (Ok result, _) => ret result
   | (Raise e, research_context) => ret (Failure (str e) research_context)
   end)%eff.

End Engine.

(** The two methods kept for older callers. *)

(** What [search_web] returns. *)
Record WebSearch : Type := mkWebSearch {
  search_success : bool;
  results : list Scout.Source;
  total_results : nat;
  searched_query : string
}.

Section Legacy.
Context {W : Type}.
Variable planner : string -> Z -> M W (list Json.t).
Variable scout : list Json.t -> M W (PyDict.t (list Scout.Source)).
Variable analyst : PyDict.t (list Scout.Source) -> M W Analyst.AnalysisResults.
Variable writer : string -> Analyst.AnalysisResults -> M W Writer.Report.
Variable clock : W -> Z * W.
Variable serper_post :
  string -> W -> outcome (option (list Scout.OrganicItem)) * W.

(** [analyze_with_ai]: neither [sources_text] nor [timeout] is read; the
    research runs with the default number of sub-questions. The failure
    dictionary always has its error key. *)
Definition analyze_with_ai (sources_text user_query : string) (timeout : Z)
  : M W string :=
  (result <- comprehensive_research planner scout analyst writer clock user_query 3 ;;
   ret (match result with
        | Success _ markdown_report _ _ _ => markdown_report
        | Failure error _ => "Research failed: " +:+ error
        end))%eff.

Definition search_web (q : string) (num_results : Z) : M W WebSearch :=
  (results <- Scout._serper_search serper_post q ;;
   ret (mkWebSearch true (PySeq.slice_to num_results results) (length results) q))%eff.

End Legacy.
End Engine.

(** ** Collaboration manager: cross-references between personas *)

Module Collab.

(** The result of one persona; [_find_cross_references] reads only its
    [key_insights], with [[]] when the key is absent. *)
Record AgentResult : Type := mkAgentResult {
  key_insights : option (list string);
  analysis : option string;
  executive_summary : option string
}.

Record CrossRef : Type := mkCrossRef {
  agent1 : string;
  agent2 : string;
  insight1 : string;
  insight2 : string;
  similarity : Q
}.

Definition word_set (text : string) : gset string :=
  list_to_set (PyStr.split (PyStr.lower text)).

Definition _calculate_text_similarity (text1 text2 : string) : Q :=
  let words1 := word_set text1 in
  let words2 := word_set text2 in
  let intersection := words1 ∩ words2 in
  let union := words1 ∪ words2 in
  if bool_decide (union = ∅) then 0%Q
  else (Scout.count (size intersection) / Scout.count (size union))%Q.

Definition Qltb (a b : Q) : bool :=
  match (a ?= b)%Q with Lt => true | _ => false end.

(** [agent_results[agent].get("key_insights", [])]; the agent is a key of
    the dictionary, so the lookup finds it. *)
Definition insights_of (agent_results : PyDict.t AgentResult) (agent : string)
  : list string :=
  match PyDict.get agent agent_results with
  | Some result => default [] (key_insights result)
  | None => []
  end.

(** The two innermost loops, for one pair of personas. *)
Definition pair_cross_refs (agent_results : PyDict.t AgentResult)
  (a1 a2 : string) : list CrossRef :=
  flat_map
    (fun i1 =>
       flat_map
         (fun i2 =>
            let sim := _calculate_text_similarity i1 i2 in
            if Qltb (3 # 10) sim then [mkCrossRef a1 a2 i1 i2 sim] else [])
         (insights_of agent_results a2))
    (insights_of agent_results a1).

(** The two outer loops: each persona against the personas after it. *)
Fixpoint all_cross_refs (agent_results : PyDict.t AgentResult)
  (agents : list string) : list CrossRef :=
  match agents with
  | [] => []
  | a1 :: rest =>
      flat_map (pair_cross_refs agent_results a1) rest
      ++ all_cross_refs agent_results rest
  end.

Definition _find_cross_references (agent_results : PyDict.t AgentResult)
  : list CrossRef :=
  firstn 5 (all_cross_refs agent_results (PyDict.keys agent_results)).

(** [any(keyword in text.lower() for keyword in keywords)] *)
Definition mentions_any (keywords : list string) (text : string) : bool :=
  existsb (fun keyword => PyStr.contains keyword (PyStr.lower text)) keywords.

Definition specialist_keywords : PyDict.t (list string) :=
  [ ("doctor", ["clinical"; "medical"; "treatment"; "symptoms"; "diagnosis"; "therapy"]);
    ("financial", ["investment"; "financial"; "return"; "risk"; "valuation"; "profit"]);
    ("market", ["market"; "competitive"; "industry"; "trends"; "share"; "growth"]);
    ("research", ["study"; "research"; "evidence"; "data"; "findings"; "analysis"]);
    ("developer", ["technical"; "architecture"; "implementation"; "scalability";
                   "performance"]);
    ("writer", ["content"; "communication"; "messaging"; "audience"; "strategy"]);
    ("analyst", ["metrics"; "statistics"; "patterns"; "insights"; "correlation"]) ].

Definition full_stop : ascii := ascii_of_nat 46.

Definition _extract_specialist_findings (agent_result : AgentResult)
  (agent_id : string) : list string :=
  let analysis := default "" (analysis agent_result) in
  let keywords := default [] (PyDict.get agent_id specialist_keywords) in
  let sentences := PyStr.split_on full_stop analysis in
  let findings :=
    List.filter
      (fun sentence =>
         mentions_any keywords sentence && (20 <? String.length sentence)%nat)
      (map PyStr.strip sentences) in
  firstn 3 findings.

(** The text read for themes: per persona, analysis, a space, summary. *)
Definition all_text (agent_results : PyDict.t AgentResult) : string :=
  fold_left
    (fun text result =>
       text +:+ ((default "" (analysis result) +:+ " ")
                 +:+ default "" (executive_summary result)))
    (PyDict.values agent_results) "".

Definition stop_words : list string :=
  [ "the"; "and"; "or"; "but"; "in"; "on"; "at"; "to"; "for"; "of"; "with"; "by";
    "is"; "are"; "was"; "were"; "be"; "been"; "have"; "has"; "had"; "do"; "does";
    "did"; "will"; "would"; "could"; "should"; "may"; "might"; "can"; "must";
    "shall"; "this"; "that"; "these"; "those"; "a"; "an" ].

(** The characters stripped from both ends of a word. *)
Definition theme_punctuation : list ascii :=
  list_ascii_of_string ".,!?" ++ [PyStr.dquote_char] ++ list_ascii_of_string ";()[]{}".

(** [s.strip(chars)] *)
Definition strip_chars (chars : list ascii) (s : string) : string :=
  let stripped c := existsb (Ascii.eqb c) chars in
  PyStr.rstrip_by stripped (PyStr.lstrip_by stripped s).

(** One turn of the counting loop. *)
Definition count_theme_word (common_words : PyDict.t nat) (word : string)
  : PyDict.t nat :=
  let word := strip_chars theme_punctuation word in
  if (4 <? String.length word)%nat && negb (existsb (String.eqb word) stop_words)
  then PyDict.set word (default 0 (PyDict.get word common_words) + 1) common_words
  else common_words.

Definition _identify_common_themes (agent_results : PyDict.t AgentResult)
  : list string :=
  let words := PyStr.split (PyStr.lower (all_text agent_results)) in
  let common_words := fold_left count_theme_word words PyDict.empty in
  let sorted_themes :=
    Scout.sorted_desc (fun theme => Scout.count (snd theme)) common_words in
  map fst (firstn 5 sorted_themes).

Definition recommendation_keywords : list string :=
  ["recommend"; "suggest"; "should"; "consider"; "advise"].

Definition _extract_recommendations (synthesis_text : string) : list string :=
  let lines := PyStr.split_on PyStr.newline_char synthesis_text in
  let recommendations :=
    List.filter
      (fun line =>
         mentions_any recommendation_keywords line
         && ((20 <? String.length line)%nat && negb (PyStr.startswith "#" line)))
      (map PyStr.strip lines) in
  firstn 5 recommendations.

End Collab.

(** * Properties *)

(** ** Slices and dictionaries *)

Module PySeqFacts.
Import PySeq.

Lemma slice_to_nonneg {A} (n : Z) (l : list A) :
  (0 <= n)%Z -> slice_to n l = firstn (Z.to_nat n) l.
Proof.
  intros Hn. unfold slice_to.
  destruct (Z.ltb_spec n 0) as [Hlt | _]; [lia | reflexivity].
Qed.

Lemma slice_to_length_le {A} (n : Z) (l : list A) :
  (0 <= n)%Z -> length (slice_to n l) <= Z.to_nat n.
Proof.
  intros Hn. rewrite slice_to_nonneg by exact Hn.
  rewrite length_firstn. lia.
Qed.

End PySeqFacts.

Module PyDictFacts.
Import PyDict.
Section Dict.
Context {V : Type}.
Implicit Types (d : PyDict.t V) (k : string) (v : V).

Lemma mem_true_iff k d : mem k d = true <-> In k (keys d).
Proof.
  unfold mem. induction d as [| [k' v] d IH]; simpl.
  - split; [discriminate | tauto].
  - destruct (String.eqb_spec k k') as [-> | Hne].
    + split; auto.
    + rewrite IH. split; [auto | intros [Heq | Hin]; congruence].
Qed.

Lemma mem_false_iff k d : mem k d = false <-> ~ In k (keys d).
Proof.
  rewrite <- mem_true_iff. destruct (mem k d); split; congruence.
Qed.

Lemma get_None_iff k d : get k d = None <-> ~ In k (keys d).
Proof.
  rewrite <- mem_false_iff. unfold mem.
  destruct (get k d); split; congruence.
Qed.

Lemma get_set_eq k v d : get k (set k v d) = Some v.
Proof.
  induction d as [| [k' v'] d IH]; simpl.
  - now rewrite String.eqb_refl.
  - destruct (String.eqb_spec k k') as [-> | Hne]; simpl.
    + now rewrite String.eqb_refl.
    + destruct (String.eqb_spec k k'); [contradiction | exact IH].
Qed.

Lemma get_set_ne k k0 v d : k0 <> k -> get k0 (set k v d) = get k0 d.
Proof.
  intros Hne. induction d as [| [k' v'] d IH]; simpl.
  - destruct (String.eqb_spec k0 k); [contradiction | reflexivity].
  - destruct (String.eqb_spec k k') as [-> | Hkk']; simpl.
    + destruct (String.eqb_spec k0 k'); [contradiction | reflexivity].
    + destruct (String.eqb_spec k0 k'); [reflexivity | exact IH].
Qed.

Lemma keys_set k v d :
  keys (set k v d) = if mem k d then keys d else keys d ++ [k].
Proof.
  unfold mem. induction d as [| [k' v'] d IH]; simpl; [reflexivity |].
  destruct (String.eqb_spec k k') as [-> | Hne]; simpl; [reflexivity |].
  rewrite IH. now destruct (get k d).
Qed.

Lemma in_keys_set k0 k v d :
  In k0 (keys (set k v d)) <-> k0 = k \/ In k0 (keys d).
Proof.
  rewrite keys_set. destruct (mem k d) eqn:Hm.
  - apply mem_true_iff in Hm. split; [auto | intros [-> | H]; auto].
  - rewrite in_app_iff. simpl. split.
    + intros [H | [H | []]]; auto.
    + intros [-> | H]; auto.
Qed.

Lemma wf_empty : wf (@empty V).
Proof. constructor. Qed.

Lemma wf_set k v d : wf d -> wf (set k v d).
Proof.
  unfold wf. intros Hd. rewrite keys_set.
  destruct (mem k d) eqn:Hm; [exact Hd |].
  apply mem_false_iff in Hm.
  apply NoDup_app. repeat split.
  - exact Hd.
  - intros x Hx Hx'. apply list_elem_of_In in Hx.
    apply list_elem_of_In in Hx'. simpl in Hx'.
    destruct Hx' as [<- | []]. contradiction.
  - apply NoDup_singleton.
Qed.

Lemma get_Some_in k v d : get k d = Some v -> In (k, v) d.
Proof.
  induction d as [| [k' v'] d IH]; simpl; [discriminate |].
  destruct (String.eqb_spec k k') as [-> | Hne].
  - intros [= ->]. now left.
  - intros H. right. auto.
Qed.

End Dict.
End PyDictFacts.

(** ** Stand-ins for the outside world, used to run the model *)

Module Stubs.

(** A generation service that always times out. *)
Definition service_down {A} : string -> unit -> outcome A * unit :=
  fun _ w => (Raise (Exception "timeout"), w).

Definition plain_prompt : string -> Z -> string := fun q _ => q.

Definition no_json {A} : string -> outcome A :=
  fun _ => Raise (Exception "no JSON").

Definition start : State unit := mkState tt [].

(** A search API that answers every query with the same single result. *)
Definition one_hit : string -> unit -> outcome (option (list Scout.OrganicItem)) * unit :=
  fun _ w =>
    (Ok (Some [Scout.mkItem (Some "Solar power") (Some "http://a.com/solar")
                            (Some "about solar power")]), w).

Definition page_ok : string -> unit -> outcome string * unit :=
  fun _ w => (Ok "solar power page", w).

Definition pool_ok : unit -> outcome unit * unit := fun w => (Ok tt, w).

Definition extraction_prompt : string -> string -> Scout.Source -> string :=
  fun q _ _ => q.

Definition synthesis_prompt : string -> list Analyst.Fact -> nat -> string :=
  fun q _ _ => q.

(** A source that passes the quality filter: extracted, long enough,
    relevant enough. *)
Definition good_source : Scout.Source :=
  Scout.mkSource "Battery recycling methods" "https://example.org/recycling"
    "How batteries are recycled" "battery recycling" 1
    (Some ("Lithium-ion batteries are recycled by shredding the cells and "
           +:+ "recovering cobalt, nickel and lithium with hydrometallurgical "
           +:+ "or pyrometallurgical processes."))
    (Some 150) (Some true) None (Some (1 # 2)) None.

Definition fact_with (text : string) (c : Q) : Analyst.Fact :=
  [ ("fact", Json.JStr text);
    ("confidence", Json.JFloat c);
    ("source_url", Json.JStr "https://example.org/recycling");
    ("source_title", Json.JStr "Battery recycling methods") ].

(** The extraction of one source while the service still answered. *)
Definition one_extraction : Analyst.Extraction :=
  Analyst.mkExtraction
    (Some [ fact_with "Cells are shredded" (9 # 10);
            fact_with "Some plants burn the plastics" (5 # 10);
            fact_with "Cobalt is recovered" (8 # 10) ])
    None
    (Some (Analyst.mkMeta "https://example.org/recycling"
                          "Battery recycling methods" (9 # 10) (1 # 2))).

(** Four facts of one source, not in order of confidence. *)
Definition four_facts : Analyst.Extraction :=
  Analyst.mkExtraction
    (Some [ fact_with "Cells are shredded" (7 # 10);
            fact_with "Cobalt is recovered" (95 # 100);
            fact_with "Nickel is recovered" (8 # 10);
            fact_with "Lithium is recovered" (99 # 100) ])
    None
    (Some (Analyst.mkMeta "https://example.org/recycling"
                          "Battery recycling methods" (9 # 10) (1 # 2))).

(** A generation service that answers the extraction prompts and times
    out on every other prompt. *)
Definition extraction_only : string -> unit -> outcome string * unit :=
  fun prompt w =>
    if String.prefix "extract: " prompt
    then (Ok "one fact", w)
    else (Raise (Exception "timeout"), w).

Definition labelled_extraction_prompt : string -> string -> Scout.Source -> string :=
  fun q _ _ => "extract: " +:+ q.

(** A decoder that reads one fact, an object without the [fact] key. *)
Definition fact_without_text : string -> outcome Analyst.Extraction :=
  fun _ =>
    Ok (Analyst.mkExtraction (Some [[("confidence", Json.JFloat (9 # 10))]])
                             None None).

Definition insights_prompt : PyDict.t Analyst.Answer -> string :=
  fun _ => "insights".

Definition fixed_clock : unit -> (string * string) * unit :=
  fun w => (("2026-01-01 00:00:00", "2026-01-01T00:00:00"), w).

Definition report_prompt :
  string -> PyDict.t Analyst.Answer -> Analyst.Insights
  -> PyDict.t Writer.CitationEntry -> string :=
  fun topic _ _ _ => topic.

Definition no_count : string -> nat := fun _ => 0.

Definition answer_citing (urls : list string) : Analyst.Answer :=
  Analyst.mkAnswer "answer" None urls (6 # 10) None (Some (length urls)).

Definition no_insights : Analyst.Insights := Analyst.mkInsights None None None.

Definition two_answers : Analyst.AnalysisResults :=
  Analyst.mkAnalysis
    [ ("What methods exist?",
       answer_citing ["https://www.nature.com/a"; "https://recycle.example.com/b"]);
      ("Which companies lead?",
       answer_citing ["https://recycle.example.com/b"; "https://arxiv.org/abs/1"]) ]
    no_insights [] 4 0.

Definition zero_clock : unit -> Z * unit := fun w => (0%Z, w).

(** A scout that crashes outright, and components that are never reached. *)
Definition scout_crash : list Json.t -> M unit (PyDict.t (list Scout.Source)) :=
  fun _ => raise (Exception "scout crashed").

Definition analyst_unreached
  : PyDict.t (list Scout.Source) -> M unit Analyst.AnalysisResults :=
  fun _ => raise (Exception "analyst called").

Definition writer_unreached : string -> Analyst.AnalysisResults -> M unit Writer.Report :=
  fun _ _ => raise (Exception "writer called").

Definition insights (l : list string) : Collab.AgentResult :=
  Collab.mkAgentResult (Some l) None None.

(** Two personas with two and five insights; the second insight of the
    first persona repeats the last insight of the second. *)
Definition two_and_five : PyDict.t Collab.AgentResult :=
  [ ("research", insights ["solar panels cut costs"; "Solar panels shine"]);
    ("market",
     insights [ "solar panels help"; "solar panels grow"; "solar panels sell";
                "solar panels last"; "solar panels shine" ]) ].

(** A machine on which no worker thread can be started. *)
Definition pool_down : unit -> outcome unit * unit :=
  fun w => (Raise (Exception "can't start new thread"), w).

End Stubs.

(** ** Planner *)

Module PlannerFacts.
Section Fallback.
Context {W : Type}.
Variable generate : string -> W -> outcome string * W.
Variable planning_prompt : string -> Z -> string.
Variable json_loads : string -> outcome (list Json.t).

Lemma base_aspects_length q : length (Planner.base_aspects q) = 6.
Proof. reflexivity. Qed.

Lemma fallback_length q n :
  (0 <= n)%Z ->
  length (Planner._fallback_decomposition q n) = Z.to_nat (Z.min n 6).
Proof.
  intros Hn. unfold Planner._fallback_decomposition.
  rewrite PySeqFacts.slice_to_nonneg by exact Hn.
  rewrite length_firstn, base_aspects_length. lia.
Qed.

(** When the service call raises, the handler answers, whatever the state. *)
Lemma plan_on_service_failure q n s e w' :
  generate (planning_prompt q n) (world s) = (Raise e, w') ->
  Planner.generate_focused_sub_questions generate planning_prompt json_loads q n s
  = (Ok (map Json.JStr (Planner._fallback_decomposition q n)),
     mkState w' (trace s ++ [EvGenerate (planning_prompt q n)])).
Proof.
  intros Hgen.
  unfold Planner.generate_focused_sub_questions, try_catch, bind,
    Planner.call_generate, call.
  rewrite Hgen. reflexivity.
Qed.

End Fallback.

(** C2, as amended. When the generation-service call raises, the planner
    returns the first [N] of its six fixed phrasings of the query, as
    strings, so [min N 6] sub-questions, and the list depends on the query
    and on [N] only. *)
Theorem planner_fallback_templates
  {W : Type} (generate : string -> W -> outcome string * W)
  (planning_prompt : string -> Z -> string)
  (json_loads : string -> outcome (list Json.t))
  (q : string) (n : Z) (s : State W) (e : Exn) (w' : W) :
  (1 <= n)%Z ->
  generate (planning_prompt q n) (world s) = (Raise e, w') ->
  exists s',
    Planner.generate_focused_sub_questions generate planning_prompt json_loads q n s
    = (Ok (map Json.JStr (firstn (Z.to_nat n) (Planner.base_aspects q))), s')
    /\ length (firstn (Z.to_nat n) (Planner.base_aspects q)) = Z.to_nat (Z.min n 6).
Proof.
  intros Hn Hgen.
  eexists. split.
  - rewrite (plan_on_service_failure _ _ _ _ _ _ _ _ Hgen).
    unfold Planner._fallback_decomposition.
    rewrite PySeqFacts.slice_to_nonneg by lia. reflexivity.
  - rewrite length_firstn, base_aspects_length. lia.
Qed.

Lemma planner_fallback_templates_run :
  exists s',
    Planner.generate_focused_sub_questions
      Stubs.service_down Stubs.plain_prompt Stubs.no_json "solar power" 2 Stubs.start
    = (Ok [ Json.JStr "What is solar power and how does it work?";
            Json.JStr
              "What are the current applications and use cases of solar power?" ],
       s')
    /\ length (firstn (Z.to_nat 2) (Planner.base_aspects "solar power")) = 2.
Proof.
  apply (planner_fallback_templates Stubs.service_down Stubs.plain_prompt Stubs.no_json
           "solar power" 2 Stubs.start (Exception "timeout") tt).
  - lia.
  - reflexivity.
Defined.

(** C2 as stated fails: asked for seven sub-questions with the service
    down, the planner returns six. *)
Lemma planner_seven_requested_six_returned :
  exists qs s',
    Planner.generate_focused_sub_questions
      Stubs.service_down Stubs.plain_prompt Stubs.no_json "solar power" 7 Stubs.start
    = (Ok qs, s')
    /\ length qs = 6
    /\ Z.of_nat (length qs) <> 7%Z.
Proof.
  eexists. eexists. split; [reflexivity |]. split; [reflexivity | discriminate].
Qed.

End PlannerFacts.

(** ** Scout: deduplication *)

Module DedupFacts.
Import Scout.

(** The key under which [_remove_duplicates] compares two results. *)
Definition url_key (r : Source) : string := PyStr.lower (url r).

Definition nonempty (k : string) : bool := negb (String.eqb k "").

(** The distinct non-empty keys of a list of results. *)
Definition distinct_keys (results : list Source) : gset string :=
  list_to_set (List.filter nonempty (map url_key results)).

(** The results the loop still appends, given the keys already seen. *)
Fixpoint fresh_from (seen : gset string) (results : list Source) : list Source :=
  match results with
  | [] => []
  | r :: rest =>
      if nonempty (url_key r) && negb (bool_decide (url_key r ∈ seen))
      then r :: fresh_from ({[ url_key r ]} ∪ seen) rest
      else fresh_from seen rest
  end.

Lemma loop_appends (seen : gset string) acc results :
  remove_duplicates_loop seen acc results = acc ++ fresh_from seen results.
Proof.
  revert seen acc. induction results as [| r rest IH]; intros seen acc; simpl.
  - now rewrite app_nil_r.
  - fold (url_key r). fold (nonempty (url_key r)).
    destruct (nonempty (url_key r) && negb (bool_decide (url_key r ∈ seen))).
    + rewrite IH, <- app_assoc. reflexivity.
    + apply IH.
Qed.

Lemma remove_duplicates_fresh results :
  _remove_duplicates results = fresh_from ∅ results.
Proof. unfold _remove_duplicates. now rewrite loop_appends. Qed.

(** Whether a result is appended: its key is non-empty and not yet seen. *)
Lemma kept_iff (seen : gset string) r :
  nonempty (url_key r) && negb (bool_decide (url_key r ∈ seen)) = true
  <-> url_key r <> "" /\ url_key r ∉ seen.
Proof.
  unfold nonempty. rewrite andb_true_iff, !negb_true_iff.
  rewrite bool_decide_eq_false.
  destruct (String.eqb_spec (url_key r) ""); intuition congruence.
Qed.

Lemma fresh_keys_unseen (seen : gset string) results r :
  In r (fresh_from seen results) -> url_key r <> "" /\ url_key r ∉ seen.
Proof.
  revert seen. induction results as [| x rest IH]; intros seen; simpl; [tauto |].
  destruct (nonempty (url_key x) && negb (bool_decide (url_key x ∈ seen))) eqn:Hk.
  - apply kept_iff in Hk. intros [<- | Hin]; [exact Hk |].
    apply IH in Hin. destruct Hin as [Hne Hns]. split; [exact Hne | set_solver].
  - apply IH.
Qed.

Lemma fresh_keys_nodup (seen : gset string) results :
  NoDup (map url_key (fresh_from seen results)).
Proof.
  revert seen. induction results as [| x rest IH]; intros seen; simpl.
  - constructor.
  - destruct (nonempty (url_key x) && negb (bool_decide (url_key x ∈ seen))) eqn:Hk.
    + simpl. constructor; [| apply IH].
      intros Hin. apply list_elem_of_In, in_map_iff in Hin.
      destruct Hin as (r & Hr & Hin).
      apply fresh_keys_unseen in Hin. destruct Hin as [_ Hns].
      rewrite Hr in Hns. set_solver.
    + apply IH.
Qed.

Lemma fresh_sublist (seen : gset string) results : sublist (fresh_from seen results) results.
Proof.
  revert seen. induction results as [| x rest IH]; intros seen; simpl.
  - constructor.
  - destruct (nonempty (url_key x) && negb (bool_decide (url_key x ∈ seen))).
    + apply sublist_skip, IH.
    + apply sublist_cons, IH.
Qed.

Lemma distinct_keys_cons x rest :
  distinct_keys (x :: rest)
  = if nonempty (url_key x) then {[ url_key x ]} ∪ distinct_keys rest
    else distinct_keys rest.
Proof.
  unfold distinct_keys. simpl. now destruct (nonempty (url_key x)).
Qed.

Lemma fresh_length (seen : gset string) results :
  length (fresh_from seen results) = size (distinct_keys results ∖ seen).
Proof.
  revert seen. induction results as [| x rest IH]; intros seen.
  - simpl. unfold distinct_keys. simpl.
    replace ((∅ : gset string) ∖ seen) with (∅ : gset string) by set_solver.
    pose proof (size_empty (C := gset string)) as Hzero.
    now rewrite Hzero.
  - simpl. rewrite distinct_keys_cons.
    destruct (nonempty (url_key x) && negb (bool_decide (url_key x ∈ seen))) eqn:Hk.
    + apply kept_iff in Hk. destruct Hk as [Hne Hns].
      assert (Hn : nonempty (url_key x) = true).
      { unfold nonempty. now destruct (String.eqb_spec (url_key x) ""). }
      rewrite Hn. simpl. rewrite IH.
      replace (({[ url_key x ]} ∪ distinct_keys rest) ∖ seen)
        with ({[ url_key x ]} ∪ (distinct_keys rest ∖ ({[ url_key x ]} ∪ seen)))
        by (apply set_eq; intros k;
            destruct (decide (k = url_key x)); set_solver).
      pose proof (size_union (C := gset string) {[ url_key x ]}
                    (distinct_keys rest ∖ ({[ url_key x ]} ∪ seen))) as Hsize.
      pose proof (size_singleton (C := gset string) (url_key x)) as Hone.
      rewrite Hsize, Hone by set_solver. reflexivity.
    + rewrite IH.
      destruct (nonempty (url_key x)) eqn:Hn; [| reflexivity].
      simpl in Hk. apply negb_false_iff, bool_decide_eq_true in Hk.
      f_equal. set_solver.
Qed.

Lemma fresh_first_occurrence (seen : gset string) results r :
  In r (fresh_from seen results)
  <-> url_key r <> "" /\ (url_key r ∉ seen)
      /\ List.find (fun x => String.eqb (url_key x) (url_key r)) results = Some r.
Proof.
  revert seen. induction results as [| x rest IH]; intros seen; simpl.
  - split; [tauto | intros (_ & _ & H); discriminate].
  - destruct (nonempty (url_key x) && negb (bool_decide (url_key x ∈ seen))) eqn:Hk.
    + apply kept_iff in Hk. destruct Hk as [Hne Hns].
      simpl. rewrite IH.
      destruct (String.eqb_spec (url_key x) (url_key r)) as [Heq | Hdiff].
      * split.
        -- intros [-> | (_ & Hns' & _)]; [tauto | set_solver].
        -- intros (_ & _ & [= ->]). now left.
      * split.
        -- intros [-> | (H1 & H2 & H3)]; [contradiction |].
           repeat split; [exact H1 | set_solver | exact H3].
        -- intros (H1 & H2 & H3). right.
           repeat split; [exact H1 | set_solver | exact H3].
    + rewrite IH.
      destruct (String.eqb_spec (url_key x) (url_key r)) as [Heq | Hdiff];
        [| tauto].
      assert (Hdrop : ~ (url_key x <> "" /\ url_key x ∉ seen)).
      { intros H. apply kept_iff in H. congruence. }
      rewrite Heq in Hdrop. split.
      * intros (H1 & H2 & _). tauto.
      * intros (H1 & H2 & _). tauto.
Qed.

(** C3, as amended. Deduplication compares URLs after lower-casing only:
    it returns one entry per distinct non-empty lower-cased URL, the entries
    are the first occurrences, in their original order. *)
Theorem dedup_keeps_first_per_lowercase_url (results : list Source) :
  length (_remove_duplicates results) = size (distinct_keys results)
  /\ NoDup (map url_key (_remove_duplicates results))
  /\ sublist (_remove_duplicates results) results
  /\ forall r,
       In r (_remove_duplicates results)
       <-> url_key r <> ""
           /\ List.find (fun x => String.eqb (url_key x) (url_key r)) results = Some r.
Proof.
  rewrite remove_duplicates_fresh.
  split; [| split; [| split]].
  - rewrite fresh_length. f_equal. set_solver.
  - apply fresh_keys_nodup.
  - apply fresh_sublist.
  - intros r. rewrite fresh_first_occurrence. split.
    + intros (H1 & _ & H3). split; assumption.
    + intros [H1 H3]. split; [exact H1 | split; [set_solver | exact H3]].
Qed.

(** The claim's reading of one URL: letter case and the http or https
    scheme do not count. *)
Definition scheme_free_key (u : string) : string :=
  let l := PyStr.lower u in
  if String.prefix "https://" l then PyStr.drop 8 l
  else if String.prefix "http://" l then PyStr.drop 7 l
  else l.

Definition distinct_up_to_scheme (results : list Source) : nat :=
  size (list_to_set (map (fun r => scheme_free_key (url r)) results) : gset string).

Definition result_at (u : string) : Source :=
  mkSource "Example" u "snippet" "q" 1 None None None None None None.

(** C3 as stated fails: the http and https forms of one URL are one URL
    for the claim, and both survive deduplication. *)
Lemma dedup_keeps_both_schemes :
  distinct_up_to_scheme
    [result_at "http://example.com/a"; result_at "https://example.com/a"] = 1
  /\ map url (_remove_duplicates
                [result_at "http://example.com/a"; result_at "https://example.com/a"])
     = ["http://example.com/a"; "https://example.com/a"].
Proof. split; vm_compute; reflexivity. Qed.

(** Case variants are merged, the first spelling is kept. *)
Lemma dedup_merges_case_variants :
  map url (_remove_duplicates
             [result_at "http://Example.com/A"; result_at "http://example.com/a";
              result_at "HTTP://EXAMPLE.COM/A"])
  = ["http://Example.com/A"].
Proof. vm_compute. reflexivity. Qed.

End DedupFacts.

(** ** Scout: relevance score *)

Module RelevanceFacts.
Import Scout.

Lemma count_nonneg n : (0 <= count n)%Q.
Proof.
  unfold count, Qle. simpl. lia.
Qed.

(** A share of the query words, as the code computes it. *)
Lemma share_nonneg a b : (0 <= count a / count b)%Q.
Proof.
  unfold Qdiv. apply Qmult_le_0_compat.
  - apply count_nonneg.
  - apply Qinv_le_0_compat, count_nonneg.
Qed.

Lemma weighted_share_nonneg a b (w : Q) :
  (0 <= w)%Q -> (0 <= count a / count b * w)%Q.
Proof.
  intros Hw. apply Qmult_le_0_compat; [apply share_nonneg | exact Hw].
Qed.

Lemma py_min_le_right a b : (py_min a b <= b)%Q.
Proof.
  unfold py_min. destruct (b ?= a)%Q eqn:Hc.
  - apply Qeq_alt in Hc. rewrite Hc. apply Qle_refl.
  - apply Qle_refl.
  - apply Qgt_alt in Hc. apply Qlt_le_weak. exact Hc.
Qed.

Lemma sum_nonneg a b : (0 <= a)%Q -> (0 <= b)%Q -> (0 <= a + b)%Q.
Proof. intros. lra. Qed.

Lemma py_min_nonneg a b : (0 <= a)%Q -> (0 <= b)%Q -> (0 <= py_min a b)%Q.
Proof.
  intros Ha Hb. unfold py_min. now destruct (b ?= a)%Q.
Qed.

Lemma filter_none {A} (f : A -> bool) (l : list A) :
  (forall x, In x l -> f x = false) -> List.filter f l = [].
Proof.
  induction l as [| x l IH]; intros H; simpl; [reflexivity |].
  rewrite (H x) by now left.
  apply IH. intros y Hy. apply H. now right.
Qed.

Lemma no_significant_words text :
  (forall w, In w (PyStr.split text) -> (String.length (PyStr.strip w) <= 2)%nat) ->
  significant_words text = ∅.
Proof.
  intros H. unfold significant_words.
  rewrite filter_none; [reflexivity |].
  intros w Hw. apply Nat.ltb_ge. now apply H.
Qed.

(** C8. The relevance score lies between 0 and 1, and it is 0 when no
    word of the query has more than two characters. *)
Theorem relevance_score_bounded (question : string) (source : Source) :
  (0 <= _calculate_relevance_score question source)%Q
  /\ (_calculate_relevance_score question source <= 1)%Q
  /\ ((forall w, In w (PyStr.split (PyStr.lower question)) ->
                 (String.length (PyStr.strip w) <= 2)%nat) ->
      _calculate_relevance_score question source = 0%Q).
Proof.
  unfold _calculate_relevance_score.
  split; [| split].
  - destruct (bool_decide (significant_words (PyStr.lower question) = ∅));
      [apply Qle_refl |].
    apply py_min_nonneg; [| lra].
    repeat apply sum_nonneg;
      try (apply weighted_share_nonneg; lra).
    destruct (default false (extraction_success source));
      destruct (trusted_domain (PyStr.lower (url source))); lra.
  - destruct (bool_decide (significant_words (PyStr.lower question) = ∅));
      [lra | apply py_min_le_right].
  - intros Hshort. apply no_significant_words in Hshort.
    rewrite Hshort. reflexivity.
Qed.

Lemma relevance_score_bounded_run :
  (0 <= _calculate_relevance_score "AI in EU" (DedupFacts.result_at "http://a.org"))%Q
  /\ (_calculate_relevance_score "AI in EU" (DedupFacts.result_at "http://a.org") <= 1)%Q
  /\ _calculate_relevance_score "AI in EU" (DedupFacts.result_at "http://a.org") = 0%Q.
Proof.
  destruct (relevance_score_bounded "AI in EU" (DedupFacts.result_at "http://a.org"))
    as (H0 & H1 & Hz).
  split; [exact H0 | split; [exact H1 |]].
  apply Hz. intros w Hw. vm_compute in Hw.
  destruct Hw as [<- | [<- | [<- | []]]]; vm_compute; lia.
Defined.

(** A query with significant words, scored on a matching source. *)
Lemma relevance_score_sample :
  (_calculate_relevance_score "solar power in EU"
     (mkSource "Solar power guide" "http://a.org" "all about solar power" "q" 1
               None None None None None None)
   == 55 # 100)%Q.
Proof. vm_compute. reflexivity. Qed.

End RelevanceFacts.

(** ** Traces *)

Module EffFacts.

(** [s'] is [s] after the events [evs]. *)
Definition appends {W} (s s' : State W) (evs : list Event) : Prop :=
  trace s' = trace s ++ evs.

Lemma appends_refl {W} (s : State W) : appends s s [].
Proof. unfold appends. now rewrite app_nil_r. Qed.

Lemma appends_trans {W} (s s1 s2 : State W) e1 e2 :
  appends s s1 e1 -> appends s1 s2 e2 -> appends s s2 (e1 ++ e2).
Proof.
  unfold appends. intros H1 H2. rewrite H2, H1. now rewrite app_assoc.
Qed.

Lemma since_appends {W} (s s' : State W) evs : appends s s' evs -> since s s' = evs.
Proof.
  unfold appends, since. intros ->.
  rewrite skipn_app, skipn_all, Nat.sub_diag. reflexivity.
Qed.

Lemma search_queries_app e1 e2 :
  search_queries (e1 ++ e2) = search_queries e1 ++ search_queries e2.
Proof. unfold search_queries. apply flat_map_app. Qed.

End EffFacts.

(** ** Scout: searching one question, gathering all *)

Module ScoutFacts.
Import Scout EffFacts.

Section Runs.
Context {W : Type}.
Variable serper_post : string -> W -> outcome (option (list OrganicItem)) * W.
Variable http_get_text : string -> W -> outcome string * W.
Variable pool_start : W -> outcome unit * W.

Local Abbreviation search := (_serper_search serper_post).
Local Abbreviation extract_one := (extract_single_url http_get_text).
Local Abbreviation extract_all := (_extract_content_parallel http_get_text pool_start).
Local Abbreviation initial_search := (_deep_search_with_extraction serper_post http_get_text pool_start).
Local Abbreviation deeper := (_search_deeper serper_post).
Local Abbreviation deeper_loop := (search_deeper_loop serper_post).
Local Abbreviation body := (search_one_question serper_post http_get_text pool_start).
Local Abbreviation step := (deep_search_step serper_post http_get_text pool_start).
Local Abbreviation loop := (deep_search_loop serper_post http_get_text pool_start).
Local Abbreviation gather := (deep_search_all_questions serper_post http_get_text pool_start).

(** A search never raises, and it is one recorded call. *)
Lemma search_run q (s : State W) :
  exists rs s',
    search q s = (Ok rs, s') /\ appends s s' [EvSearch (clean_query q)].
Proof.
  unfold _serper_search, try_catch, bind, call, ret, appends.
  destruct (serper_post (clean_query q) (world s)) as [[data | e] w'];
    simpl; eauto.
Qed.

Lemma sleep_run n (s : State W) :
  exists s', sleep n s = (Ok tt, s') /\ appends s s' [EvSleep n].
Proof. unfold sleep, appends. simpl. eauto. Qed.

(** A worker never raises; it gives a result for every non-empty URL and
    makes no search. *)
Lemma extract_one_run r (s : State W) :
  exists o s' evs,
    extract_one r s = (Ok o, s') /\ appends s s' evs
    /\ search_queries evs = []
    /\ (url r <> "" -> exists r', o = Some r').
Proof.
  unfold extract_single_url, try_catch.
  destruct (String.eqb_spec (url r) "") as [Hempty | Hurl].
  - exists None, s, []. simpl. repeat split; [apply appends_refl | tauto].
  - unfold bind, call, ret, appends.
    destruct (http_get_text (url r) (world s)) as [[text | e] w']; simpl;
      eexists; eexists; exists [EvFetch (url r)];
      (split; [reflexivity | split; [reflexivity | split; [reflexivity | eauto]]]).
Qed.

Lemma extract_each_run rs (s : State W) :
  exists os s' evs,
    mapM extract_one rs s = (Ok os, s') /\ appends s s' evs
    /\ search_queries evs = []
    /\ ((forall r, In r rs -> url r <> "") -> length (omap id os) = length rs).
Proof.
  revert s. induction rs as [| r rs IH]; intros s.
  - exists [], s, []. simpl. repeat split. apply appends_refl.
  - destruct (extract_one_run r s) as (o & s1 & e1 & Hrun & Happ & Hq & Hsome).
    destruct (IH s1) as (os & s2 & e2 & Hrun2 & Happ2 & Hq2 & Hlen).
    exists (o :: os), s2, (e1 ++ e2).
    split; [| split; [| split]].
    + simpl. unfold bind at 1. rewrite Hrun. unfold bind at 1. rewrite Hrun2.
      reflexivity.
    + eapply appends_trans; eassumption.
    + rewrite search_queries_app, Hq, Hq2. reflexivity.
    + intros Hurls.
      destruct (Hsome (Hurls r (or_introl eq_refl))) as [r' ->].
      simpl. f_equal. apply Hlen. intros x Hx. apply Hurls. now right.
Qed.

(** The extraction step may raise (the pool), makes no search, and keeps
    one source per result with a non-empty URL. *)
Lemma extract_all_run rs (s : State W) :
  exists r s' evs,
    extract_all rs s = (r, s') /\ appends s s' evs
    /\ search_queries evs = []
    /\ forall srcs, r = Ok srcs ->
         (forall x, In x rs -> url x <> "") -> length srcs = length rs.
Proof.
  unfold _extract_content_parallel, bind at 1, call.
  destruct (pool_start (world s)) as [[[] | e] w'] eqn:Hpool.
  - destruct (extract_each_run rs (mkState w' (trace s ++ [EvPool])))
      as (os & s2 & e2 & Hrun & Happ & Hq & Hlen).
    exists (Ok (omap id os)), s2, ([EvPool] ++ e2).
    split; [| split; [| split]].
    + unfold bind. rewrite Hrun. reflexivity.
    + unfold appends in *. rewrite Happ. simpl. now rewrite <- app_assoc.
    + rewrite search_queries_app, Hq. reflexivity.
    + intros srcs [= <-]. exact Hlen.
  - exists (Raise e), (mkState w' (trace s ++ [EvPool])), [EvPool].
    repeat split. intros srcs Hs. discriminate.
Qed.

Lemma lower_empty u : PyStr.lower u = "" -> u = "".
Proof. destruct u; [reflexivity | discriminate]. Qed.

Lemma unique_results_have_urls rs x :
  In x (_remove_duplicates rs) -> url x <> "".
Proof.
  rewrite DedupFacts.remove_duplicates_fresh. intros Hin.
  apply DedupFacts.fresh_keys_unseen in Hin. destruct Hin as [Hne _].
  intros Hu. apply Hne. unfold DedupFacts.url_key. now rewrite Hu.
Qed.

(** The initial step: exactly the two search variants, and as many
    sources as unique results. *)
Lemma initial_search_run q (s : State W) :
  exists r s' evs,
    initial_search q s = (r, s') /\ appends s s' evs
    /\ search_queries evs
       = [clean_query q; clean_query (q +:+ " guide examples")]
    /\ forall srcs, r = Ok srcs ->
         exists direct expanded,
           length srcs = length (_remove_duplicates (direct ++ expanded)).
Proof.
  destruct (search_run q s) as (direct & s1 & Hs1 & Ha1).
  destruct (search_run (q +:+ " guide examples") s1) as (expanded & s2 & Hs2 & Ha2).
  destruct (extract_all_run (_remove_duplicates (direct ++ expanded)) s2)
    as (r & s3 & e3 & Hs3 & Ha3 & Hq3 & Hlen).
  exists r, s3, ([EvSearch (clean_query q)]
                 ++ [EvSearch (clean_query (q +:+ " guide examples"))] ++ e3).
  split; [| split; [| split]].
  - unfold _deep_search_with_extraction, bind at 1. rewrite Hs1.
    unfold bind at 1. rewrite Hs2. exact Hs3.
  - eapply appends_trans; [exact Ha1 |].
    eapply appends_trans; [exact Ha2 | exact Ha3].
  - rewrite !search_queries_app, Hq3. reflexivity.
  - intros srcs Hr. exists direct, expanded.
    apply (Hlen srcs Hr). intros x. apply unique_results_have_urls.
Qed.

(** The deepening loop never raises; it makes the searches of a prefix of
    its terms, at least one while sources are still needed. *)
Lemma deeper_loop_run needed terms acc (s : State W) :
  exists res s' evs n,
    deeper_loop needed terms acc s = (Ok res, s') /\ appends s s' evs
    /\ n <= length terms
    /\ search_queries evs = map clean_query (firstn n terms)
    /\ ((Z.of_nat (length acc) < needed)%Z -> terms <> [] -> 1 <= n).
Proof.
  revert acc s. induction terms as [| term rest IH]; intros acc s.
  - exists acc, s, [], 0. simpl.
    repeat split; [apply appends_refl | lia | congruence].
  - simpl. destruct (Z.leb_spec needed (Z.of_nat (length acc))) as [Hle | Hgt].
    + exists acc, s, [], 0. simpl.
      repeat split; [apply appends_refl | lia | lia].
    + destruct (search_run term s) as (rs & s1 & Hs1 & Ha1).
      destruct (sleep_run 1 s1) as (s2 & Hs2 & Ha2).
      destruct (IH (acc ++ firstn 3 rs) s2) as (res & s3 & e3 & n & Hs3 & Ha3 & Hn & Hq & _).
      exists res, s3, ([EvSearch (clean_query term)] ++ [EvSleep 1] ++ e3), (S n).
      split; [| split; [| split; [| split]]].
      * unfold bind at 1. rewrite Hs1. unfold bind at 1. rewrite Hs2. exact Hs3.
      * eapply appends_trans; [exact Ha1 |].
        eapply appends_trans; [exact Ha2 | exact Ha3].
      * simpl. lia.
      * rewrite !search_queries_app, Hq. reflexivity.
      * intros _ _. lia.
Qed.

Lemma deeper_run q current_count (s : State W) :
  exists res s' evs n,
    deeper q current_count s = (Ok res, s') /\ appends s s' evs
    /\ n <= 3
    /\ search_queries evs = map clean_query (firstn n (deeper_terms q))
    /\ (current_count < min_sources_per_query -> 1 <= n).
Proof.
  destruct (deeper_loop_run
              (Z.of_nat min_sources_per_query - Z.of_nat current_count)
              (deeper_terms q) [] s)
    as (res & s1 & evs & n & Hrun & Happ & Hn & Hq & Hone).
  eexists. exists s1, evs, n.
  split; [| split; [| split; [| split]]].
  - unfold _search_deeper, bind. rewrite Hrun. reflexivity.
  - exact Happ.
  - exact Hn.
  - exact Hq.
  - intros Hlt. apply Hone; [simpl; lia | discriminate].
Qed.

(** What the [try] body stores when it completes: at most three sources
    under the question. *)
Lemma body_stores d q (s : State W) d' s' :
  body d q s = (Ok d', s') ->
  exists srcs, d' = PyDict.set q srcs d /\ length srcs <= target_sources_per_query.
Proof.
  unfold search_one_question, bind at 1.
  destruct (initial_search q s) as [[initial | e] s1]; [| discriminate].
  unfold bind at 1.
  destruct ((if (length initial <? min_sources_per_query)%nat
             then deeper q (length initial) else ret []) s1)
    as [[additional | e] s2]; [| discriminate].
  unfold bind, sleep, ret. intros [= <- <-].
  eexists. split; [reflexivity |].
  rewrite length_firstn. lia.
Qed.

(** One turn of the loop never raises and stores a list for the question:
    the empty list when the body raised. *)
Lemma step_run d q (s : State W) :
  exists srcs s',
    step d q s = (Ok (PyDict.set q srcs d), s')
    /\ length srcs <= target_sources_per_query
    /\ (forall e s2, body d q s = (Raise e, s2) -> srcs = []).
Proof.
  unfold deep_search_step, try_catch.
  destruct (body d q s) as [[d' | e] s1] eqn:Hbody.
  - destruct (body_stores _ _ _ _ _ Hbody) as (srcs & -> & Hlen).
    exists srcs, s1. repeat split; [exact Hlen | discriminate].
  - exists [], s1. repeat split; simpl; lia.
Qed.

(** The searches of one turn in which the initial step gave fewer than five
    sources: the two variants, then between one and three deepening terms. *)
Lemma step_searches d q (s : State W) d' s' initial s1 :
  step d q s = (Ok d', s') ->
  initial_search q s = (Ok initial, s1) ->
  length initial < min_sources_per_query ->
  exists n,
    1 <= n <= 3
    /\ search_queries (since s s')
       = [clean_query q; clean_query (q +:+ " guide examples")]
         ++ map clean_query (firstn n (deeper_terms q)).
Proof.
  intros Hstep Hinit Hfew.
  destruct (initial_search_run q s) as (r0 & s0 & e0 & Hrun0 & Ha0 & Hq0 & _).
  rewrite Hinit in Hrun0. injection Hrun0 as <- <-.
  destruct (deeper_run q (length initial) s1)
    as (add & s2 & e2 & n & Hrun2 & Ha2 & Hn & Hq2 & Hone).
  exists n. split; [split; [apply Hone, Hfew | exact Hn] |].
  unfold deep_search_step, try_catch, search_one_question, bind at 1 in Hstep.
  rewrite Hinit in Hstep. unfold bind at 1 in Hstep.
  apply Nat.ltb_lt in Hfew. rewrite Hfew, Hrun2 in Hstep.
  unfold bind, sleep, ret in Hstep. injection Hstep as _ <-.
  assert (Happ : appends s (mkState (world s2) (trace s2 ++ [EvSleep 2]))
                         (e0 ++ e2 ++ [EvSleep 2])).
  { eapply appends_trans; [exact Ha0 |].
    eapply appends_trans; [exact Ha2 |]. reflexivity. }
  rewrite (since_appends _ _ _ Happ), !search_queries_app, Hq0, Hq2.
  simpl. now rewrite app_nil_r.
Qed.

(** The searches of one turn in which the initial step raised: the two
    variants and nothing more, and the empty list is stored. *)
Lemma step_searches_on_raise d q (s : State W) d' s' e s1 :
  step d q s = (Ok d', s') ->
  initial_search q s = (Raise e, s1) ->
  d' = PyDict.set q [] d
  /\ search_queries (since s s')
     = [clean_query q; clean_query (q +:+ " guide examples")].
Proof.
  intros Hstep Hinit.
  destruct (initial_search_run q s) as (r0 & s0 & e0 & Hrun0 & Ha0 & Hq0 & _).
  rewrite Hinit in Hrun0. injection Hrun0 as <- <-.
  unfold deep_search_step, try_catch, search_one_question, bind at 1 in Hstep.
  rewrite Hinit in Hstep. unfold ret in Hstep. injection Hstep as <- <-.
  split; [reflexivity |].
  now rewrite (since_appends _ _ _ Ha0).
Qed.

(** The loop over the questions never raises. *)
Lemma gather_loop_run d qs (s : State W) :
  exists d' s', loop d qs s = (Ok d', s').
Proof.
  revert d s. induction qs as [| q qs IH]; intros d s; simpl.
  - unfold ret. eauto.
  - destruct (step_run d q s) as (srcs & s1 & Hstep & _).
    unfold bind. rewrite Hstep. apply IH.
Qed.

Lemma gather_loop_app d qs1 qs2 (s : State W) :
  loop d (qs1 ++ qs2) s
  = bind (loop d qs1) (fun d1 => loop d1 qs2) s.
Proof.
  revert d s. induction qs1 as [| q qs1 IH]; intros d s; simpl.
  - reflexivity.
  - unfold bind.
    destruct (step d q s) as [[d1 | e] s1]; [| reflexivity].
    rewrite IH. reflexivity.
Qed.

(** The keys after the loop: those it started with and the questions. *)
Lemma gather_loop_keys d qs (s : State W) d' s' :
  loop d qs s = (Ok d', s') ->
  forall k, In k (PyDict.keys d') <-> In k (PyDict.keys d) \/ In k qs.
Proof.
  revert d s. induction qs as [| q qs IH]; intros d s; simpl.
  - unfold ret. intros [= <- <-] k. tauto.
  - destruct (step_run d q s) as (srcs & s1 & Hstep & _).
    unfold bind. rewrite Hstep. intros Hloop k.
    rewrite (IH _ _ Hloop k), PyDictFacts.in_keys_set.
    intuition congruence.
Qed.

Lemma gather_loop_wf d qs (s : State W) d' s' :
  loop d qs s = (Ok d', s') -> PyDict.wf d -> PyDict.wf d'.
Proof.
  revert d s. induction qs as [| q qs IH]; intros d s; simpl.
  - unfold ret. now intros [= <- <-].
  - destruct (step_run d q s) as (srcs & s1 & Hstep & _).
    unfold bind. rewrite Hstep. intros Hloop Hwf.
    apply (IH _ _ Hloop). now apply PyDictFacts.wf_set.
Qed.

(** Turns for other questions leave an entry as it is. *)
Lemma gather_loop_keeps d qs (s : State W) d' s' k :
  loop d qs s = (Ok d', s') -> ~ In k qs -> PyDict.get k d' = PyDict.get k d.
Proof.
  revert d s. induction qs as [| q qs IH]; intros d s; simpl.
  - unfold ret. now intros [= <- <-].
  - destruct (step_run d q s) as (srcs & s1 & Hstep & _).
    unfold bind. rewrite Hstep. intros Hloop Hnot.
    rewrite (IH _ _ Hloop) by tauto.
    apply PyDictFacts.get_set_ne. intros ->. tauto.
Qed.

End Runs.

(** C6, as amended. One turn of Scout's loop stores at most three sources
    for the question. When the initial step (the two search variants,
    deduplication, content extraction) returned fewer than five sources,
    the turn made, after those two searches, between one and three of the
    deepening searches, in their fixed order. When the initial step raised,
    the turn made the two searches and no deepening search, and stored the
    empty list. *)
Theorem scout_deepens_then_caps
  {W : Type}
  (serper_post : string -> W -> outcome (option (list OrganicItem)) * W)
  (http_get_text : string -> W -> outcome string * W)
  (pool_start : W -> outcome unit * W)
  (d : PyDict.t (list Source)) (question : string) (s : State W) :
  exists d' s' srcs,
    deep_search_step serper_post http_get_text pool_start d question s = (Ok d', s')
    /\ PyDict.get question d' = Some srcs
    /\ length srcs <= target_sources_per_query
    /\ (forall initial s1,
         _deep_search_with_extraction serper_post http_get_text pool_start question s
         = (Ok initial, s1) ->
         length initial < min_sources_per_query ->
         exists n,
           1 <= n <= 3
           /\ search_queries (since s s')
              = [clean_query question; clean_query (question +:+ " guide examples")]
                ++ map clean_query (firstn n (deeper_terms question)))
    /\ forall e s1,
         _deep_search_with_extraction serper_post http_get_text pool_start question s
         = (Raise e, s1) ->
         srcs = []
         /\ search_queries (since s s')
            = [clean_query question; clean_query (question +:+ " guide examples")].
Proof.
  destruct (step_run serper_post http_get_text pool_start d question s)
    as (srcs & s' & Hstep & Hlen & _).
  exists (PyDict.set question srcs d), s', srcs.
  split; [exact Hstep | split; [apply PyDictFacts.get_set_eq | split; [exact Hlen |]]].
  split.
  - intros initial s1 Hinit Hfew.
    eapply step_searches; eassumption.
  - intros e s1 Hinit.
    destruct (step_searches_on_raise serper_post http_get_text pool_start
                d question s _ s' e s1 Hstep Hinit) as (Hd & Hq).
    split; [| exact Hq].
    assert (Hget : PyDict.get question (PyDict.set question srcs d)
                   = PyDict.get question (PyDict.set question [] d)) by now rewrite Hd.
    rewrite !PyDictFacts.get_set_eq in Hget. now injection Hget.
Qed.

(** C10. Gathering never raises; the keys of the result are exactly the
    sub-questions, each once; and a sub-question whose turn raised, and
    which is not searched again later in the list, is bound to the empty
    list. *)
Theorem scout_gather_total
  {W : Type}
  (serper_post : string -> W -> outcome (option (list OrganicItem)) * W)
  (http_get_text : string -> W -> outcome string * W)
  (pool_start : W -> outcome unit * W)
  (sub_questions : list string) (s : State W) :
  exists d s',
    deep_search_all_questions serper_post http_get_text pool_start sub_questions s
    = (Ok d, s')
    /\ (forall q, In q (PyDict.keys d) <-> In q sub_questions)
    /\ NoDup (PyDict.keys d)
    /\ forall before q after d1 s1 e s2,
         sub_questions = before ++ q :: after ->
         ~ In q after ->
         deep_search_loop serper_post http_get_text pool_start PyDict.empty before s
         = (Ok d1, s1) ->
         search_one_question serper_post http_get_text pool_start d1 q s1
         = (Raise e, s2) ->
         PyDict.get q d = Some [].
Proof.
  unfold deep_search_all_questions.
  destruct (gather_loop_run serper_post http_get_text pool_start PyDict.empty sub_questions s)
    as (d & s' & Hloop).
  exists d, s'. split; [exact Hloop | split; [| split]].
  - intros q. rewrite (gather_loop_keys _ _ _ _ _ _ _ _ Hloop q). simpl. tauto.
  - apply (gather_loop_wf _ _ _ _ _ _ _ _ Hloop). apply PyDictFacts.wf_empty.
  - intros before q after d1 s1 e s2 -> Hlast Hbefore Hraise.
    rewrite gather_loop_app in Hloop. unfold bind at 1 in Hloop.
    rewrite Hbefore in Hloop. simpl in Hloop.
    destruct (step_run serper_post http_get_text pool_start d1 q s1)
      as (srcs & s3 & Hstep & _ & Hempty).
    unfold bind in Hloop. rewrite Hstep in Hloop.
    rewrite (gather_loop_keeps _ _ _ _ _ _ _ _ _ Hloop Hlast).
    rewrite (Hempty _ _ Hraise). apply PyDictFacts.get_set_eq.
Qed.

(** A run of C6: one unique source at first, so all three deepening
    searches are made. *)
Lemma scout_deepens_then_caps_run :
  exists d' s' srcs,
    deep_search_step Stubs.one_hit Stubs.page_ok Stubs.pool_ok
      PyDict.empty "solar power" Stubs.start = (Ok d', s')
    /\ PyDict.get "solar power" d' = Some srcs
    /\ length srcs <= target_sources_per_query
    /\ exists n,
         1 <= n <= 3
         /\ search_queries (since Stubs.start s')
            = [ "solar power"; "solar power guide examples" ]
              ++ map clean_query (firstn n (deeper_terms "solar power")).
Proof.
  destruct (scout_deepens_then_caps Stubs.one_hit Stubs.page_ok Stubs.pool_ok
              PyDict.empty "solar power" Stubs.start)
    as (d' & s' & srcs & Hstep & Hget & Hlen & Hdeep & _).
  exists d', s', srcs.
  split; [exact Hstep | split; [exact Hget | split; [exact Hlen |]]].
  eapply Hdeep.
  - vm_compute. reflexivity.
  - vm_compute. lia.
Defined.

(** C6 as stated fails: the two search variants give one unique source,
    fewer than five, but the worker pool cannot be started, so content
    extraction raises: the turn ends with the two searches made, no
    deepening search attempted, and the empty list stored. *)
Lemma scout_no_deepening_when_extraction_raises :
  exists direct expanded s1 s2 d' s',
    _serper_search Stubs.one_hit "solar power" Stubs.start = (Ok direct, s1)
    /\ _serper_search Stubs.one_hit "solar power guide examples" s1 = (Ok expanded, s2)
    /\ length (_remove_duplicates (direct ++ expanded)) = 1
    /\ length (_remove_duplicates (direct ++ expanded)) < min_sources_per_query
    /\ deep_search_step Stubs.one_hit Stubs.page_ok Stubs.pool_down
         PyDict.empty "solar power" Stubs.start = (Ok d', s')
    /\ PyDict.get "solar power" d' = Some []
    /\ search_queries (since Stubs.start s')
       = ["solar power"; "solar power guide examples"]
    /\ Forall (fun term => ~ In (clean_query term) (search_queries (since Stubs.start s')))
              (deeper_terms "solar power").
Proof.
  do 6 eexists.
  split; [vm_compute; reflexivity |].
  split; [vm_compute; reflexivity |].
  split; [vm_compute; reflexivity |].
  split; [vm_compute; lia |].
  split; [vm_compute; reflexivity |].
  split; [reflexivity |].
  split; [vm_compute; reflexivity |].
  vm_compute. repeat constructor; intuition discriminate.
Qed.

(** A run of C10: the pool cannot start, the body raises, and the question
    is bound to the empty list. *)
Lemma scout_gather_total_run :
  exists d s',
    deep_search_all_questions Stubs.one_hit Stubs.page_ok Stubs.pool_down
      ["solar power"] Stubs.start = (Ok d, s')
    /\ (forall q, In q (PyDict.keys d) <-> In q ["solar power"])
    /\ NoDup (PyDict.keys d)
    /\ PyDict.get "solar power" d = Some [].
Proof.
  destruct (scout_gather_total Stubs.one_hit Stubs.page_ok Stubs.pool_down
              ["solar power"] Stubs.start)
    as (d & s' & Hrun & Hkeys & Hnodup & Hempty).
  exists d, s'.
  split; [exact Hrun | split; [exact Hkeys | split; [exact Hnodup |]]].
  eapply (Hempty [] "solar power" []).
  - reflexivity.
  - simpl. tauto.
  - reflexivity.
  - vm_compute. reflexivity.
Defined.

End ScoutFacts.

(** ** Analyst: synthesis when the generation service fails *)

Module AnalystFacts.
Import Analyst.

(** A fact the fallback rule can read: a string under [fact] and, under
    [confidence], nothing or a number. *)
Definition well_shaped (f : Fact) : bool :=
  match PyDict.get "fact" f with
  | Some (Json.JStr _) =>
      match Json.number (default (Json.JInt 0) (PyDict.get "confidence" f)) with
      | Some _ => true
      | None => false
      end
  | _ => false
  end.

Definition fact_text (f : Fact) : string :=
  match PyDict.get "fact" f with
  | Some (Json.JStr text) => text
  | _ => ""
  end.

(** The confidence a fact is compared by: 0 when the key is absent. *)
Definition confidence_of (f : Fact) : Q :=
  default 0%Q (Json.number (default (Json.JInt 0) (PyDict.get "confidence" f))).

Definition high_confidence (f : Fact) : bool := Qleb (7 # 10) (confidence_of f).

(** The facts the fallback draws on: those with confidence at least 0.7
    when there is one, every fact otherwise; in either case in the order in
    which they were collected. *)
Definition preferred_facts (all_facts : list Fact) : list Fact :=
  match List.filter high_confidence all_facts with
  | [] => all_facts
  | high => high
  end.

Lemma well_shaped_confidence f :
  well_shaped f = true -> is_high_conf f = Ok (high_confidence f).
Proof.
  unfold well_shaped, is_high_conf, high_confidence, confidence_of.
  destruct (PyDict.get "fact" f) as [[] |]; try discriminate.
  destruct (Json.number (default (Json.JInt 0) (PyDict.get "confidence" f)));
    [reflexivity | discriminate].
Qed.

Lemma high_conf_well_shaped facts :
  forallb well_shaped facts = true ->
  high_conf facts = Ok (List.filter high_confidence facts).
Proof.
  induction facts as [| f rest IH]; [reflexivity |].
  simpl. intros H. apply andb_prop in H. destruct H as (Hf & Hrest).
  rewrite (well_shaped_confidence f Hf), (IH Hrest). simpl.
  now destruct (high_confidence f).
Qed.

Lemma fact_values_well_shaped facts :
  forallb well_shaped facts = true ->
  fact_values facts = Ok (map (fun f => Json.JStr (fact_text f)) facts).
Proof.
  induction facts as [| f rest IH]; [reflexivity |].
  simpl. intros H. apply andb_prop in H. destruct H as (Hf & Hrest).
  rewrite (IH Hrest). unfold well_shaped in Hf. unfold fact_text.
  destruct (PyDict.get "fact" f) as [[] |]; try discriminate. reflexivity.
Qed.

Lemma join_items_strings position texts :
  join_items position (map Json.JStr texts) = Ok texts.
Proof.
  revert position. induction texts as [| text rest IH]; intros position;
    [reflexivity |].
  simpl. now rewrite IH.
Qed.

Lemma join_facts_well_shaped facts :
  forallb well_shaped facts = true ->
  join_facts facts = Ok (PyStr.join ". " (map fact_text facts)).
Proof.
  intros H. unfold join_facts. rewrite (fact_values_well_shaped facts H).
  simpl. rewrite <- (map_map fact_text Json.JStr), join_items_strings. reflexivity.
Qed.

Lemma well_shaped_filter p facts :
  forallb well_shaped facts = true ->
  forallb well_shaped (List.filter p facts) = true.
Proof.
  induction facts as [| f rest IH]; [reflexivity |].
  simpl. intros H. apply andb_prop in H. destruct H as (Hf & Hrest).
  destruct (p f); simpl; [rewrite Hf |]; now apply IH.
Qed.

Lemma well_shaped_firstn n facts :
  forallb well_shaped facts = true ->
  forallb well_shaped (firstn n facts) = true.
Proof.
  revert facts. induction n as [| n IH]; intros [| f rest]; try reflexivity.
  simpl. intros H. apply andb_prop in H. destruct H as (Hf & Hrest).
  rewrite Hf. now apply IH.
Qed.

Lemma fallback_with_facts all_facts all_sources q :
  all_facts <> [] ->
  forallb well_shaped all_facts = true ->
  _fallback_synthesis all_facts all_sources q
  = Ok (mkAnswer (PyStr.join ". " (map fact_text (firstn 3 (preferred_facts all_facts))))
                 None (urls_of all_sources) (6 # 10) None (Some (length all_sources))).
Proof.
  intros Hfacts Hshape. unfold _fallback_synthesis, preferred_facts.
  destruct all_facts as [| f fs]; [congruence |].
  rewrite (high_conf_well_shaped _ Hshape). cbn [and_then].
  pose proof (well_shaped_filter high_confidence _ Hshape) as Hhigh.
  destruct (List.filter high_confidence (f :: fs)) as [| h hs].
  - now rewrite (join_facts_well_shaped _ (well_shaped_firstn 3 _ Hshape)).
  - now rewrite (join_facts_well_shaped _ (well_shaped_firstn 3 _ Hhigh)).
Qed.

Section Synthesis.
Context {W : Type}.
Variable generate : string -> W -> outcome string * W.
Variable extraction_prompt : string -> string -> Scout.Source -> string.
Variable synthesis_prompt : string -> list Fact -> nat -> string.
Variable parse_extraction : string -> outcome Extraction.
Variable parse_synthesis : string -> outcome SynthesisResult.

Local Abbreviation extract_one := (_ai_extract_information generate extraction_prompt parse_extraction).
Local Abbreviation extract_all :=
  (_extract_information_from_sources generate extraction_prompt parse_extraction).
Local Abbreviation synthesize := (_synthesize_information generate synthesis_prompt parse_synthesis).
Local Abbreviation answer_one :=
  (answer_question generate extraction_prompt synthesis_prompt
                   parse_extraction parse_synthesis).

(** The service fails on every prompt, in every state of the world. *)
Definition always_fails : Prop :=
  forall prompt w, exists e w', generate prompt w = (Raise e, w').

(** When the synthesis call raises, the answer is whatever the fallback
    rule gives, its exception included. *)
Lemma synthesize_on_service_failure extractions q (s : State W) e w' :
  extractions <> [] ->
  generate (synthesis_prompt q (collect_facts extractions)
                             (length (collect_sources extractions))) (world s)
  = (Raise e, w') ->
  exists s',
    synthesize extractions q s
    = (_fallback_synthesis (collect_facts extractions)
                           (collect_sources extractions) q, s').
Proof.
  intros Hne Hgen. unfold _synthesize_information.
  destruct extractions as [| x xs]; [congruence |].
  unfold try_catch, bind, call_generate, call, lift. rewrite Hgen. simpl.
  eexists. reflexivity.
Qed.

(** With the service down an extraction is the empty dictionary. *)
Lemma extract_one_down content q source (s : State W) :
  always_fails ->
  exists s', extract_one content q source s = (Ok empty_extraction, s').
Proof.
  intros Hdown. unfold _ai_extract_information, try_catch, bind, call_generate, call.
  destruct (Hdown (extraction_prompt q (PyStr.take 1500 content) source) (world s))
    as (e & w' & ->).
  simpl. eexists. reflexivity.
Qed.

(** So nothing is extracted from any list of sources. *)
Lemma extract_all_down sources q (s : State W) :
  always_fails ->
  exists s', extract_all sources q s = (Ok [], s').
Proof.
  intros Hdown. revert s. induction sources as [| source rest IH]; intros s; simpl.
  - unfold ret. eauto.
  - unfold bind at 1, try_catch.
    destruct (String.length (content_of source) <? 50)%nat.
    + unfold ret at 1. destruct (IH s) as (s' & Hrest).
      unfold bind. rewrite Hrest. simpl. eauto.
    + unfold bind at 1.
      destruct (extract_one_down (content_of source) q source s Hdown) as (s1 & ->).
      simpl. destruct (IH s1) as (s' & Hrest).
      unfold bind. rewrite Hrest. simpl. eauto.
Qed.

(** And the answer to the question is the no-information answer. *)
Lemma answer_one_down q sources (s : State W) :
  always_fails ->
  exists n s',
    answer_one q sources s
    = (Ok (mkAnswer ("No sufficient information found for: " +:+ q)
                    None [] 0%Q None None, n), s').
Proof.
  intros Hdown. unfold answer_question.
  destruct (extract_all_down (_assess_source_quality sources) q s Hdown) as (s1 & Hx).
  unfold bind at 1. rewrite Hx. simpl.
  eexists. eexists. reflexivity.
Qed.

End Synthesis.

(** The fallback rule raises on a fact it cannot read: a [KeyError] when
    the [fact] key is missing, a [TypeError] when the confidence is not a
    number or the fact not a string. *)
Lemma fallback_raises_on_ill_shaped_facts :
  _fallback_synthesis [[("confidence", Json.JFloat (9 # 10))]] [] "q"
  = Raise (Exception "'fact'")
  /\ _fallback_synthesis
       [[("fact", Json.JStr "Cells are shredded"); ("confidence", Json.JStr "high")]]
       [] "q"
     = Raise (Exception "'>=' not supported between instances of 'str' and 'float'")
  /\ _fallback_synthesis
       [[("fact", Json.JStr "Cells are shredded")]; [("fact", Json.JInt 7)]] [] "q"
     = Raise (Exception "sequence item 1: expected str instance, int found").
Proof. repeat split; vm_compute; reflexivity. Qed.




End AnalystFacts.

(** ** Writer: the citation map *)

Module CitationFacts.
Import Writer.

Definition entry_for (question u : string) : CitationEntry :=
  mkCitation (_generate_source_title_from_url u) u question.

Definition cites (u : string) (item : string * Analyst.Answer) : bool :=
  existsb (String.eqb u) (Analyst.source_urls (snd item)).

(** The first answer, in dictionary order, whose source URLs contain [u]:
    its sub-question. *)
Definition first_origin (u : string) (answers : PyDict.t Analyst.Answer)
  : option string :=
  option_map fst (List.find (cites u) answers).

(** What the citation map reads of the answers. *)
Definition cited (answers : PyDict.t Analyst.Answer) : list (string * list string) :=
  map (fun item => (fst item, Analyst.source_urls (snd item))) answers.

Lemma add_urls_get question urls cm u :
  PyDict.get u (add_source_urls question urls cm)
  = match PyDict.get u cm with
    | Some e => Some e
    | None =>
        if existsb (String.eqb u) urls then Some (entry_for question u) else None
    end.
Proof.
  revert cm. induction urls as [| x rest IH]; intros cm; simpl.
  - now destruct (PyDict.get u cm).
  - rewrite IH. destruct (PyDict.mem x cm) eqn:Hmem.
    + destruct (PyDict.get u cm) eqn:Hget; [reflexivity |].
      destruct (String.eqb_spec u x) as [-> | Hne]; [| reflexivity].
      unfold PyDict.mem in Hmem. rewrite Hget in Hmem. discriminate.
    + destruct (String.eqb_spec u x) as [-> | Hne].
      * rewrite PyDictFacts.get_set_eq.
        unfold PyDict.mem in Hmem. now destruct (PyDict.get x cm).
      * now rewrite PyDictFacts.get_set_ne.
Qed.

Lemma citation_loop_get answers cm u :
  PyDict.get u (build_citation_loop answers cm)
  = match PyDict.get u cm with
    | Some e => Some e
    | None => option_map (fun q => entry_for q u) (first_origin u answers)
    end.
Proof.
  revert cm. induction answers as [| [question a] rest IH]; intros cm; simpl.
  - now destruct (PyDict.get u cm).
  - rewrite IH, add_urls_get. unfold first_origin. simpl.
    destruct (PyDict.get u cm); [reflexivity |].
    change (cites u (question, a))
      with (existsb (String.eqb u) (Analyst.source_urls a)).
    now destruct (existsb (String.eqb u) (Analyst.source_urls a)).
Qed.

Lemma add_urls_wf question urls cm :
  PyDict.wf cm -> PyDict.wf (add_source_urls question urls cm).
Proof.
  revert cm. induction urls as [| x rest IH]; intros cm Hwf; simpl; [exact Hwf |].
  apply IH. destruct (PyDict.mem x cm); [exact Hwf | now apply PyDictFacts.wf_set].
Qed.

Lemma citation_loop_wf answers cm :
  PyDict.wf cm -> PyDict.wf (build_citation_loop answers cm).
Proof.
  revert cm. induction answers as [| [question a] rest IH]; intros cm Hwf; simpl.
  - exact Hwf.
  - apply IH, add_urls_wf, Hwf.
Qed.

(** URLs already in the map are left alone. *)
Lemma add_urls_known question urls cm :
  (forall x, In x urls -> PyDict.mem x cm = true) ->
  add_source_urls question urls cm = cm.
Proof.
  induction urls as [| x rest IH]; intros Hknown; simpl; [reflexivity |].
  rewrite (Hknown x) by now left.
  apply IH. intros y Hy. apply Hknown. now right.
Qed.

Lemma citation_loop_known answers cm :
  (forall item x, In item answers -> In x (Analyst.source_urls (snd item)) ->
                  PyDict.mem x cm = true) ->
  build_citation_loop answers cm = cm.
Proof.
  induction answers as [| [question a] rest IH]; intros Hknown; simpl.
  - reflexivity.
  - rewrite add_urls_known.
    + apply IH. intros item x Hitem Hx. apply (Hknown item x); [now right | exact Hx].
    + intros x Hx. apply (Hknown (question, a) x); [now left | exact Hx].
Qed.

Lemma cited_has_origin answers item x :
  In item answers -> In x (Analyst.source_urls (snd item)) ->
  exists q, first_origin x answers = Some q.
Proof.
  intros Hitem Hx. unfold first_origin.
  destruct (List.find (cites x) answers) as [found |] eqn:Hfind.
  - exists (fst found). reflexivity.
  - exfalso. apply (find_none _ _ Hfind) in Hitem.
    unfold cites in Hitem.
    assert (Htrue : existsb (String.eqb x) (Analyst.source_urls (snd item)) = true).
    { apply existsb_exists. exists x. split; [exact Hx | apply String.eqb_refl]. }
    congruence.
Qed.

(** The map reads only the sub-questions and their URL lists. *)
Lemma citation_loop_reads_cited answers1 answers2 cm :
  cited answers1 = cited answers2 ->
  build_citation_loop answers1 cm = build_citation_loop answers2 cm.
Proof.
  revert answers2 cm.
  induction answers1 as [| [q1 a1] rest1 IH]; intros [| [q2 a2] rest2] cm Heq;
    try discriminate; [reflexivity |].
  simpl in *. injection Heq as -> -> Hrest.
  now apply IH.
Qed.

(** C7. The citation map has one entry per URL; the entry of a URL records
    the first answer, in dictionary order, that lists it, with the title
    derived from the URL; building the map again from answers with the same
    sub-questions and URL lists gives the same map, and so does running the
    build over a map already built. *)
Theorem citation_map_first_writer_wins (answers : PyDict.t Analyst.Answer) :
  NoDup (PyDict.keys (_build_source_citation_map answers))
  /\ (forall u,
        PyDict.get u (_build_source_citation_map answers)
        = option_map
            (fun q => mkCitation (_generate_source_title_from_url u) u q)
            (first_origin u answers))
  /\ (forall answers',
        cited answers' = cited answers ->
        _build_source_citation_map answers' = _build_source_citation_map answers)
  /\ build_citation_loop answers (_build_source_citation_map answers)
     = _build_source_citation_map answers.
Proof.
  unfold _build_source_citation_map. split; [| split; [| split]].
  - apply citation_loop_wf, PyDictFacts.wf_empty.
  - intros u. rewrite citation_loop_get. reflexivity.
  - intros answers' Hsame. now apply citation_loop_reads_cited.
  - apply citation_loop_known. intros item x Hitem Hx.
    destruct (cited_has_origin answers item x Hitem Hx) as (q & Hq).
    unfold PyDict.mem. rewrite citation_loop_get. simpl. now rewrite Hq.
Qed.

(** Two answers sharing one URL: three entries, the shared URL under the
    first question. *)
Lemma citation_map_sample :
  map (fun kv => (fst kv, title (snd kv), question_context (snd kv)))
      (_build_source_citation_map (Analyst.sub_question_answers Stubs.two_answers))
  = [ ("https://www.nature.com/a", "Nature Journal", "What methods exist?");
      ("https://recycle.example.com/b", "Recycle.Example", "What methods exist?");
      ("https://arxiv.org/abs/1", "ArXiv Research Paper", "Which companies lead?") ].
Proof. vm_compute. reflexivity. Qed.

End CitationFacts.

(** ** Writer: the fallback report *)

Module WriterFacts.
Import Writer.

Section Fallback.
Context {W : Type}.
Variable generate : string -> W -> outcome string * W.
Variable clock : W -> (string * string) * W.
Variable report_prompt :
  string -> PyDict.t Analyst.Answer -> Analyst.Insights -> PyDict.t CitationEntry -> string.
Variable count_citations : string -> nat.
Variable count_sections : string -> nat.
Variable _ensure_markdown_formatting : string -> string.

Local Abbreviation draft :=
  (draft_report generate clock report_prompt count_citations count_sections
                _ensure_markdown_formatting).
Local Abbreviation write :=
  (generate_comprehensive_report generate clock report_prompt count_citations
                                 count_sections _ensure_markdown_formatting).

Lemma fallback_text_nonempty timestamp topic n : fallback_text timestamp topic n <> "".
Proof. unfold fallback_text. cbn. discriminate. Qed.

(** The fallback report is always produced: reading the clock cannot fail. *)
Lemma fallback_report_run topic analysis (s : State W) :
  exists rep s',
    _generate_fallback_report clock topic analysis s = (Ok rep, s')
    /\ citation_count (metadata rep) = 0
    /\ fallback_mode (metadata rep) = Some true
    /\ markdown_report rep <> ""
    /\ source_citation_map rep = None.
Proof.
  unfold _generate_fallback_report, bind, now, call, ret.
  destruct (clock (world s)) as [t1 w1]. simpl.
  destruct (clock w1) as [t2 w2]. simpl.
  eexists. eexists. split; [reflexivity |].
  simpl. repeat split. apply fallback_text_nonempty.
Qed.

(** A failing generation call makes the drafting step raise. *)
Lemma draft_raises_on_service_failure topic analysis cmap (s : State W) e w' :
  generate (report_prompt topic (Analyst.sub_question_answers analysis)
                          (Analyst.synthesized_insights analysis) cmap) (world s)
  = (Raise e, w') ->
  exists s1, draft topic analysis cmap s = (Raise e, s1).
Proof.
  intros Hgen.
  unfold draft_report, bind, _generate_markdown_report, try_catch, bind,
    call_generate, call, raise.
  rewrite Hgen. simpl. eexists. reflexivity.
Qed.

End Fallback.

(** C1. Writing a report never raises; and when the drafting step raises,
    the report returned is the fallback one: citation count 0, a non-empty
    Markdown text, marked as produced in fallback mode. *)
Theorem writer_fallback_total
  {W : Type} (generate : string -> W -> outcome string * W)
  (clock : W -> (string * string) * W)
  (report_prompt :
     string -> PyDict.t Analyst.Answer -> Analyst.Insights
     -> PyDict.t CitationEntry -> string)
  (count_citations count_sections : string -> nat)
  (_ensure_markdown_formatting : string -> string)
  (topic : string) (analysis : Analyst.AnalysisResults) (s : State W) :
  exists rep s',
    generate_comprehensive_report generate clock report_prompt count_citations
      count_sections _ensure_markdown_formatting topic analysis s = (Ok rep, s')
    /\ forall e s1,
         draft_report generate clock report_prompt count_citations count_sections
           _ensure_markdown_formatting topic analysis
           (_build_source_citation_map (Analyst.sub_question_answers analysis)) s
         = (Raise e, s1) ->
         citation_count (metadata rep) = 0
         /\ markdown_report rep <> ""
         /\ fallback_mode (metadata rep) = Some true.
Proof.
  unfold generate_comprehensive_report, try_catch.
  destruct (draft_report generate clock report_prompt count_citations count_sections
              _ensure_markdown_formatting topic analysis
              (_build_source_citation_map (Analyst.sub_question_answers analysis)) s)
    as [[rep | e] s1] eqn:Hdraft.
  - exists rep, s1. split; [reflexivity | intros e' s1' H; discriminate].
  - destruct (fallback_report_run clock topic analysis s1)
      as (rep & s2 & Hrun & Hcount & Hmode & Htext & _).
    exists rep, s2. split; [exact Hrun |].
    intros _ _ _. repeat split; assumption.
Qed.

(** A run of C1: the generation service times out while drafting. *)
Lemma writer_fallback_total_run :
  exists rep s',
    generate_comprehensive_report Stubs.service_down Stubs.fixed_clock
      Stubs.report_prompt Stubs.no_count Stubs.no_count (fun r => r)
      "EV battery recycling" Stubs.two_answers Stubs.start = (Ok rep, s')
    /\ citation_count (metadata rep) = 0
    /\ markdown_report rep <> ""
    /\ fallback_mode (metadata rep) = Some true.
Proof.
  destruct (writer_fallback_total Stubs.service_down Stubs.fixed_clock
              Stubs.report_prompt Stubs.no_count Stubs.no_count (fun r => r)
              "EV battery recycling" Stubs.two_answers Stubs.start)
    as (rep & s' & Hrun & Hfallback).
  exists rep, s'. split; [exact Hrun |].
  destruct (draft_raises_on_service_failure Stubs.service_down Stubs.fixed_clock
              Stubs.report_prompt Stubs.no_count Stubs.no_count (fun r => r)
              "EV battery recycling" Stubs.two_answers
              (_build_source_citation_map
                 (Analyst.sub_question_answers Stubs.two_answers))
              Stubs.start (Exception "timeout") tt eq_refl) as (s1 & Hdraft).
  exact (Hfallback _ _ Hdraft).
Defined.

End WriterFacts.

(** ** Orchestrator: a phase that raises *)

Module EngineFacts.
Import Engine.

(** What a failure result must hold: the error message, the query, the
    outputs of the phases completed, and no report. *)
Definition failed_with (r : Result) (e : Exn) (q : string)
  (subs : option (list Json.t))
  (sources : option (PyDict.t (list Scout.Source)))
  (analysis : option Analyst.AnalysisResults) : Prop :=
  success r = false
  /\ error_of r = Some (str e)
  /\ report_of r = None
  /\ user_query (context_of r) = q
  /\ sub_questions (context_of r) = subs
  /\ sources_data (context_of r) = sources
  /\ analysis_results (context_of r) = analysis
  /\ report_results (context_of r) = None.

Section Failure.
Context {W : Type}.
Variable planner : string -> Z -> M W (list Json.t).
Variable scout : list Json.t -> M W (PyDict.t (list Scout.Source)).
Variable analyst : PyDict.t (list Scout.Source) -> M W Analyst.AnalysisResults.
Variable writer : string -> Analyst.AnalysisResults -> M W Writer.Report.
Variable clock : W -> Z * W.

(** The phases, started in state [s0], run in order until one raises [e]:
    the outputs of the phases completed, and the state the raising phase
    left. *)
Inductive phases_fail (q : string) (n : Z) (s0 : State W)
  : Exn -> option (list Json.t) -> option (PyDict.t (list Scout.Source))
    -> option Analyst.AnalysisResults -> State W -> Prop :=
| fail_planning e s1 :
    planner q n s0 = (Raise e, s1) ->
    phases_fail q n s0 e None None None s1
| fail_scouting subs s1 e s2 :
    planner q n s0 = (Ok subs, s1) ->
    scout subs s1 = (Raise e, s2) ->
    phases_fail q n s0 e (Some subs) None None s2
| fail_analyzing subs s1 sources s2 e s3 :
    planner q n s0 = (Ok subs, s1) ->
    scout subs s1 = (Ok sources, s2) ->
    analyst sources s2 = (Raise e, s3) ->
    phases_fail q n s0 e (Some subs) (Some sources) None s3
| fail_writing subs s1 sources s2 analysis s3 e s4 :
    planner q n s0 = (Ok subs, s1) ->
    scout subs s1 = (Ok sources, s2) ->
    analyst sources s2 = (Ok analysis, s3) ->
    writer q analysis s3 = (Raise e, s4) ->
    phases_fail q n s0 e (Some subs) (Some sources) (Some analysis) s4.

Lemma run_ok {A} (m : M W A) c (s : State W) a s' :
  m s = (Ok a, s') -> run m c s = (Ok (Ok a, c), s').
Proof. intros H. unfold run, try_catch, bind, ret. now rewrite H. Qed.

Lemma run_raise {A} (m : M W A) c (s : State W) e s' :
  m s = (Raise e, s') -> run m c s = (Ok (Raise e, c), s').
Proof. intros H. unfold run, try_catch, bind, ret. now rewrite H. Qed.

(** The [try] body never raises in the model: an exception is handed to
    the handler together with the context reached. *)
Lemma research_phases_fail q n c0 (s0 : State W) e subs sources analysis s' :
  sub_questions c0 = None -> sources_data c0 = None ->
  analysis_results c0 = None -> report_results c0 = None ->
  phases_fail q n s0 e subs sources analysis s' ->
  exists c,
    research_phases planner scout analyst writer clock q n c0 s0
    = (Ok (Raise e, c), s')
    /\ user_query c = user_query c0
    /\ sub_questions c = subs
    /\ sources_data c = sources
    /\ analysis_results c = analysis
    /\ report_results c = None.
Proof.
  intros Hsub Hsrc Han Hrep Hfail.
  unfold research_phases.
  inversion Hfail as [e' s1 Hp | subs' s1 e' s2 Hp Hs
                      | subs' s1 src' s2 e' s3 Hp Hs Ha
                      | subs' s1 src' s2 an' s3 e' s4 Hp Hs Ha Hw]; subst.
  - eexists. split.
    + unfold cbind at 1, bind. rewrite (run_raise _ _ _ _ _ Hp). reflexivity.
    + repeat split; assumption.
  - eexists. split.
    + unfold cbind at 1, bind. rewrite (run_ok _ _ _ _ _ Hp).
      unfold cbind at 1, bind, store, ret.
      unfold cbind at 1, bind. rewrite (run_raise _ _ _ _ _ Hs). reflexivity.
    + simpl. repeat split; assumption.
  - eexists. split.
    + unfold cbind at 1, bind. rewrite (run_ok _ _ _ _ _ Hp).
      unfold cbind at 1, bind, store, ret.
      unfold cbind at 1, bind. rewrite (run_ok _ _ _ _ _ Hs).
      unfold cbind at 1, bind, store, ret.
      unfold cbind at 1, bind. rewrite (run_raise _ _ _ _ _ Ha). reflexivity.
    + simpl. repeat split; assumption.
  - eexists. split.
    + unfold cbind at 1, bind. rewrite (run_ok _ _ _ _ _ Hp).
      unfold cbind at 1, bind, store, ret.
      unfold cbind at 1, bind. rewrite (run_ok _ _ _ _ _ Hs).
      unfold cbind at 1, bind, store, ret.
      unfold cbind at 1, bind. rewrite (run_ok _ _ _ _ _ Ha).
      unfold cbind at 1, bind, store, ret.
      unfold cbind at 1, bind. rewrite (run_raise _ _ _ _ _ Hw). reflexivity.
    + simpl. repeat split; assumption.
Qed.

End Failure.

(** C5. When a phase raises, [comprehensive_research] returns, without
    raising, a failure result with the message of the exception, the
    original query, the outputs of the phases that completed and no report;
    the state it leaves is the one the raising phase left, so no later
    phase has run. *)
Theorem orchestrator_stops_at_failure
  {W : Type}
  (planner : string -> Z -> M W (list Json.t))
  (scout : list Json.t -> M W (PyDict.t (list Scout.Source)))
  (analyst : PyDict.t (list Scout.Source) -> M W Analyst.AnalysisResults)
  (writer : string -> Analyst.AnalysisResults -> M W Writer.Report)
  (clock : W -> Z * W)
  (q : string) (n : Z) (s : State W) (t0 : Z) (w0 : W)
  (e : Exn) (subs : option (list Json.t))
  (sources : option (PyDict.t (list Scout.Source)))
  (analysis : option Analyst.AnalysisResults) (s' : State W) :
  clock (world s) = (t0, w0) ->
  phases_fail planner scout analyst writer q n
              (mkState w0 (trace s ++ [EvClock])) e subs sources analysis s' ->
  exists r,
    comprehensive_research planner scout analyst writer clock q n s = (Ok r, s')
    /\ failed_with r e q subs sources analysis.
Proof.
  intros Hclock Hfail.
  destruct (research_phases_fail planner scout analyst writer clock q n
              (initial_context q t0) _ e subs sources analysis s'
              eq_refl eq_refl eq_refl eq_refl Hfail)
    as (c & Hrun & Hq & Hsub & Hsrc & Han & Hrep).
  exists (Failure (str e) c). split.
  - unfold comprehensive_research, bind at 1, now, call. rewrite Hclock.
    unfold bind. rewrite Hrun. reflexivity.
  - unfold failed_with. simpl. repeat split; assumption.
Qed.

(** A run of C5: planning falls back to the templates, scouting raises. *)
Lemma orchestrator_stops_at_failure_run :
  exists r,
    comprehensive_research
      (Planner.generate_focused_sub_questions
         Stubs.service_down Stubs.plain_prompt Stubs.no_json)
      Stubs.scout_crash Stubs.analyst_unreached Stubs.writer_unreached
      Stubs.zero_clock "solar power" 1 Stubs.start
    = (Ok r, mkState tt [EvClock; EvGenerate "solar power"])
    /\ failed_with r (Exception "scout crashed") "solar power"
                   (Some [Json.JStr "What is solar power and how does it work?"])
                   None None.
Proof.
  apply (orchestrator_stops_at_failure
           (Planner.generate_focused_sub_questions
              Stubs.service_down Stubs.plain_prompt Stubs.no_json)
           Stubs.scout_crash Stubs.analyst_unreached Stubs.writer_unreached
           Stubs.zero_clock "solar power" 1 Stubs.start 0%Z tt).
  - reflexivity.
  - eapply fail_scouting; reflexivity.
Defined.

End EngineFacts.

(** ** Collaboration manager: cross-references *)

Module CollabFacts.
Import Collab.

Lemma Qltb_lt a b : Qltb a b = true <-> (a < b)%Q.
Proof.
  unfold Qltb. destruct (a ?= b)%Q eqn:Hc.
  - apply Qeq_alt in Hc. split; [discriminate | intros H; rewrite Hc in H].
    exfalso. exact (Qlt_irrefl _ H).
  - apply Qlt_alt in Hc. tauto.
  - apply Qgt_alt in Hc. split; [discriminate | intros H].
    exfalso. exact (Qlt_irrefl _ (Qlt_trans _ _ _ H Hc)).
Qed.

(** What holds of a cross-reference between two personas. *)
Definition related (agent_results : PyDict.t AgentResult) (c : CrossRef) : Prop :=
  In (insight1 c) (insights_of agent_results (agent1 c))
  /\ In (insight2 c) (insights_of agent_results (agent2 c))
  /\ similarity c = _calculate_text_similarity (insight1 c) (insight2 c)
  /\ (3 # 10 < similarity c)%Q.

Lemma pair_cross_refs_related agent_results a1 a2 c :
  In c (pair_cross_refs agent_results a1 a2) ->
  agent1 c = a1 /\ agent2 c = a2 /\ related agent_results c.
Proof.
  unfold pair_cross_refs. rewrite in_flat_map. intros (i1 & Hi1 & Hc).
  rewrite in_flat_map in Hc. destruct Hc as (i2 & Hi2 & Hc).
  destruct (Qltb (3 # 10) (_calculate_text_similarity i1 i2)) eqn:Hsim;
    [| contradiction].
  destruct Hc as [<- | []]. unfold related. simpl.
  apply Qltb_lt in Hsim. repeat split; assumption.
Qed.

(** Every pair the loops produce joins a persona with a later one. *)
Lemma all_cross_refs_related agent_results agents c :
  In c (all_cross_refs agent_results agents) ->
  related agent_results c
  /\ exists before between after,
       agents = before ++ agent1 c :: between ++ agent2 c :: after.
Proof.
  induction agents as [| a1 rest IH]; simpl; [tauto |].
  rewrite in_app_iff, in_flat_map. intros [(a2 & Ha2 & Hc) | Hc].
  - apply pair_cross_refs_related in Hc. destruct Hc as (<- & <- & Hrel).
    split; [exact Hrel |].
    apply in_split in Ha2. destruct Ha2 as (between & after & ->).
    exists [], between, after. reflexivity.
  - destruct (IH Hc) as (Hrel & before & between & after & ->).
    split; [exact Hrel |].
    exists (a1 :: before), between, after. reflexivity.
Qed.




End CollabFacts.

(** * Further properties of the pipeline *)

(** ** Sorting by decreasing key *)

From Stdlib Require Import Sorted Permutation.

Module SortFacts.
Import Scout.

(** [a] may stand before [b] in a list sorted by decreasing key. *)
Definition before_by {A} (key : A -> Q) (a b : A) : Prop := (key b <= key a)%Q.

Lemma insert_desc_permutation {A} (key : A -> Q) x (l : list A) :
  Permutation (x :: l) (insert_desc key x l).
Proof.
  induction l as [| y l IH]; simpl; [reflexivity |].
  destruct (key x ?= key y)%Q; try reflexivity.
  rewrite perm_swap. now apply perm_skip.
Qed.

Lemma sorted_desc_permutation {A} (key : A -> Q) (l : list A) :
  Permutation l (sorted_desc key l).
Proof.
  induction l as [| x l IH]; simpl; [reflexivity |].
  rewrite <- insert_desc_permutation. now apply perm_skip.
Qed.

Lemma sorted_desc_in {A} (key : A -> Q) (l : list A) x :
  In x (sorted_desc key l) <-> In x l.
Proof.
  split; intros H.
  - eapply Permutation_in; [symmetry; apply sorted_desc_permutation | exact H].
  - eapply Permutation_in; [apply sorted_desc_permutation | exact H].
Qed.

Lemma sorted_desc_length {A} (key : A -> Q) (l : list A) :
  length (sorted_desc key l) = length l.
Proof. symmetry. apply Permutation_length, sorted_desc_permutation. Qed.

Lemma before_by_trans {A} (key : A -> Q) a b c :
  before_by key a b -> before_by key b c -> before_by key a c.
Proof. unfold before_by. intros H1 H2. eapply Qle_trans; eassumption. Qed.

Lemma insert_desc_sorted {A} (key : A -> Q) x (l : list A) :
  StronglySorted (before_by key) l ->
  StronglySorted (before_by key) (insert_desc key x l).
Proof.
  induction l as [| y l IH]; intros Hs; simpl.
  - constructor; [constructor | constructor].
  - inversion Hs as [| y' l' Hl Hy]; subst.
    destruct (key x ?= key y)%Q eqn:Hc.
    + apply Qeq_alt in Hc.
      constructor; [exact Hs |].
      assert (Hxy : before_by key x y) by (unfold before_by; rewrite Hc; apply Qle_refl).
      constructor; [exact Hxy |].
      eapply List.Forall_impl; [| exact Hy]. intros z Hz.
      eapply before_by_trans; eassumption.
    + apply Qlt_alt in Hc.
      constructor; [now apply IH |].
      assert (Hin : forall z, In z (insert_desc key x l) -> before_by key y z).
      { intros z Hz.
        apply (Permutation_in z (Permutation_sym (insert_desc_permutation key x l))) in Hz.
        destruct Hz as [<- | Hz].
        - unfold before_by. now apply Qlt_le_weak.
        - rewrite List.Forall_forall in Hy. now apply Hy. }
      apply List.Forall_forall. exact Hin.
    + apply Qgt_alt in Hc.
      constructor; [exact Hs |].
      assert (Hxy : before_by key x y) by (unfold before_by; now apply Qlt_le_weak).
      constructor; [exact Hxy |].
      eapply List.Forall_impl; [| exact Hy]. intros z Hz.
      eapply before_by_trans; eassumption.
Qed.

Lemma sorted_desc_sorted {A} (key : A -> Q) (l : list A) :
  StronglySorted (before_by key) (sorted_desc key l).
Proof.
  induction l as [| x l IH]; simpl; [constructor |].
  now apply insert_desc_sorted.
Qed.

(** In a sorted list every element of a prefix may stand before every
    element of the rest. *)
Lemma sorted_prefix_before {A} (R : A -> A -> Prop) (l : list A) k a b :
  StronglySorted R l -> In a (firstn k l) -> In b (skipn k l) -> R a b.
Proof.
  revert k. induction l as [| x l IH]; intros k Hs Ha Hb.
  - rewrite firstn_nil in Ha. contradiction.
  - destruct k as [| k]; [contradiction |].
    inversion Hs as [| x' l' Hl Hx]; subst. simpl in Ha, Hb.
    destruct Ha as [<- | Ha].
    + rewrite List.Forall_forall in Hx. apply Hx.
      rewrite <- (firstn_skipn k l). apply in_or_app. now right.
    + now apply (IH k).
Qed.

End SortFacts.

(** ** Ranking by relevance, filtering by quality *)

Module RankingFacts.
Import Scout SortFacts.

(** The relevance recorded on a source, as the sort key reads it. *)
Definition recorded_relevance (s : Source) : Q := default 0%Q (relevance_score s).

(** The quality recorded on a source, as the sort key reads it. *)
Definition recorded_quality (s : Source) : Q := default 0%Q (quality_score s).

Definition scored (question : string) (s : Source) : Source :=
  set_relevance (_calculate_relevance_score question s) s.

Lemma score_range question source :
  (0 <= _calculate_relevance_score question source <= 1)%Q.
Proof.
  unfold _calculate_relevance_score.
  destruct (bool_decide (significant_words (PyStr.lower question) = ∅)); [lra |].
  split; [| apply RelevanceFacts.py_min_le_right].
  apply RelevanceFacts.py_min_nonneg; [| lra].
  repeat apply RelevanceFacts.sum_nonneg;
    try (apply RelevanceFacts.weighted_share_nonneg; lra).
  destruct (default false (extraction_success source));
    destruct (trusted_domain (PyStr.lower (url source))); lra.
Qed.

(** X1. Ranking returns the sources it was given, each with its relevance
    score recorded, in order of decreasing score; so cutting the ranking at
    any length keeps sources that score at least as high as those cut. *)
Theorem ranking_sorted_permutation (question : string) (sources : list Source) :
  Permutation (map (scored question) sources) (_rank_by_relevance question sources)
  /\ length (_rank_by_relevance question sources) = length sources
  /\ (forall r, In r (_rank_by_relevance question sources) ->
        relevance_score r = Some (_calculate_relevance_score question r)
        /\ (0 <= recorded_relevance r <= 1)%Q)
  /\ forall k kept cut,
       In kept (firstn k (_rank_by_relevance question sources)) ->
       In cut (skipn k (_rank_by_relevance question sources)) ->
       (recorded_relevance cut <= recorded_relevance kept)%Q.
Proof.
  unfold _rank_by_relevance. fold (scored question).
  split; [apply sorted_desc_permutation | split; [| split]].
  - rewrite sorted_desc_length. apply length_map.
  - intros r Hr. apply sorted_desc_in, in_map_iff in Hr.
    destruct Hr as (s & <- & _). unfold recorded_relevance. simpl.
    split; [reflexivity | apply score_range].
  - intros k kept cut Hkept Hcut.
    exact (sorted_prefix_before _ _ k kept cut
             (sorted_desc_sorted _ (map (scored question) sources)) Hkept Hcut).
Qed.

Lemma Qleb_le a b : Analyst.Qleb a b = true <-> (a <= b)%Q.
Proof.
  unfold Analyst.Qleb. destruct (a ?= b)%Q eqn:Hc.
  - apply Qeq_alt in Hc. rewrite Hc. split; [intros _; apply Qle_refl | reflexivity].
  - apply Qlt_alt in Hc. split; [intros _; now apply Qlt_le_weak | reflexivity].
  - apply Qgt_alt in Hc. split; [discriminate |].
    intros H. exfalso. exact (Qlt_irrefl _ (Qle_lt_trans _ _ _ H Hc)).
Qed.

Lemma py_min_ge_both a b c : (c <= a)%Q -> (c <= b)%Q -> (c <= py_min a b)%Q.
Proof. intros Ha Hb. unfold py_min. now destruct (b ?= a)%Q. Qed.

Definition with_quality (s : Source) : Source :=
  Analyst.set_quality (Analyst.source_quality s) s.

Lemma passes_with_quality s :
  Analyst.passes_thresholds (with_quality s) = Analyst.passes_thresholds s.
Proof. reflexivity. Qed.

Lemma passes_iff s :
  Analyst.passes_thresholds s = true
  <-> 100 <= String.length (Analyst.content_of s)
      /\ (2 # 10 <= recorded_relevance s)%Q.
Proof.
  unfold Analyst.passes_thresholds.
  rewrite andb_true_iff, Nat.leb_le, Qleb_le. reflexivity.
Qed.

(** A source that passes the thresholds scores between 0.18 and 1. *)
Lemma passing_quality_range s :
  100 <= String.length (Analyst.content_of s) ->
  (2 # 10 <= recorded_relevance s)%Q ->
  (18 # 100 <= Analyst.source_quality s <= 1)%Q.
Proof.
  intros Hlen Hrel. unfold Analyst.source_quality.
  fold (recorded_relevance s).
  assert (Hlo : (8 # 100 <= py_min (recorded_relevance s * (4 # 10)) (4 # 10))%Q)
    by (apply py_min_ge_both; lra).
  assert (Hhi : (py_min (recorded_relevance s * (4 # 10)) (4 # 10) <= 4 # 10)%Q)
    by apply RelevanceFacts.py_min_le_right.
  set (m := py_min (recorded_relevance s * (4 # 10)) (4 # 10)) in *.
  destruct (500 <=? String.length (Analyst.content_of s))%nat eqn:H500;
    [| destruct (200 <=? String.length (Analyst.content_of s))%nat eqn:H200;
       [| destruct (100 <=? String.length (Analyst.content_of s))%nat eqn:H100;
          [| apply Nat.leb_gt in H100; lia]]];
    destruct (default false (extraction_success s));
    destruct (trusted_domain (PyStr.lower (url s))); lra.
Qed.

(** X2. The quality filter keeps at most three sources. Each one is an
    input source with its quality score recorded, has at least 100
    characters of content and relevance at least 0.2, and scores between
    0.18 and 1; the sources kept are in order of decreasing quality, and an
    input source that passes the thresholds but is not kept scores no
    higher than any source kept. *)
Theorem quality_filter_keeps_best_three (sources : list Source) :
  length (Analyst._assess_source_quality sources) <= 3
  /\ StronglySorted (before_by recorded_quality) (Analyst._assess_source_quality sources)
  /\ (forall s, In s (Analyst._assess_source_quality sources) ->
        exists s0,
          In s0 sources /\ s = with_quality s0
          /\ 100 <= String.length (Analyst.content_of s0)
          /\ (2 # 10 <= recorded_relevance s0)%Q
          /\ (18 # 100 <= recorded_quality s <= 1)%Q)
  /\ forall kept s0,
       In kept (Analyst._assess_source_quality sources) ->
       In s0 sources -> Analyst.passes_thresholds s0 = true ->
       In (with_quality s0) (Analyst._assess_source_quality sources)
       \/ (Analyst.source_quality s0 <= recorded_quality kept)%Q.
Proof.
  unfold Analyst._assess_source_quality. fold with_quality. fold recorded_quality.
  set (passing := List.filter Analyst.passes_thresholds (map with_quality sources)).
  set (full := sorted_desc recorded_quality passing).
  assert (Hfull : StronglySorted (before_by recorded_quality) full)
    by apply sorted_desc_sorted.
  split; [rewrite length_firstn; lia | split; [| split]].
  - rewrite <- (firstn_skipn 3 full) in Hfull.
    clear -Hfull. induction (firstn 3 full) as [| x l IH]; [constructor |].
    simpl in Hfull. inversion Hfull as [| x' l' Hl Hx]; subst.
    constructor; [now apply IH |].
    rewrite List.Forall_forall in *. intros y Hy. apply Hx, in_or_app. now left.
  - intros s Hs.
    assert (Hin : In s full).
    { rewrite <- (firstn_skipn 3 full). apply in_or_app. now left. }
    apply sorted_desc_in, filter_In in Hin. destruct Hin as [Hmap Hpass].
    apply in_map_iff in Hmap. destruct Hmap as (s0 & <- & Hs0).
    rewrite passes_with_quality in Hpass. apply passes_iff in Hpass.
    destruct Hpass as [Hlen Hrel].
    exists s0. repeat split; try assumption;
      apply (passing_quality_range s0 Hlen Hrel).
  - intros kept s0 Hkept Hs0 Hpass.
    assert (Hin : In (with_quality s0) full).
    { apply sorted_desc_in, filter_In. split.
      - apply in_map_iff. now exists s0.
      - now rewrite passes_with_quality. }
    rewrite <- (firstn_skipn 3 full) in Hin. apply in_app_or in Hin.
    destruct Hin as [Hin | Hin]; [now left | right].
    exact (sorted_prefix_before _ _ 3 kept (with_quality s0) Hfull Hkept Hin).
Qed.

End RankingFacts.

(** ** The query sent to the search API *)

Module QueryFacts.
Import Scout.

Definition chars (s : string) : list ascii := list_ascii_of_string s.

(** The number of words [s.split()] finds. *)
Definition word_count (s : string) : nat := length (PyStr.split s).

Fixpoint remove_char (c : ascii) (s : string) : string :=
  match s with
  | EmptyString => EmptyString
  | String d s' => if Ascii.eqb d c then remove_char c s' else String d (remove_char c s')
  end.

Lemma replace_go_single c s :
  PyStr.replace_go (String c EmptyString) EmptyString 0 s = remove_char c s.
Proof.
  induction s as [| d s IH]; [reflexivity |].
  cbn [PyStr.replace_go String.prefix remove_char].
  destruct (Ascii.ascii_dec c d) as [<- | Hne].
  - rewrite Ascii.eqb_refl.
    replace (String.prefix EmptyString s) with true by now destruct s.
    simpl. exact IH.
  - destruct (Ascii.eqb_spec d c) as [-> | _]; [contradiction |].
    now rewrite IH.
Qed.

Lemma replace_single c s :
  PyStr.replace (String c EmptyString) EmptyString s = remove_char c s.
Proof. unfold PyStr.replace. apply replace_go_single. Qed.

Lemma chars_remove c s x :
  In x (chars (remove_char c s)) <-> In x (chars s) /\ x <> c.
Proof.
  unfold chars. induction s as [| d s IH]; simpl; [tauto |].
  destruct (Ascii.eqb_spec d c) as [-> | Hne]; simpl; rewrite IH.
  - intuition congruence.
  - intuition congruence.
Qed.

(** Deleting a character that is not whitespace cannot add a word. *)
Lemma split_scan_remove c s :
  PyStr.is_space c = false ->
  length (snd (PyStr.split_scan (remove_char c s)))
  <= length (snd (PyStr.split_scan s))
  /\ length (PyStr.cons_word (fst (PyStr.split_scan (remove_char c s)))
                             (snd (PyStr.split_scan (remove_char c s))))
     <= length (PyStr.cons_word (fst (PyStr.split_scan s)) (snd (PyStr.split_scan s))).
Proof.
  intros Hc. induction s as [| d s [IH1 IH2]]; simpl; [lia |].
  destruct (Ascii.eqb_spec d c) as [-> | Hne].
  - rewrite Hc. destruct (PyStr.split_scan s) as [w ws].
    destruct (PyStr.split_scan (remove_char c s)) as [w' ws']. simpl in *.
    split; [exact IH1 |].
    destruct w; simpl in *; lia.
  - simpl. destruct (PyStr.split_scan s) as [w ws].
    destruct (PyStr.split_scan (remove_char c s)) as [w' ws']. simpl in *.
    destruct (PyStr.is_space d); simpl; lia.
Qed.

Lemma word_count_remove c s :
  PyStr.is_space c = false -> word_count (remove_char c s) <= word_count s.
Proof.
  intros Hc. unfold word_count, PyStr.split.
  pose proof (split_scan_remove c s Hc) as [_ H].
  destruct (PyStr.split_scan s), (PyStr.split_scan (remove_char c s)). exact H.
Qed.

(** A word: not empty, no whitespace in it. *)
Definition is_word (w : string) : Prop :=
  w <> EmptyString /\ forall x, In x (chars w) -> PyStr.is_space x = false.

Lemma split_scan_words s :
  (forall x, In x (chars (fst (PyStr.split_scan s))) -> PyStr.is_space x = false)
  /\ Forall is_word (snd (PyStr.split_scan s)).
Proof.
  induction s as [| d s [IHw IHws]]; simpl.
  - split; [intros x [] | constructor].
  - destruct (PyStr.split_scan s) as [w ws]. simpl in *.
    destruct (PyStr.is_space d) eqn:Hd; simpl.
    + split; [intros x [] |].
      destruct w as [| a w]; simpl; [exact IHws |].
      constructor; [| exact IHws]. split; [discriminate | exact IHw].
    + split; [| exact IHws].
      intros x [<- | Hx]; [exact Hd | now apply IHw].
Qed.

Lemma split_words s : Forall is_word (PyStr.split s).
Proof.
  unfold PyStr.split. pose proof (split_scan_words s) as [Hw Hws].
  destruct (PyStr.split_scan s) as [w ws]. simpl in *.
  destruct w as [| a w]; simpl; [exact Hws |].
  constructor; [| exact Hws]. split; [discriminate | exact Hw].
Qed.

Lemma split_scan_prefix w s :
  (forall x, In x (chars w) -> PyStr.is_space x = false) ->
  PyStr.split_scan (w +:+ s)
  = (w +:+ fst (PyStr.split_scan s), snd (PyStr.split_scan s)).
Proof.
  induction w as [| a w IH]; intros Hw.
  - change (EmptyString +:+ s) with s.
    change (EmptyString +:+ fst (PyStr.split_scan s)) with (fst (PyStr.split_scan s)).
    now destruct (PyStr.split_scan s).
  - change (String a w +:+ s) with (String a (w +:+ s)).
    cbn [PyStr.split_scan]. rewrite IH by (intros x Hx; apply Hw; now right).
    rewrite (Hw a) by now left. reflexivity.
Qed.

Lemma append_empty w : w +:+ EmptyString = w.
Proof.
  induction w as [| a w IH]; [reflexivity |].
  change (String a w +:+ EmptyString) with (String a (w +:+ EmptyString)).
  now rewrite IH.
Qed.

(** Splitting the words joined by single spaces gives the words back. *)
Lemma split_join_words ws :
  Forall is_word ws -> PyStr.split (PyStr.join " " ws) = ws.
Proof.
  induction ws as [| w ws IH]; intros Hws; [reflexivity |].
  inversion Hws as [| w' ws' [Hne Hchars] Hrest]; subst.
  destruct ws as [| w2 ws].
  - cbn [PyStr.join]. unfold PyStr.split.
    rewrite <- (append_empty w) at 1.
    rewrite split_scan_prefix by exact Hchars.
    cbn [PyStr.split_scan fst snd]. rewrite append_empty.
    destruct w; [congruence | reflexivity].
  - specialize (IH Hrest).
    change (PyStr.join " " (w :: w2 :: ws))
      with (w +:+ String " "%char (PyStr.join " " (w2 :: ws))).
    unfold PyStr.split in *. rewrite split_scan_prefix by exact Hchars.
    cbn [PyStr.split_scan].
    destruct (PyStr.split_scan (PyStr.join " " (w2 :: ws))) as [v vs].
    change (PyStr.is_space " "%char) with true. cbn [fst snd].
    rewrite IH, append_empty.
    destruct w; [congruence | reflexivity].
Qed.

Definition forbidden : list ascii := [PyStr.dquote_char; "("%char; ")"%char].

(** X3. The query sent to the search API has at most twelve words and
    contains no double quote and no parenthesis. *)
Theorem clean_query_short_and_plain (q : string) :
  word_count (clean_query q) <= 12
  /\ forall c, In c forbidden -> ~ In c (chars (clean_query q)).
Proof.
  unfold clean_query.
  set (q1 := if (12 <? length (PyStr.split q))%nat
             then PyStr.join " " (firstn 12 (PyStr.split q)) else q).
  assert (Hq1 : word_count q1 <= 12).
  { unfold q1. destruct (Nat.ltb_spec 12 (length (PyStr.split q))) as [Hlong | Hshort].
    - unfold word_count. rewrite split_join_words.
      + rewrite length_firstn. lia.
      + apply Forall_take, split_words.
    - exact Hshort. }
  change ")" with (String ")"%char EmptyString).
  change "(" with (String "("%char EmptyString).
  change "" with EmptyString.
  rewrite !replace_single. split.
  - etransitivity; [apply word_count_remove; reflexivity |].
    etransitivity; [apply word_count_remove; reflexivity |].
    etransitivity; [apply word_count_remove; reflexivity | exact Hq1].
  - intros c Hc Hin. apply chars_remove in Hin. destruct Hin as [Hin Hne1].
    apply chars_remove in Hin. destruct Hin as [Hin Hne2].
    apply chars_remove in Hin. destruct Hin as [_ Hne3].
    simpl in Hc. intuition congruence.
Qed.

(** A long query with quotes and parentheses, cleaned. *)
Lemma clean_query_sample :
  clean_query "what (is) the best way to do a b c d e f g h i j k l"
  = "what is the best way to do a b c d e".
Proof. vm_compute. reflexivity. Qed.

End QueryFacts.

(** ** Scout: searches, extraction, deepening, the search budget *)

Module ScoutMoreFacts.
Import Scout EffFacts.

(** A result as the search step builds it: nothing extracted or scored. *)
Definition plain (r : Source) : Prop :=
  extracted_content r = None /\ extraction_success r = None
  /\ relevance_score r = None /\ quality_score r = None.

Lemma build_results_shape q position items :
  length (build_results q position items) = length items
  /\ map search_position (build_results q position items) = seq position (length items)
  /\ map url (build_results q position items)
     = map (fun item => default "" (item_link item)) items
  /\ Forall (fun r => query r = q /\ plain r) (build_results q position items).
Proof.
  revert position. induction items as [| item rest IH]; intros position; simpl.
  - repeat split. constructor.
  - destruct (IH (S position)) as (Hlen & Hpos & Hurl & Hall).
    rewrite Hlen, Hpos, Hurl. repeat split.
    constructor; [| exact Hall]. unfold plain. simpl. tauto.
Qed.

Lemma take_length n s : String.length (PyStr.take n s) <= n.
Proof.
  revert s. induction n as [| n IH]; intros s; simpl; [lia |].
  destruct s as [| c s]; simpl; [lia |]. specialize (IH s). lia.
Qed.

(** The content of a source whose page was fetched: the text of the page
    cut to 1200 characters, with the length of the whole text. *)
Definition holds_page {W : Type} (http_get_text : string -> W -> outcome string * W)
  (r : Source) : Prop :=
  exists w w' text,
    http_get_text (url r) w = (Ok text, w')
    /\ extracted_content r = Some (PyStr.take 1200 text)
    /\ content_length r = Some (String.length text)
    /\ extraction_success r = Some true.

(** The content of a source whose fetch raised: the search snippet, with
    the message of the exception. *)
Definition holds_snippet {W : Type} (http_get_text : string -> W -> outcome string * W)
  (r : Source) : Prop :=
  exists w w' e,
    http_get_text (url r) w = (Raise e, w')
    /\ extracted_content r = Some (snippet r)
    /\ content_length r = Some (String.length (snippet r))
    /\ extraction_success r = Some false
    /\ extraction_error r = Some (str e).

(** What extraction makes of a result. *)
Definition extracted_from {W : Type} (http_get_text : string -> W -> outcome string * W)
  (r r' : Source) : Prop :=
  title r' = title r /\ url r' = url r /\ snippet r' = snippet r
  /\ (holds_page http_get_text r' \/ holds_snippet http_get_text r').

(** The URLs fetched, in order. *)
Definition fetched_urls (evs : list Event) : list string :=
  flat_map (fun ev => match ev with EvFetch u => [u] | _ => [] end) evs.

Lemma fetched_urls_app e1 e2 :
  fetched_urls (e1 ++ e2) = fetched_urls e1 ++ fetched_urls e2.
Proof. unfold fetched_urls. apply flat_map_app. Qed.

Section Runs.
Context {W : Type}.
Variable serper_post : string -> W -> outcome (option (list OrganicItem)) * W.
Variable http_get_text : string -> W -> outcome string * W.
Variable pool_start : W -> outcome unit * W.

Local Abbreviation search := (_serper_search serper_post).
Local Abbreviation extract_one := (extract_single_url http_get_text).
Local Abbreviation extract_all := (_extract_content_parallel http_get_text pool_start).
Local Abbreviation initial_search :=
  (_deep_search_with_extraction serper_post http_get_text pool_start).
Local Abbreviation deeper := (_search_deeper serper_post).
Local Abbreviation deeper_loop := (search_deeper_loop serper_post).
Local Abbreviation step := (deep_search_step serper_post http_get_text pool_start).
Local Abbreviation loop := (deep_search_loop serper_post http_get_text pool_start).

Lemma search_results_plain q (s : State W) rs s' :
  search q s = (Ok rs, s') -> Forall (fun r => query r = clean_query q /\ plain r) rs.
Proof.
  unfold _serper_search, try_catch, bind, call, ret.
  destruct (serper_post (clean_query q) (world s)) as [[[items |] | e] w'];
    simpl; intros [= <- <-]; try constructor.
  apply build_results_shape.
Qed.

Lemma extract_one_related r (s : State W) :
  url r <> "" ->
  exists r' s',
    extract_one r s = (Ok (Some r'), s')
    /\ appends s s' [EvFetch (url r)]
    /\ extracted_from http_get_text r r'.
Proof.
  intros Hurl. unfold extract_single_url, try_catch.
  destruct (String.eqb_spec (url r) "") as [Hempty | _]; [contradiction |].
  unfold bind, call, ret.
  destruct (http_get_text (url r) (world s)) as [[text | e] w'] eqn:Hget;
    cbn [fst snd];
    eexists; eexists; (split; [reflexivity |]); (split; [reflexivity |]);
    unfold extracted_from, with_content;
    cbn [title url snippet]; repeat split.
  - left. exists (world s), w', text.
    cbn [url extracted_content content_length extraction_success]. now rewrite Hget.
  - right. exists (world s), w', e.
    cbn [url snippet extracted_content content_length extraction_success
         extraction_error].
    now rewrite Hget.
Qed.

Lemma extract_each_related rs (s : State W) :
  (forall r, In r rs -> url r <> "") ->
  exists outs s' evs,
    mapM extract_one rs s = (Ok (map Some outs), s')
    /\ appends s s' evs
    /\ fetched_urls evs = map url rs
    /\ Forall2 (extracted_from http_get_text) rs outs.
Proof.
  revert s. induction rs as [| r rs IH]; intros s Hurls.
  - exists [], s, []. split; [reflexivity |].
    split; [apply appends_refl | split; [reflexivity | constructor]].
  - destruct (extract_one_related r s (Hurls r (or_introl eq_refl)))
      as (r' & s1 & Hrun & Happ & Hrel).
    destruct (IH s1 (fun x Hx => Hurls x (or_intror Hx)))
      as (outs & s2 & evs & Hrun2 & Happ2 & Hfetched & Hrels).
    exists (r' :: outs), s2, ([EvFetch (url r)] ++ evs).
    split; [| split; [| split]].
    + simpl. unfold bind at 1. rewrite Hrun. unfold bind at 1. rewrite Hrun2.
      reflexivity.
    + eapply appends_trans; eassumption.
    + rewrite fetched_urls_app, Hfetched. reflexivity.
    + now constructor.
Qed.

Lemma omap_id_map_some {A} (l : list A) : omap id (map Some l) = l.
Proof. induction l as [| x l IH]; [reflexivity | simpl; f_equal; exact IH]. Qed.

Lemma extract_all_related rs (s : State W) srcs s' :
  (forall r, In r rs -> url r <> "") ->
  extract_all rs s = (Ok srcs, s') ->
  Forall2 (extracted_from http_get_text) rs srcs
  /\ fetched_urls (since s s') = map url rs.
Proof.
  intros Hurls. unfold _extract_content_parallel, bind at 1, call.
  destruct (pool_start (world s)) as [[[] | e] w']; [| discriminate].
  destruct (extract_each_related rs (mkState w' (trace s ++ [EvPool])) Hurls)
    as (outs & s2 & evs & Hrun & Happ & Hfetched & Hrel).
  unfold bind. rewrite Hrun. unfold ret. intros [= <- <-].
  rewrite omap_id_map_some. split; [exact Hrel |].
  assert (Hall : appends s s2 ([EvPool] ++ evs)).
  { unfold appends in *. rewrite Happ. simpl. now rewrite <- app_assoc. }
  now rewrite (since_appends _ _ _ Hall), fetched_urls_app, Hfetched.
Qed.

Lemma related_urls rs srcs :
  Forall2 (extracted_from http_get_text) rs srcs -> map url srcs = map url rs.
Proof.
  induction 1 as [| r r' rs srcs (_ & Hurl & _) _ IH]; [reflexivity |].
  simpl. now rewrite Hurl, IH.
Qed.

Lemma related_member rs srcs r' :
  Forall2 (extracted_from http_get_text) rs srcs -> In r' srcs ->
  exists r, In r rs /\ extracted_from http_get_text r r'.
Proof.
  induction 1 as [| r x rs srcs Hrel _ IH]; intros Hin; [contradiction |].
  destruct Hin as [<- | Hin].
  - exists r. split; [now left | exact Hrel].
  - destruct (IH Hin) as (r0 & Hr0 & Hrel0). exists r0. split; [now right | exact Hrel0].
Qed.

(** Deepening keeps only plain search results. *)
Lemma deeper_loop_plain needed terms acc (s : State W) res s' :
  Forall plain acc ->
  deeper_loop needed terms acc s = (Ok res, s') -> Forall plain res.
Proof.
  revert acc s. induction terms as [| term rest IH]; intros acc s Hacc; simpl.
  - unfold ret. now intros [= <- <-].
  - destruct (needed <=? Z.of_nat (length acc))%Z.
    + unfold ret. now intros [= <- <-].
    + unfold bind at 1.
      destruct (search term s) as [[rs | e] s1] eqn:Hsearch; [| discriminate].
      unfold bind at 1, sleep. apply IH.
      apply Forall_app. split; [exact Hacc |].
      apply Forall_take.
      eapply List.Forall_impl; [| exact (search_results_plain _ _ _ _ Hsearch)].
      intros r [_ Hr]. exact Hr.
Qed.

(** The searches of one turn of the loop: never fewer than two, never more
    than five. *)
Lemma step_budget d q (s : State W) :
  exists d' s' evs,
    step d q s = (Ok d', s') /\ appends s s' evs
    /\ 2 <= length (search_queries evs) <= 5.
Proof.
  destruct (ScoutFacts.initial_search_run serper_post http_get_text pool_start q s)
    as (r0 & s0 & e0 & Hrun0 & Ha0 & Hq0 & _).
  unfold deep_search_step, try_catch, search_one_question, bind at 1.
  rewrite Hrun0. destruct r0 as [initial | e].
  - unfold bind at 1.
    destruct (length initial <? min_sources_per_query)%nat.
    + destruct (ScoutFacts.deeper_run serper_post q (length initial) s0)
        as (add & s2 & e2 & n & Hrun2 & Ha2 & Hn & Hq2 & _).
      rewrite Hrun2. unfold bind, sleep, ret.
      eexists. eexists. exists (e0 ++ e2 ++ [EvSleep 2]).
      split; [reflexivity | split].
      * eapply appends_trans; [exact Ha0 |].
        eapply appends_trans; [exact Ha2 | reflexivity].
      * rewrite !search_queries_app, Hq0, Hq2. simpl.
        rewrite length_app, length_map, length_firstn. simpl. lia.
    + unfold ret at 1, bind, sleep, ret.
      eexists. eexists. exists (e0 ++ [EvSleep 2]).
      split; [reflexivity | split].
      * eapply appends_trans; [exact Ha0 | reflexivity].
      * rewrite search_queries_app, Hq0. simpl. lia.
  - unfold ret. eexists. eexists. exists e0.
    split; [reflexivity | split; [exact Ha0 |]].
    rewrite Hq0. simpl. lia.
Qed.

Lemma loop_budget d qs (s : State W) :
  exists d' s' evs,
    loop d qs s = (Ok d', s') /\ appends s s' evs
    /\ 2 * length qs <= length (search_queries evs) <= 5 * length qs.
Proof.
  revert d s. induction qs as [| q qs IH]; intros d s.
  - exists d, s, []. simpl. split; [reflexivity | split; [apply appends_refl | lia]].
  - destruct (step_budget d q s) as (d1 & s1 & e1 & Hstep & Ha1 & Hb1).
    destruct (IH d1 s1) as (d2 & s2 & e2 & Hloop & Ha2 & Hb2).
    exists d2, s2, (e1 ++ e2). split; [| split].
    + simpl. unfold bind. rewrite Hstep. exact Hloop.
    + eapply appends_trans; eassumption.
    + rewrite search_queries_app, length_app. simpl length. lia.
Qed.

End Runs.

(** X4. A search never raises and makes exactly one request, with the
    cleaned query. It returns the empty list when the request fails or the
    answer has no organic results; otherwise one result per organic entry,
    in order, numbered from 1, with the link as URL (empty when absent) and
    nothing extracted or scored yet. *)
Theorem search_total_and_numbered
  {W : Type}
  (serper_post : string -> W -> outcome (option (list OrganicItem)) * W)
  (q : string) (s : State W) :
  exists rs s',
    _serper_search serper_post q s = (Ok rs, s')
    /\ since s s' = [EvSearch (clean_query q)]
    /\ map search_position rs = seq 1 (length rs)
    /\ Forall (fun r => query r = clean_query q /\ plain r) rs
    /\ (forall e w', serper_post (clean_query q) (world s) = (Raise e, w') -> rs = [])
    /\ (forall w', serper_post (clean_query q) (world s) = (Ok None, w') -> rs = [])
    /\ (forall items w',
          serper_post (clean_query q) (world s) = (Ok (Some items), w') ->
          map url rs = map (fun item => default "" (item_link item)) items).
Proof.
  destruct (ScoutFacts.search_run serper_post q s) as (rs & s' & Hrun & Happ).
  exists rs, s'. split; [exact Hrun |].
  split; [now apply since_appends |].
  pose proof (search_results_plain serper_post q s rs s' Hrun) as Hplain.
  unfold _serper_search, try_catch, bind, call, ret in Hrun.
  destruct (serper_post (clean_query q) (world s)) as [[[items |] | e] w1];
    simpl in Hrun; injection Hrun as <- <-.
  - destruct (build_results_shape (clean_query q) 1 items) as (Hlen & Hpos & Hurl & _).
    rewrite Hlen. repeat split; try assumption; try discriminate.
    intros items' w' [= <- <-]. exact Hurl.
  - repeat split; try assumption; try discriminate.
  - repeat split; try assumption; try discriminate.
Qed.



(** X6. Deepening never raises and returns at most as many results as the
    question lacks to reach five. No content is extracted for them, so none
    of them can pass the Analyst's quality filter, whatever its relevance. *)
Theorem deepening_bounded_without_content
  {W : Type}
  (serper_post : string -> W -> outcome (option (list OrganicItem)) * W)
  (q : string) (current_count : nat) (s : State W) :
  current_count < min_sources_per_query ->
  exists res s',
    _search_deeper serper_post q current_count s = (Ok res, s')
    /\ length res <= min_sources_per_query - current_count
    /\ forall r, In r res ->
         extracted_content r = None
         /\ forall relevance,
              Analyst.passes_thresholds (set_relevance relevance r) = false.
Proof.
  intros Hfew.
  destruct (ScoutFacts.deeper_loop_run serper_post
              (Z.of_nat min_sources_per_query - Z.of_nat current_count)
              (deeper_terms q) [] s)
    as (res & s1 & evs & n & Hrun & _).
  eexists. exists s1. split; [| split].
  - unfold _search_deeper, bind. rewrite Hrun. reflexivity.
  - etransitivity; [apply PySeqFacts.slice_to_length_le |]; lia.
  - intros r Hr.
    rewrite PySeqFacts.slice_to_nonneg in Hr by lia.
    assert (Hin : In r res).
    { rewrite <- (firstn_skipn (Z.to_nat (Z.of_nat min_sources_per_query
                                          - Z.of_nat current_count)) res).
      apply in_or_app. now left. }
    pose proof (deeper_loop_plain serper_post _ _ [] s res s1 (List.Forall_nil _) Hrun)
      as Hplain.
    rewrite List.Forall_forall in Hplain. destruct (Hplain r Hin) as (Hcontent & _).
    split; [exact Hcontent |].
    intros relevance. unfold Analyst.passes_thresholds, Analyst.content_of.
    simpl. rewrite Hcontent. reflexivity.
Qed.

Lemma deepening_bounded_without_content_run :
  exists res s',
    _search_deeper Stubs.one_hit "solar power" 3 Stubs.start = (Ok res, s')
    /\ length res <= min_sources_per_query - 3
    /\ forall r, In r res ->
         extracted_content r = None
         /\ forall relevance,
              Analyst.passes_thresholds (set_relevance relevance r) = false.
Proof.
  apply (deepening_bounded_without_content Stubs.one_hit "solar power" 3 Stubs.start).
  unfold min_sources_per_query. lia.
Defined.

(** X7. Gathering makes at least two and at most five search requests per
    sub-question, whatever the search API and the page fetches do. *)
Theorem gather_search_budget
  {W : Type}
  (serper_post : string -> W -> outcome (option (list OrganicItem)) * W)
  (http_get_text : string -> W -> outcome string * W)
  (pool_start : W -> outcome unit * W)
  (sub_questions : list string) (s : State W) :
  exists d s',
    deep_search_all_questions serper_post http_get_text pool_start sub_questions s
    = (Ok d, s')
    /\ 2 * length sub_questions <= length (search_queries (since s s'))
    /\ length (search_queries (since s s')) <= 5 * length sub_questions.
Proof.
  destruct (loop_budget serper_post http_get_text pool_start PyDict.empty sub_questions s)
    as (d & s' & evs & Hrun & Happ & Hlo & Hhi).
  exists d, s'. rewrite (since_appends _ _ _ Happ).
  split; [exact Hrun | split; assumption].
Qed.

(** Keys that are distinct, non-empty and unseen are all kept. *)
Lemma fresh_from_distinct (seen : gset string) l :
  NoDup (map DedupFacts.url_key l) ->
  (forall r, In r l -> DedupFacts.url_key r <> "" /\ DedupFacts.url_key r ∉ seen) ->
  DedupFacts.fresh_from seen l = l.
Proof.
  revert seen. induction l as [| x l IH]; intros seen Hnodup Hkeys; [reflexivity |].
  simpl. apply NoDup_cons in Hnodup. destruct Hnodup as [Hx Hnodup].
  assert (Hkept : DedupFacts.nonempty (DedupFacts.url_key x)
                  && negb (bool_decide (DedupFacts.url_key x ∈ seen)) = true).
  { apply DedupFacts.kept_iff. apply Hkeys. now left. }
  rewrite Hkept. f_equal. apply IH; [exact Hnodup |].
  intros r Hr. destruct (Hkeys r (or_intror Hr)) as [Hne Hns].
  split; [exact Hne |].
  intros Hin. apply elem_of_union in Hin. destruct Hin as [Hin | Hin]; [| contradiction].
  apply elem_of_singleton in Hin. apply Hx. rewrite <- Hin.
  apply list_elem_of_In, in_map. exact Hr.
Qed.

(** X8. Deduplicating a list that is already deduplicated changes nothing. *)
Theorem dedup_idempotent (results : list Source) :
  _remove_duplicates (_remove_duplicates results) = _remove_duplicates results.
Proof.
  rewrite !DedupFacts.remove_duplicates_fresh.
  apply fresh_from_distinct.
  - apply DedupFacts.fresh_keys_nodup.
  - intros r Hr. apply DedupFacts.fresh_keys_unseen in Hr.
    destruct Hr as [Hne _]. split; [exact Hne | set_solver].
Qed.

End ScoutMoreFacts.

(** ** Planner: every path *)

Module PlannerMoreFacts.

(** The prompts sent to the generation service, in order. *)
Definition generation_calls (evs : list Event) : list string :=
  flat_map (fun ev => match ev with EvGenerate p => [p] | _ => [] end) evs.

Lemma generation_calls_app e1 e2 :
  generation_calls (e1 ++ e2) = generation_calls e1 ++ generation_calls e2.
Proof. unfold generation_calls. apply flat_map_app. Qed.

(** X9. Planning never raises, whatever the generation service answers and
    whether or not its answer parses; it makes exactly one generation call,
    and for a target count N >= 0 it returns at most N sub-questions. *)
Theorem planner_total_and_bounded
  {W : Type} (generate : string -> W -> outcome string * W)
  (planning_prompt : string -> Z -> string)
  (json_loads : string -> outcome (list Json.t))
  (q : string) (n : Z) (s : State W) :
  exists qs s',
    Planner.generate_focused_sub_questions generate planning_prompt json_loads q n s
    = (Ok qs, s')
    /\ generation_calls (since s s') = [planning_prompt q n]
    /\ ((0 <= n)%Z -> length qs <= Z.to_nat n).
Proof.
  unfold Planner.generate_focused_sub_questions, try_catch, bind,
    Planner.call_generate, call.
  assert (Hsince : forall w' : W,
             since s (mkState w' (trace s ++ [EvGenerate (planning_prompt q n)]))
             = [EvGenerate (planning_prompt q n)]).
  { intros w'. apply EffFacts.since_appends. reflexivity. }
  destruct (generate (planning_prompt q n) (world s)) as [[text | e] w'].
  - destruct (Planner.search_json_array text) as [group |].
    + unfold lift. destruct (json_loads group) as [subs | e]; unfold ret;
        eexists; eexists; (split; [reflexivity |]); rewrite Hsince;
        (split; [reflexivity |]); intros Hn.
      * rewrite ?length_map; now apply PySeqFacts.slice_to_length_le.
      * rewrite ?length_map; now apply PySeqFacts.slice_to_length_le.
    + unfold ret. eexists. eexists. split; [reflexivity |]. rewrite Hsince.
      split; [reflexivity |]. intros Hn. rewrite ?length_map; now apply PySeqFacts.slice_to_length_le.
  - unfold ret. eexists. eexists. split; [reflexivity |]. rewrite Hsince.
    split; [reflexivity |]. intros Hn. rewrite ?length_map; now apply PySeqFacts.slice_to_length_le.
Qed.

(** A response that wraps the array in prose: the array is found. *)
Lemma search_json_array_sample :
  Planner.search_json_array "Here you go: [1, 2] and [3]" = Some "[1, 2]".
Proof. reflexivity. Qed.

End PlannerMoreFacts.

(** ** Analyst: extraction, provenance, the whole analysis *)

Module AnalystMoreFacts.
Import Analyst EffFacts.

(** An extraction that carries the metadata of the source it was made
    from, down to each fact. *)
Definition tagged (e : Extraction) (source : Scout.Source) : Prop :=
  (exists meta,
      source_metadata e = Some meta
      /\ url meta = Scout.url source /\ title meta = Scout.title source)
  /\ forall facts,
       key_information e = Some facts ->
       Forall (fun f =>
                 PyDict.get "source_url" f = Some (Json.JStr (Scout.url source))
                 /\ PyDict.get "source_title" f
                    = Some (Json.JStr (Scout.title source))) facts.

Definition long_enough (source : Scout.Source) : bool :=
  negb (String.length (content_of source) <? 50)%nat.

Lemma assess_member sources s :
  In s (_assess_source_quality sources) ->
  exists s0,
    In s0 sources /\ Scout.url s = Scout.url s0 /\ passes_thresholds s0 = true.
Proof.
  unfold _assess_source_quality. intros Hin.
  assert (Hfull : In s (Scout.sorted_desc
                          (fun x => default 0%Q (Scout.quality_score x))
                          (List.filter passes_thresholds
                             (map (fun x => set_quality (source_quality x) x) sources)))).
  { rewrite <- (firstn_skipn 3). apply in_or_app. now left. }
  apply SortFacts.sorted_desc_in, filter_In in Hfull. destruct Hfull as [Hmap Hpass].
  apply in_map_iff in Hmap. destruct Hmap as (s0 & <- & Hs0).
  exists s0. repeat split; assumption.
Qed.

Lemma assess_length sources : length (_assess_source_quality sources) <= 3.
Proof. unfold _assess_source_quality. rewrite length_firstn. lia. Qed.

Section Runs.
Context {W : Type}.
Variable generate : string -> W -> outcome string * W.
Variable extraction_prompt : string -> string -> Scout.Source -> string.
Variable synthesis_prompt : string -> list Fact -> nat -> string.
Variable insights_prompt : PyDict.t Answer -> string.
Variable parse_extraction : string -> outcome Extraction.
Variable parse_synthesis : string -> outcome SynthesisResult.
Variable parse_insights : string -> outcome Insights.

Local Abbreviation extract_one :=
  (_ai_extract_information generate extraction_prompt parse_extraction).
Local Abbreviation extract_all :=
  (_extract_information_from_sources generate extraction_prompt parse_extraction).
Local Abbreviation synthesize :=
  (_synthesize_information generate synthesis_prompt parse_synthesis).
Local Abbreviation answer_one :=
  (answer_question generate extraction_prompt synthesis_prompt
                   parse_extraction parse_synthesis).
Local Abbreviation analysis_turn :=
  (analysis_step generate extraction_prompt synthesis_prompt
                 parse_extraction parse_synthesis).
Local Abbreviation analysis_turns :=
  (analysis_loop generate extraction_prompt synthesis_prompt
                 parse_extraction parse_synthesis).

Definition prompt_for (q : string) (source : Scout.Source) : string :=
  extraction_prompt q (PyStr.take 1500 (content_of source)) source.

(** One extraction: one generation call, no exception, and either the
    empty dictionary or a tagged extraction. *)
Lemma fact_extraction_run q source (s : State W) :
  exists e s',
    extract_one (content_of source) q source s = (Ok e, s')
    /\ appends s s' [EvGenerate (prompt_for q source)]
    /\ (e = empty_extraction \/ tagged e source).
Proof.
  unfold _ai_extract_information, try_catch, bind, call_generate, call, lift, ret.
  fold (prompt_for q source).
  destruct (generate (prompt_for q source) (world s)) as [[text | e] w'].
  - destruct (parse_extraction text) as [data | e].
    + eexists. eexists. split; [reflexivity | split; [reflexivity | right]].
      unfold tagged. simpl. split.
      * eexists. repeat split.
      * intros facts Hfacts. destruct (key_information data) as [fs |]; [| discriminate].
        simpl in Hfacts. injection Hfacts as <-.
        apply List.Forall_forall. intros f Hf. apply in_map_iff in Hf.
        destruct Hf as (f0 & <- & _). unfold tag_fact. split.
        -- rewrite PyDictFacts.get_set_ne by discriminate.
           apply PyDictFacts.get_set_eq.
        -- apply PyDictFacts.get_set_eq.
    + eexists. eexists. split; [reflexivity | split; [reflexivity | now left]].
  - eexists. eexists. split; [reflexivity | split; [reflexivity | now left]].
Qed.

Lemma fact_extractions_run sources q (s : State W) :
  exists es s' evs,
    extract_all sources q s = (Ok es, s') /\ appends s s' evs
    /\ PlannerMoreFacts.generation_calls evs
       = map (prompt_for q) (List.filter long_enough sources)
    /\ length es <= length sources
    /\ Forall (fun e => has_key_information e = true
                        /\ exists source,
                             In source sources /\ long_enough source = true
                             /\ tagged e source) es.
Proof.
  revert s. induction sources as [| source rest IH]; intros s.
  - exists [], s, []. simpl.
    repeat split; [apply appends_refl | lia | constructor].
  - assert (Hweaken :
              forall es,
                Forall (fun e0 => has_key_information e0 = true
                                  /\ exists src,
                                       In src rest /\ long_enough src = true
                                       /\ tagged e0 src) es ->
                Forall (fun e0 => has_key_information e0 = true
                                  /\ exists src,
                                       In src (source :: rest) /\ long_enough src = true
                                       /\ tagged e0 src) es).
    { intros es Hall. eapply List.Forall_impl; [| exact Hall].
      intros e0 (Hk & src & Hsrc & Hmore). split; [exact Hk |].
      exists src. split; [now right | exact Hmore]. }
    cbn [_extract_information_from_sources List.filter]. unfold bind at 1, try_catch.
    destruct (String.length (content_of source) <? 50)%nat eqn:Hshort.
    + assert (Hlong : long_enough source = false)
        by (unfold long_enough; now rewrite Hshort).
      rewrite Hlong. unfold ret at 1.
      destruct (IH s) as (es & s' & evs & Hrun & Happ & Hcalls & Hlen & Hall).
      exists es, s', evs. unfold bind. rewrite Hrun. unfold ret.
      split; [reflexivity | split; [exact Happ | split; [exact Hcalls |]]].
      split; [simpl; lia | now apply Hweaken].
    + assert (Hlong : long_enough source = true)
        by (unfold long_enough; now rewrite Hshort).
      rewrite Hlong.
      destruct (fact_extraction_run q source s) as (e & s1 & Hone & Ha1 & Hcase).
      unfold bind at 1. rewrite Hone. unfold ret at 1.
      destruct (IH s1) as (es & s' & evs & Hrun & Happ & Hcalls & Hlen & Hall).
      unfold bind. rewrite Hrun. unfold ret.
      eexists. exists s', ([EvGenerate (prompt_for q source)] ++ evs).
      split; [reflexivity |].
      split; [eapply appends_trans; eassumption |].
      split; [rewrite PlannerMoreFacts.generation_calls_app, Hcalls; reflexivity |].
      destruct (has_key_information e) eqn:Hkey.
      * split; [simpl; lia |].
        constructor; [| now apply Hweaken]. split; [exact Hkey |].
        exists source. split; [now left | split; [exact Hlong |]].
        destruct Hcase as [-> | Htag]; [discriminate | exact Htag].
      * split; [simpl; lia | now apply Hweaken].
Qed.

Lemma fallback_urls facts metas q ans :
  _fallback_synthesis facts metas q = Ok ans ->
  source_urls ans = [] \/ source_urls ans = urls_of metas.
Proof.
  unfold _fallback_synthesis. destruct facts as [| f fs].
  - intros [= <-]. now left.
  - destruct (high_conf (f :: fs)) as [high | err]; [| discriminate].
    cbn [and_then].
    destruct (match high with
              | [] => join_facts (firstn 3 (f :: fs))
              | _ :: _ => join_facts (firstn 3 high)
              end) as [text | err]; [| discriminate].
    cbn [and_then]. intros [= <-]. now right.
Qed.

(** Synthesis raises only from the fallback rule; the URLs an answer cites
    are none, or the non-empty URLs of the extractions' sources. *)
Lemma synthesize_run es q (s : State W) :
  exists r s',
    synthesize es q s = (r, s')
    /\ match r with
       | Ok ans =>
           source_urls ans = [] \/ source_urls ans = urls_of (collect_sources es)
       | Raise err =>
           es <> []
           /\ _fallback_synthesis (collect_facts es) (collect_sources es) q = Raise err
       end.
Proof.
  unfold _synthesize_information. destruct es as [| e es].
  - unfold ret. eexists. eexists. split; [reflexivity | now left].
  - set (all := e :: es).
    unfold try_catch, bind, call_generate, call, lift, ret.
    assert (Hfallback :
              forall s1 : State W,
                match _fallback_synthesis (collect_facts all) (collect_sources all) q with
                | Ok ans =>
                    source_urls ans = []
                    \/ source_urls ans = urls_of (collect_sources all)
                | Raise err =>
                    all <> []
                    /\ _fallback_synthesis (collect_facts all) (collect_sources all) q
                       = Raise err
                end).
    { intros _.
      destruct (_fallback_synthesis (collect_facts all) (collect_sources all) q)
        as [ans | err] eqn:Hfb.
      - eapply fallback_urls; exact Hfb.
      - split; [discriminate | reflexivity]. }
    destruct (generate (synthesis_prompt q (collect_facts all)
                                         (length (collect_sources all))) (world s))
      as [[text | err] w'].
    + destruct (parse_synthesis text) as [res | err].
      * eexists. eexists. split; [reflexivity | now right].
      * eexists. eexists. split; [reflexivity | apply (Hfallback s)].
    + eexists. eexists. split; [reflexivity | apply (Hfallback s)].
Qed.

Lemma urls_of_length metas : length (urls_of metas) <= length metas.
Proof.
  unfold urls_of. etransitivity; [apply filter_length_le |].
  now rewrite length_map.
Qed.

Lemma collect_sources_cons e es :
  collect_sources (e :: es)
  = match source_metadata e with
    | Some meta => meta :: collect_sources es
    | None => collect_sources es
    end.
Proof. reflexivity. Qed.

Lemma collect_sources_length es : length (collect_sources es) <= length es.
Proof.
  induction es as [| e es IH]; [reflexivity |].
  rewrite collect_sources_cons. destruct (source_metadata e); simpl; lia.
Qed.

Lemma collect_sources_member es meta :
  In meta (collect_sources es) -> exists e, In e es /\ source_metadata e = Some meta.
Proof.
  induction es as [| e es IH]; [intros [] |].
  rewrite collect_sources_cons.
  destruct (source_metadata e) as [m |] eqn:Hm.
  - intros [<- | Hin].
    + exists e. split; [now left | exact Hm].
    + destruct (IH Hin) as (e0 & He0 & Hmeta). exists e0. split; [now right | exact Hmeta].
  - intros Hin. destruct (IH Hin) as (e0 & He0 & Hmeta).
    exists e0. split; [now right | exact Hmeta].
Qed.

(** What holds of the answer to a question, given its sources. *)
Definition cites_given_sources (ans : Answer) (sources : list Scout.Source) : Prop :=
  length (source_urls ans) <= 3
  /\ forall u, In u (source_urls ans) ->
       u <> ""
       /\ exists source,
            In source sources /\ Scout.url source = u
            /\ passes_thresholds source = true.

(** Answering one question raises only from the fallback rule. *)
Lemma answer_one_run q sources (s : State W) :
  exists r s',
    answer_one q sources s = (r, s')
    /\ match r with
       | Ok (ans, n) =>
           n = length (_assess_source_quality sources)
           /\ cites_given_sources ans sources
       | Raise err =>
           exists es,
             es <> []
             /\ _fallback_synthesis (collect_facts es) (collect_sources es) q
                = Raise err
       end.
Proof.
  unfold answer_question.
  destruct (fact_extractions_run (_assess_source_quality sources) q s)
    as (es & s1 & evs & Hrun & _ & _ & Hlen & Hall).
  destruct (synthesize_run es q s1) as (r & s2 & Hsyn & Hshape).
  unfold bind at 1. rewrite Hrun. unfold bind. rewrite Hsyn.
  destruct r as [ans | err].
  - eexists. eexists. split; [reflexivity |]. split; [reflexivity |].
    unfold cites_given_sources.
    destruct Hshape as [-> | ->]; [split; [simpl; lia | intros u []] |].
    split.
    + etransitivity; [apply urls_of_length |].
      etransitivity; [apply collect_sources_length |].
      etransitivity; [exact Hlen | apply assess_length].
    + intros u Hu. unfold urls_of in Hu. apply filter_In in Hu.
      destruct Hu as [Hu Hne]. apply in_map_iff in Hu.
      destruct Hu as (meta & <- & Hmeta).
      split; [destruct (String.eqb_spec (url meta) ""); [discriminate | assumption] |].
      destruct (collect_sources_member es meta Hmeta) as (e & He & Hsm).
      rewrite List.Forall_forall in Hall.
      destruct (Hall e He) as (_ & src & Hsrc & _ & (m & Hm & Hmurl & _) & _).
      rewrite Hsm in Hm. injection Hm as <-.
      destruct (assess_member sources src Hsrc) as (s0 & Hs0 & Hurl0 & Hpass).
      exists s0. split; [exact Hs0 | split; [congruence | exact Hpass]].
  - eexists. eexists. split; [reflexivity |]. exists es. exact Hshape.
Qed.

(** The answer stored for a question whose turn raised. *)
Definition failure_answer (e : Exn) : Answer :=
  mkAnswer ("Analysis failed: " +:+ str e) None [] 0%Q None None.

(** A turn of the analysis loop never raises: an entry without sources is
    skipped; any other gets an answer, and either a quality count and its
    sources added to the total, or, when answering raised, the failure
    answer and nothing else. *)
Lemma analysis_turn_run answers counts total q sources (s : State W) :
  exists acc' s',
    analysis_turn (answers, counts, total) (q, sources) s = (Ok acc', s')
    /\ match sources with
       | [] => acc' = (answers, counts, total)
       | _ =>
           (exists ans,
               acc' = (PyDict.set q ans answers,
                       PyDict.set q
                         (mkQualityCount (length sources)
                            (length (_assess_source_quality sources))) counts,
                       total + length sources))
           \/ (exists err,
                 acc' = (PyDict.set q (failure_answer err) answers, counts, total))
       end.
Proof.
  unfold analysis_step. destruct sources as [| x xs].
  - unfold ret. eexists. eexists. split; reflexivity.
  - destruct (answer_one_run q (x :: xs) s) as (r & s1 & Hrun & Hshape).
    unfold try_catch, bind. rewrite Hrun. destruct r as [[ans n] | err].
    + destruct Hshape as (-> & _). unfold ret.
      eexists. eexists. split; [reflexivity |]. left. now exists ans.
    + unfold ret. eexists. eexists. split; [reflexivity |]. right. now exists err.
Qed.

(** Sum of the lengths of the source lists. *)
Definition sources_total (items : list (string * list Scout.Source)) : nat :=
  list_sum (map (fun item => length (snd item)) items).

Definition answered (items : list (string * list Scout.Source)) (q : string) : Prop :=
  exists sources, In (q, sources) items /\ sources <> [].

(** Every answer has a quality count beside it, or is a failure answer. *)
Definition settled (answers : PyDict.t Answer) (counts : PyDict.t QualityCount)
  : Prop :=
  forall q, In q (PyDict.keys answers) ->
    In q (PyDict.keys counts)
    \/ exists err, PyDict.get q answers = Some (failure_answer err).

(** The sources the quality counts account for. *)
Definition counted_sources (counts : PyDict.t QualityCount) : nat :=
  list_sum (map total_sources (PyDict.values counts)).

Lemma settled_set_counted q ans c answers counts :
  settled answers counts ->
  settled (PyDict.set q ans answers) (PyDict.set q c counts).
Proof.
  intros Hs k Hk. rewrite PyDictFacts.in_keys_set in Hk.
  rewrite PyDictFacts.in_keys_set.
  destruct (String.eqb_spec k q) as [-> | Hne]; [left; now left |].
  destruct Hk as [-> | Hk]; [congruence |].
  destruct (Hs k Hk) as [Hc | (err & Hget)]; [left; now right | right].
  exists err. now rewrite PyDictFacts.get_set_ne.
Qed.

Lemma settled_set_failed q err answers counts :
  settled answers counts ->
  settled (PyDict.set q (failure_answer err) answers) counts.
Proof.
  intros Hs k Hk. rewrite PyDictFacts.in_keys_set in Hk.
  destruct (String.eqb_spec k q) as [-> | Hne].
  - right. exists err. apply PyDictFacts.get_set_eq.
  - destruct Hk as [-> | Hk]; [congruence |].
    destruct (Hs k Hk) as [Hc | (err' & Hget)]; [now left | right].
    exists err'. now rewrite PyDictFacts.get_set_ne.
Qed.

Lemma analysis_turns_run answers counts total items (s : State W) :
  PyDict.wf answers ->
  exists answers' counts' total' s',
    analysis_turns (answers, counts, total) items s
    = (Ok (answers', counts', total'), s')
    /\ PyDict.wf answers'
    /\ (forall q, In q (PyDict.keys answers')
                  <-> In q (PyDict.keys answers) \/ answered items q)
    /\ (forall q, In q (PyDict.keys counts')
                  -> In q (PyDict.keys counts) \/ answered items q)
    /\ total <= total' <= total + sources_total items
    /\ (settled answers counts -> settled answers' counts').
Proof.
  clear insights_prompt parse_insights.
  revert answers counts total s.
  induction items as [| [q sources] rest IH]; intros answers counts total s Hwf.
  - exists answers, counts, total, s. unfold sources_total. simpl.
    split; [reflexivity | split; [exact Hwf |]].
    split; [intros q; split; [tauto | intros [H | (srcs & [] & _)]; exact H] |].
    split; [tauto | split; [lia | tauto]].
  - assert (Hlater : forall k, answered rest k -> answered ((q, sources) :: rest) k).
    { intros k (srcs & Hin & Hne). exists srcs. split; [now right | exact Hne]. }
    assert (Hhere : sources <> [] -> answered ((q, sources) :: rest) q).
    { intros Hne. exists sources. split; [now left | exact Hne]. }
    assert (Hsplit : forall k, answered ((q, sources) :: rest) k ->
                       (k = q /\ sources <> []) \/ answered rest k).
    { intros k (srcs & [[= <- <-] | Hin] & Hne); [now left | right].
      exists srcs. split; assumption. }
    destruct (analysis_turn_run answers counts total q sources s)
      as (acc' & s1 & Hturn & Hshape).
    cbn [analysis_loop]. unfold bind at 1. rewrite Hturn.
    destruct sources as [| x xs].
    + subst acc'. destruct (IH answers counts total s1 Hwf)
        as (a' & c' & t' & s' & Hrun & Hwf' & Hka & Hkc & Ht & Hset).
      exists a', c', t', s'. unfold sources_total in *. simpl.
      split; [exact Hrun | split; [exact Hwf' |]].
      split; [| split; [| split; [exact Ht | exact Hset]]].
      * intros k. rewrite Hka. split.
        -- intros [H | H]; [now left | right; now apply Hlater].
        -- intros [H | H]; [now left |].
           destruct (Hsplit k H) as [(_ & Hne) | Hr]; [congruence | now right].
      * intros k Hk. destruct (Hkc k Hk) as [H | H]; [now left | right; now apply Hlater].
    + destruct Hshape as [(ans & ->) | (err & ->)].
      * destruct (IH (PyDict.set q ans answers)
                     (PyDict.set q
                        (mkQualityCount (length (x :: xs))
                           (length (_assess_source_quality (x :: xs)))) counts)
                     (total + length (x :: xs)) s1 (PyDictFacts.wf_set _ _ _ Hwf))
          as (a' & c' & t' & s' & Hrun & Hwf' & Hka & Hkc & Ht & Hset).
        exists a', c', t', s'.
        split; [exact Hrun | split; [exact Hwf' |]].
        split; [| split; [| split]].
        -- intros k. rewrite Hka, PyDictFacts.in_keys_set. split.
           ++ intros [[-> | H] | H];
                [right; apply Hhere; discriminate | now left | right; now apply Hlater].
           ++ intros [H | H]; [left; now right |].
              destruct (Hsplit k H) as [(-> & _) | Hr]; [left; now left | now right].
        -- intros k Hk. destruct (Hkc k Hk) as [H | H]; [| right; now apply Hlater].
           rewrite PyDictFacts.in_keys_set in H.
           destruct H as [-> | H]; [right; apply Hhere; discriminate | now left].
        -- unfold sources_total in *. simpl in *. lia.
        -- intros Hs. apply Hset. now apply settled_set_counted.
      * destruct (IH (PyDict.set q (failure_answer err) answers) counts total s1
                     (PyDictFacts.wf_set _ _ _ Hwf))
          as (a' & c' & t' & s' & Hrun & Hwf' & Hka & Hkc & Ht & Hset).
        exists a', c', t', s'.
        split; [exact Hrun | split; [exact Hwf' |]].
        split; [| split; [| split]].
        -- intros k. rewrite Hka, PyDictFacts.in_keys_set. split.
           ++ intros [[-> | H] | H];
                [right; apply Hhere; discriminate | now left | right; now apply Hlater].
           ++ intros [H | H]; [left; now right |].
              destruct (Hsplit k H) as [(-> & _) | Hr]; [left; now left | now right].
        -- intros k Hk. destruct (Hkc k Hk) as [H | H]; [now left | right; now apply Hlater].
        -- unfold sources_total in *. simpl in *. lia.
        -- intros Hs. apply Hset. now apply settled_set_failed.
Qed.

Lemma counted_set_fresh q c counts :
  ~ In q (PyDict.keys counts) ->
  counted_sources (PyDict.set q c counts) = counted_sources counts + total_sources c.
Proof.
  clear generate extraction_prompt synthesis_prompt insights_prompt
    parse_extraction parse_synthesis parse_insights W.
  unfold counted_sources. induction counts as [| [k v] counts IH]; intros Hfresh.
  - simpl. lia.
  - simpl in Hfresh. simpl.
    destruct (String.eqb_spec q k) as [-> | Hne]; [tauto |].
    simpl. rewrite IH by tauto. lia.
Qed.

(** Over a dictionary of sources, whose keys differ from one another and
    from those counted before: the total grows by what the new quality
    counts account for, and each new count is that of its question. *)
Lemma analysis_turns_counts items :
  forall answers counts total (s : State W) answers' counts' total' s',
    analysis_turns (answers, counts, total) items s
    = (Ok (answers', counts', total'), s') ->
    PyDict.wf items ->
    (forall q, In q (PyDict.keys items) -> ~ In q (PyDict.keys counts)) ->
    total' + counted_sources counts = total + counted_sources counts'
    /\ forall q c, PyDict.get q counts' = Some c ->
         PyDict.get q counts = Some c
         \/ exists sources,
              In (q, sources) items /\ sources <> []
              /\ c = mkQualityCount (length sources)
                       (length (_assess_source_quality sources)).
Proof.
  clear insights_prompt parse_insights.
  induction items as [| [q sources] rest IH];
    intros answers counts total s answers' counts' total' s' Hrun Hwf Hfresh.
  - simpl in Hrun. unfold ret in Hrun. injection Hrun as <- <- <- <-.
    split; [lia | intros k c Hget; now left].
  - unfold PyDict.wf in Hwf. cbn [PyDict.keys map fst] in Hwf.
    apply NoDup_cons in Hwf. destruct Hwf as (Hq & Hwf).
    assert (Hqrest : ~ In q (PyDict.keys rest))
      by (intros H; apply Hq; now apply list_elem_of_In).
    destruct (analysis_turn_run answers counts total q sources s)
      as (acc' & s1 & Hturn & Hshape).
    cbn [analysis_loop] in Hrun. unfold bind at 1 in Hrun. rewrite Hturn in Hrun.
    assert (Hlater : forall k c,
               (PyDict.get k counts = Some c
                \/ exists srcs,
                     In (k, srcs) rest /\ srcs <> []
                     /\ c = mkQualityCount (length srcs)
                              (length (_assess_source_quality srcs))) ->
               PyDict.get k counts = Some c
               \/ exists srcs,
                    In (k, srcs) ((q, sources) :: rest) /\ srcs <> []
                    /\ c = mkQualityCount (length srcs)
                             (length (_assess_source_quality srcs))).
    { intros k c [H | (srcs & Hin & Hmore)]; [now left | right].
      exists srcs. split; [now right | exact Hmore]. }
    destruct sources as [| x xs].
    + subst acc'.
      destruct (IH _ _ _ _ _ _ _ _ Hrun Hwf
                  (fun k Hk => Hfresh k (or_intror Hk))) as (Htotal & Hcounts).
      split; [exact Htotal | intros k c Hget; apply Hlater, Hcounts, Hget].
    + destruct Hshape as [(ans & ->) | (err & ->)].
      * assert (Hnew : ~ In q (PyDict.keys counts)) by (apply Hfresh; now left).
        destruct (IH _ _ _ _ _ _ _ _ Hrun Hwf) as (Htotal & Hcounts).
        { intros k Hk. rewrite PyDictFacts.in_keys_set. intros [-> | Hc].
          - now apply Hqrest.
          - apply (Hfresh k); [now right | exact Hc]. }
        rewrite (counted_set_fresh _ _ _ Hnew) in Htotal. cbn [total_sources] in Htotal.
        split; [lia |].
        intros k c Hget. destruct (Hcounts k c Hget) as [Hold | Hrest];
          [| apply Hlater; now right].
        destruct (String.eqb_spec k q) as [-> | Hne].
        -- rewrite PyDictFacts.get_set_eq in Hold. injection Hold as <-.
           right. exists (x :: xs). split; [now left | split; [discriminate | reflexivity]].
        -- rewrite PyDictFacts.get_set_ne in Hold by exact Hne. now left.
      * destruct (IH _ _ _ _ _ _ _ _ Hrun Hwf
                    (fun k Hk => Hfresh k (or_intror Hk))) as (Htotal & Hcounts).
        split; [exact Htotal | intros k c Hget; apply Hlater, Hcounts, Hget].
Qed.

End Runs.

(** X10. Extraction from a list of sources never raises. It makes one
    generation call for each source with at least 50 characters of content,
    in order, and none for the others; it returns at most one extraction
    per source, and every extraction returned has facts and carries the URL
    and title of the source it was made from, on its metadata and on each
    fact. *)
Theorem extraction_calls_and_provenance
  {W : Type} (generate : string -> W -> outcome string * W)
  (extraction_prompt : string -> string -> Scout.Source -> string)
  (parse_extraction : string -> outcome Extraction)
  (sources : list Scout.Source) (q : string) (s : State W) :
  exists es s',
    _extract_information_from_sources generate extraction_prompt parse_extraction
      sources q s = (Ok es, s')
    /\ PlannerMoreFacts.generation_calls (since s s')
       = map (prompt_for extraction_prompt q) (List.filter long_enough sources)
    /\ length es <= length sources
    /\ Forall (fun e => has_key_information e = true
                        /\ exists source,
                             In source sources /\ long_enough source = true
                             /\ tagged e source) es.
Proof.
  destruct (fact_extractions_run generate extraction_prompt parse_extraction sources q s)
    as (es & s' & evs & Hrun & Happ & Hcalls & Hlen & Hall).
  exists es, s'. rewrite (since_appends _ _ _ Happ).
  repeat split; assumption.
Qed.




End AnalystMoreFacts.

(** ** Writer: order of the citation map, the report and its metadata *)

Module ReportFacts.
Import Writer.

(** Noting a URL: appended unless already noted. *)
Definition note_url (noted : list string) (u : string) : list string :=
  if existsb (String.eqb u) noted then noted else noted ++ [u].

(** The distinct elements of a list, in order of first occurrence. *)
Definition first_occurrences (l : list string) : list string :=
  fold_left note_url l [].

(** Every URL the answers cite, answer by answer. *)
Definition cited_urls (answers : PyDict.t Analyst.Answer) : list string :=
  flat_map (fun item => Analyst.source_urls (snd item)) answers.

Lemma mem_keys {V} u (d : PyDict.t V) :
  PyDict.mem u d = existsb (String.eqb u) (PyDict.keys d).
Proof.
  unfold PyDict.mem. induction d as [| [k v] d IH]; [reflexivity |].
  simpl. destruct (String.eqb u k); [reflexivity | exact IH].
Qed.

Lemma add_urls_keys question urls cm :
  PyDict.keys (add_source_urls question urls cm)
  = fold_left note_url urls (PyDict.keys cm).
Proof.
  revert cm. induction urls as [| u rest IH]; intros cm; [reflexivity |].
  simpl. rewrite IH. f_equal. unfold note_url. rewrite <- mem_keys.
  destruct (PyDict.mem u cm) eqn:Hmem; [reflexivity |].
  now rewrite PyDictFacts.keys_set, Hmem.
Qed.

Lemma citation_loop_keys answers cm :
  PyDict.keys (build_citation_loop answers cm)
  = fold_left note_url (cited_urls answers) (PyDict.keys cm).
Proof.
  revert cm. induction answers as [| [question a] rest IH]; intros cm; [reflexivity |].
  simpl. unfold cited_urls. simpl. rewrite fold_left_app, IH, add_urls_keys.
  reflexivity.
Qed.

Lemma noted_member l noted u :
  In u (fold_left note_url l noted) <-> In u noted \/ In u l.
Proof.
  revert noted. induction l as [| x l IH]; intros noted; simpl; [tauto |].
  rewrite IH. unfold note_url.
  destruct (existsb (String.eqb x) noted) eqn:Hx.
  - apply existsb_exists in Hx. destruct Hx as (y & Hy & Heq).
    apply String.eqb_eq in Heq. subst y. intuition congruence.
  - rewrite in_app_iff. simpl. intuition congruence.
Qed.

(** X13. The keys of the citation map are the URLs the answers cite, each
    once, in the order in which they are first cited; and the entry under
    a URL records that URL. *)
Theorem citation_map_keys_in_citation_order (answers : PyDict.t Analyst.Answer) :
  PyDict.keys (_build_source_citation_map answers)
  = first_occurrences (cited_urls answers)
  /\ (forall u, In u (PyDict.keys (_build_source_citation_map answers))
                <-> In u (cited_urls answers))
  /\ forall u entry,
       PyDict.get u (_build_source_citation_map answers) = Some entry ->
       url entry = u.
Proof.
  unfold _build_source_citation_map. split; [| split].
  - apply citation_loop_keys.
  - intros u. rewrite citation_loop_keys, noted_member. simpl. tauto.
  - intros u entry. rewrite CitationFacts.citation_loop_get. simpl.
    destruct (CitationFacts.first_origin u answers); simpl; [| discriminate].
    now intros [= <-].
Qed.

Lemma header_nonempty t report :
  PyStr.join nl
    [ "---"; "Generated: " +:+ t; "Generator: Enhanced AI Research Engine";
      "Format: Evidence-Backed Research Report"; "---"; ""; "" ] +:+ report <> "".
Proof. cbn. discriminate. Qed.

Lemma quality_score_range n :
  (0 <= Scout.py_min (Scout.count n * (1 # 10)) 1 <= 1)%Q
  /\ ((10 <= n)%nat -> (Scout.py_min (Scout.count n * (1 # 10)) 1 == 1)%Q).
Proof.
  pose proof (RelevanceFacts.count_nonneg n) as Hn.
  split; [split |].
  - apply RelevanceFacts.py_min_nonneg; lra.
  - apply RelevanceFacts.py_min_le_right.
  - intros Hten. unfold Scout.py_min.
    assert (Hbig : (1 <= Scout.count n * (1 # 10))%Q).
    { unfold Scout.count, Qle, Qmult. simpl. lia. }
    destruct (1 ?= Scout.count n * (1 # 10))%Q eqn:Hc.
    + apply Qeq_alt in Hc. now rewrite <- Hc.
    + reflexivity.
    + apply Qgt_alt in Hc. lra.
Qed.

(** X14. Writing a report never raises, and the metadata describe the text
    returned: the topic is the one given, the word count is the number of
    words of the Markdown text, which is never empty. Either the report is
    the fallback one (marked so, no citation map, citation count 0), or it
    carries the citation map built from the answers, its citation and
    section counts are those of the text returned, and its quality score
    lies between 0 and 1: it is 0 when the text has no citation and 1 from
    ten citations on. *)
Theorem report_metadata_describes_text
  {W : Type} (generate : string -> W -> outcome string * W)
  (clock : W -> (string * string) * W)
  (report_prompt :
     string -> PyDict.t Analyst.Answer -> Analyst.Insights
     -> PyDict.t CitationEntry -> string)
  (count_citations count_sections : string -> nat)
  (_ensure_markdown_formatting : string -> string)
  (topic : string) (analysis : Analyst.AnalysisResults) (s : State W) :
  exists rep s',
    generate_comprehensive_report generate clock report_prompt count_citations
      count_sections _ensure_markdown_formatting topic analysis s = (Ok rep, s')
    /\ user_topic (metadata rep) = topic
    /\ word_count (metadata rep) = length (PyStr.split (markdown_report rep))
    /\ markdown_report rep <> ""
    /\ ((fallback_mode (metadata rep) = Some true
         /\ source_citation_map rep = None
         /\ citation_count (metadata rep) = 0)
        \/ (fallback_mode (metadata rep) = None
            /\ source_citation_map rep
               = Some (_build_source_citation_map
                         (Analyst.sub_question_answers analysis))
            /\ citation_count (metadata rep) = count_citations (markdown_report rep)
            /\ section_count (metadata rep)
               = Some (count_sections (markdown_report rep))
            /\ sources_analyzed (metadata rep)
               = Some (Analyst.total_sources_analyzed analysis)
            /\ sub_questions_covered (metadata rep)
               = Some (length (Analyst.sub_question_answers analysis))
            /\ exists score,
                 report_quality_score (metadata rep) = Some score
                 /\ (0 <= score <= 1)%Q
                 /\ (citation_count (metadata rep) = 0%nat -> (score == 0)%Q)
                 /\ ((10 <= citation_count (metadata rep))%nat
                     -> (score == 1)%Q))).
Proof.
  unfold generate_comprehensive_report, try_catch, draft_report,
    _generate_markdown_report, _validate_and_format_report, _add_report_header,
    _generate_report_metadata, try_catch, bind, call_generate, now, call, raise, ret.
  destruct (generate _ (world s)) as [[text | e] w1]; cbn [fst snd world trace].
  - destruct (clock w1) as [t1 w2]. cbn [fst snd world trace].
    destruct (clock w2) as [t2 w3]. cbn [fst snd world trace].
    eexists. eexists. split; [reflexivity |]. cbn [metadata markdown_report
      source_citation_map user_topic word_count fallback_mode citation_count
      section_count sources_analyzed sub_questions_covered report_quality_score].
    split; [reflexivity | split; [reflexivity | split; [apply header_nonempty |]]].
    right. repeat split. eexists. split; [reflexivity |].
    split; [apply quality_score_range |].
    split; [intros ->; reflexivity | apply quality_score_range].
  - destruct (WriterFacts.fallback_report_run clock topic analysis
                (mkState w1 (trace s ++ [EvGenerate
                   (report_prompt topic (Analyst.sub_question_answers analysis)
                      (Analyst.synthesized_insights analysis)
                      (_build_source_citation_map
                         (Analyst.sub_question_answers analysis)))])))
      as (rep & s2 & Hrun & Hcount & Hmode & Htext & Hmap).
    exists rep, s2. split; [exact Hrun |].
    unfold _generate_fallback_report, bind, now, call, ret in Hrun.
    cbn [world] in Hrun.
    destruct (clock w1) as [t1 w2]. cbn [fst snd world] in Hrun.
    destruct (clock w2) as [t2 w3]. cbn [fst snd] in Hrun.
    injection Hrun as <- <-. cbn [metadata markdown_report user_topic word_count].
    split; [reflexivity | split; [reflexivity | split; [exact Htext |]]].
    left. repeat split.
Qed.

End ReportFacts.

(** ** Engine: the whole run, and the methods kept for older callers *)

Module EngineMoreFacts.
Import Engine.

Section Runs.
Context {W : Type}.
Variable planner : string -> Z -> M W (list Json.t).
Variable scout : list Json.t -> M W (PyDict.t (list Scout.Source)).
Variable analyst : PyDict.t (list Scout.Source) -> M W Analyst.AnalysisResults.
Variable writer : string -> Analyst.AnalysisResults -> M W Writer.Report.
Variable clock : W -> Z * W.

(** The four phases, started in state [s0], all return. *)
Definition phases_complete (q : string) (n : Z) (s0 : State W)
  (subs : list Json.t) (sources : PyDict.t (list Scout.Source))
  (analysis : Analyst.AnalysisResults) (report : Writer.Report) (s4 : State W) : Prop :=
  exists s1 s2 s3,
    planner q n s0 = (Ok subs, s1)
    /\ scout subs s1 = (Ok sources, s2)
    /\ analyst sources s2 = (Ok analysis, s3)
    /\ writer q analysis s3 = (Ok report, s4).

(** The state after one more reading of the clock. *)
Definition after_clock (s : State W) : State W :=
  mkState (snd (clock (world s))) (trace s ++ [EvClock]).

Lemma phases_cases q n (s0 : State W) :
  (exists e subs sources analysis s',
     EngineFacts.phases_fail planner scout analyst writer q n s0 e subs sources
       analysis s')
  \/ (exists subs sources analysis report s4,
        phases_complete q n s0 subs sources analysis report s4).
Proof.
  destruct (planner q n s0) as [[subs | e] s1] eqn:Hp.
  2: { left. exists e, None, None, None, s1. now apply EngineFacts.fail_planning. }
  destruct (scout subs s1) as [[sources | e] s2] eqn:Hs.
  2: { left. exists e, (Some subs), None, None, s2.
       eapply EngineFacts.fail_scouting; eassumption. }
  destruct (analyst sources s2) as [[analysis | e] s3] eqn:Ha.
  2: { left. exists e, (Some subs), (Some sources), None, s3.
       eapply EngineFacts.fail_analyzing; eassumption. }
  destruct (writer q analysis s3) as [[report | e] s4] eqn:Hw.
  2: { left. exists e, (Some subs), (Some sources), (Some analysis), s4.
       eapply EngineFacts.fail_writing; eassumption. }
  right. exists subs, sources, analysis, report, s4, s1, s2, s3. tauto.
Qed.

Lemma research_phases_complete q n c0 (s0 : State W) subs sources analysis report s4 :
  phases_complete q n s0 subs sources analysis report s4 ->
  exists c,
    research_phases planner scout analyst writer clock q n c0 s0
    = (Ok (Ok (Success c (Writer.markdown_report report) (Writer.metadata report)
                 (default PyDict.empty (Writer.source_citation_map report))
                 analysis), c), after_clock s4)
    /\ user_query c = user_query c0
    /\ start_time c = start_time c0
    /\ agents_used c = agents_used c0
    /\ sub_questions c = Some subs
    /\ sources_data c = Some sources
    /\ analysis_results c = Some analysis
    /\ report_results c = Some report
    /\ end_time c = Some (fst (clock (world s4)))
    /\ duration c = Some (fst (clock (world s4)) - start_time c0)%Z.
Proof.
  intros (s1 & s2 & s3 & Hp & Hs & Ha & Hw).
  eexists. split.
  - unfold research_phases.
    unfold cbind at 1, bind. rewrite (EngineFacts.run_ok _ _ _ _ _ Hp).
    unfold cbind at 1, bind, store, ret.
    unfold cbind at 1, bind. rewrite (EngineFacts.run_ok _ _ _ _ _ Hs).
    unfold cbind at 1, bind, store, ret.
    unfold cbind at 1, bind. rewrite (EngineFacts.run_ok _ _ _ _ _ Ha).
    unfold cbind at 1, bind, store, ret.
    unfold cbind at 1, bind. rewrite (EngineFacts.run_ok _ _ _ _ _ Hw).
    unfold cbind at 1, bind, store, ret.
    unfold cbind at 1, bind.
    assert (Hnow : now clock s4 = (Ok (fst (clock (world s4))), after_clock s4)).
    { unfold now, call, after_clock. now destruct (clock (world s4)). }
    rewrite (EngineFacts.run_ok _ _ _ _ _ Hnow).
    unfold cbind, bind, store, current, cret, ret. reflexivity.
  - simpl. repeat split.
Qed.

End Runs.

(** X15. A research run never raises, and its result keeps the query. It
    is a success exactly when the four phases all return: then each phase
    was given the output of the one before, the result carries the report
    text and the context holds the four outputs, the end time read after
    writing, and as duration the end time minus the start time. Otherwise a
    phase raised: the result carries its message, no report and no end
    time. *)
Theorem research_run_total_and_ordered
  {W : Type}
  (planner : string -> Z -> M W (list Json.t))
  (scout : list Json.t -> M W (PyDict.t (list Scout.Source)))
  (analyst : PyDict.t (list Scout.Source) -> M W Analyst.AnalysisResults)
  (writer : string -> Analyst.AnalysisResults -> M W Writer.Report)
  (clock : W -> Z * W)
  (q : string) (n : Z) (s : State W) :
  exists r s',
    comprehensive_research planner scout analyst writer clock q n s = (Ok r, s')
    /\ user_query (context_of r) = q
    /\ start_time (context_of r) = fst (clock (world s))
    /\ (success r = true ->
        exists subs sources analysis report s4,
          phases_complete planner scout analyst writer q n (after_clock clock s)
            subs sources analysis report s4
          /\ s' = after_clock clock s4
          /\ report_of r = Some (Writer.markdown_report report)
          /\ sub_questions (context_of r) = Some subs
          /\ sources_data (context_of r) = Some sources
          /\ analysis_results (context_of r) = Some analysis
          /\ report_results (context_of r) = Some report
          /\ end_time (context_of r) = Some (fst (clock (world s4)))
          /\ duration (context_of r)
             = Some (fst (clock (world s4)) - fst (clock (world s)))%Z)
    /\ (success r = false ->
        exists e subs sources analysis,
          EngineFacts.phases_fail planner scout analyst writer q n
            (after_clock clock s) e subs sources analysis s'
          /\ error_of r = Some (str e)
          /\ report_of r = None
          /\ end_time (context_of r) = None).
Proof.
  assert (Hnow : now clock s = (Ok (fst (clock (world s))), after_clock clock s)).
  { unfold now, call, after_clock. now destruct (clock (world s)). }
  destruct (phases_cases planner scout analyst writer q n (after_clock clock s))
    as [(e & subs & sources & analysis & s' & Hfail)
       | (subs & sources & analysis & report & s4 & Hok)].
  - destruct (EngineFacts.research_phases_fail planner scout analyst writer clock q n
                (initial_context q (fst (clock (world s)))) _ e subs sources
                analysis s' eq_refl eq_refl eq_refl eq_refl Hfail)
      as (c & Hrun & Hq & Hsub & Hsrc & Han & Hrep).
    exists (Failure (str e) c), s'. split.
    { unfold comprehensive_research, bind. rewrite Hnow, Hrun. reflexivity. }
    assert (Hshape : start_time c = fst (clock (world s)) /\ end_time c = None).
    { clear Hq Hsub Hsrc Han Hrep.
      unfold research_phases in Hrun.
      inversion Hfail as [e' s1 Hp | subs' s1 e' s2 Hp Hs
                          | subs' s1 src' s2 e' s3 Hp Hs Ha
                          | subs' s1 src' s2 an' s3 e' s4 Hp Hs Ha Hw]; subst.
      - unfold cbind at 1, bind in Hrun.
        rewrite (EngineFacts.run_raise _ _ _ _ _ Hp) in Hrun.
        unfold ret in Hrun. injection Hrun as <-. now split.
      - unfold cbind at 1, bind in Hrun.
        rewrite (EngineFacts.run_ok _ _ _ _ _ Hp) in Hrun.
        unfold cbind at 1, bind, store, ret in Hrun.
        unfold cbind at 1, bind in Hrun.
        rewrite (EngineFacts.run_raise _ _ _ _ _ Hs) in Hrun.
        injection Hrun as <-. now split.
      - unfold cbind at 1, bind in Hrun.
        rewrite (EngineFacts.run_ok _ _ _ _ _ Hp) in Hrun.
        unfold cbind at 1, bind, store, ret in Hrun.
        unfold cbind at 1, bind in Hrun.
        rewrite (EngineFacts.run_ok _ _ _ _ _ Hs) in Hrun.
        unfold cbind at 1, bind, store, ret in Hrun.
        unfold cbind at 1, bind in Hrun.
        rewrite (EngineFacts.run_raise _ _ _ _ _ Ha) in Hrun.
        injection Hrun as <-. now split.
      - unfold cbind at 1, bind in Hrun.
        rewrite (EngineFacts.run_ok _ _ _ _ _ Hp) in Hrun.
        unfold cbind at 1, bind, store, ret in Hrun.
        unfold cbind at 1, bind in Hrun.
        rewrite (EngineFacts.run_ok _ _ _ _ _ Hs) in Hrun.
        unfold cbind at 1, bind, store, ret in Hrun.
        unfold cbind at 1, bind in Hrun.
        rewrite (EngineFacts.run_ok _ _ _ _ _ Ha) in Hrun.
        unfold cbind at 1, bind, store, ret in Hrun.
        unfold cbind at 1, bind in Hrun.
        rewrite (EngineFacts.run_raise _ _ _ _ _ Hw) in Hrun.
        injection Hrun as <-. now split. }
    destruct Hshape as (Hstart & Hend).
    cbn [context_of success report_of error_of].
    split; [exact Hq | split; [exact Hstart | split; [discriminate |]]].
    intros _. exists e, subs, sources, analysis. now repeat split.
  - destruct (research_phases_complete planner scout analyst writer clock q n
                (initial_context q (fst (clock (world s)))) _ _ _ _ _ _ Hok)
      as (c & Hrun & Hq & Hstart & _ & Hsub & Hsrc & Han & Hrep & Hend & Hdur).
    eexists. exists (after_clock clock s4). split.
    { unfold comprehensive_research, bind. rewrite Hnow, Hrun. reflexivity. }
    cbn [context_of success report_of error_of].
    split; [exact Hq | split; [exact Hstart | split; [| discriminate]]].
    intros _. exists subs, sources, analysis, report, s4. now repeat split.
Qed.

(** X16. The older analysis entry point never raises: when a phase of the
    research raises, it returns the text Research failed: followed by the
    message of the exception, and when the four phases return it returns
    the text of the report. It asks for three sub-questions, and neither
    the sources text nor the timeout it is given changes what it does. *)
Theorem analyze_with_ai_total
  {W : Type}
  (planner : string -> Z -> M W (list Json.t))
  (scout : list Json.t -> M W (PyDict.t (list Scout.Source)))
  (analyst : PyDict.t (list Scout.Source) -> M W Analyst.AnalysisResults)
  (writer : string -> Analyst.AnalysisResults -> M W Writer.Report)
  (clock : W -> Z * W)
  (sources_text q : string) (timeout : Z) (s : State W) :
  exists text s',
    analyze_with_ai planner scout analyst writer clock sources_text q timeout s
    = (Ok text, s')
    /\ (forall e subs sources analysis s1,
          EngineFacts.phases_fail planner scout analyst writer q 3
            (after_clock clock s) e subs sources analysis s1 ->
          text = "Research failed: " +:+ str e /\ s' = s1)
    /\ (forall subs sources analysis report s4,
          phases_complete planner scout analyst writer q 3 (after_clock clock s)
            subs sources analysis report s4 ->
          text = Writer.markdown_report report /\ s' = after_clock clock s4).
Proof.
  assert (Hnow : now clock s = (Ok (fst (clock (world s))), after_clock clock s)).
  { unfold now, call, after_clock. now destruct (clock (world s)). }
  unfold analyze_with_ai, bind at 1, comprehensive_research, bind.
  rewrite Hnow.
  destruct (phases_cases planner scout analyst writer q 3 (after_clock clock s))
    as [(e & subs & sources & analysis & s' & Hfail)
       | (subs & sources & analysis & report & s4 & Hok)].
  - destruct (EngineFacts.research_phases_fail planner scout analyst writer clock q 3
                (initial_context q (fst (clock (world s)))) _ e subs sources
                analysis s' eq_refl eq_refl eq_refl eq_refl Hfail)
      as (c & Hrun & _).
    rewrite Hrun. unfold ret. eexists. eexists. split; [reflexivity |]. split.
    + intros e1 subs1 sources1 analysis1 s1 Hfail1.
      inversion Hfail; inversion Hfail1; subst; split; congruence.
    + intros subs1 sources1 analysis1 report1 s4 (x1 & x2 & x3 & Hp & Hs & Ha & Hw).
      inversion Hfail; subst; congruence.
  - destruct (research_phases_complete planner scout analyst writer clock q 3
                (initial_context q (fst (clock (world s)))) _ _ _ _ _ _ Hok)
      as (c & Hrun & _).
    rewrite Hrun. unfold ret. eexists. eexists. split; [reflexivity |]. split.
    + intros e1 subs1 sources1 analysis1 s1 Hfail1.
      destruct Hok as (x1 & x2 & x3 & Hp & Hs & Ha & Hw).
      inversion Hfail1; subst; congruence.
    + intros subs1 sources1 analysis1 report1 s5 (y1 & y2 & y3 & Hp1 & Hs1 & Ha1 & Hw1).
      destruct Hok as (x1 & x2 & x3 & Hp & Hs & Ha & Hw).
      assert (subs1 = subs /\ y1 = x1) as (-> & ->) by (split; congruence).
      assert (sources1 = sources /\ y2 = x2) as (-> & ->) by (split; congruence).
      assert (analysis1 = analysis /\ y3 = x3) as (-> & ->) by (split; congruence).
      assert (report1 = report /\ s5 = s4) as (-> & ->) by (split; congruence).
      now split.
Qed.

Lemma seq_prefix k a n : firstn k (seq a n) = seq a (Nat.min k n).
Proof.
  revert a n. induction k as [| k IH]; intros a [| n]; simpl; try reflexivity.
  f_equal. apply IH.
Qed.

(** X17. The older search entry point never raises and always reports
    success, also when the search request fails: then it returns no result
    and a total of 0. The total is the number of results of the search, the
    results returned are its first [num_results] ones (for a limit that is
    not negative), and the query echoed is the one given, not the cleaned
    one. *)
Theorem search_web_always_succeeds
  {W : Type}
  (serper_post : string -> W -> outcome (option (list Scout.OrganicItem)) * W)
  (q : string) (num_results : Z) (s : State W) :
  exists r s',
    search_web serper_post q num_results s = (Ok r, s')
    /\ search_success r = true
    /\ searched_query r = q
    /\ since s s' = [EvSearch (Scout.clean_query q)]
    /\ length (results r) <= total_results r
    /\ ((0 <= num_results)%Z ->
        length (results r) <= Z.to_nat num_results
        /\ map Scout.search_position (results r) = seq 1 (length (results r)))
    /\ (forall e w',
          serper_post (Scout.clean_query q) (world s) = (Raise e, w') ->
          results r = [] /\ total_results r = 0)
    /\ (forall items w',
          serper_post (Scout.clean_query q) (world s) = (Ok (Some items), w') ->
          total_results r = length items).
Proof.
  destruct (ScoutFacts.search_run serper_post q s) as (rs & s' & Hrun & Happ).
  exists (mkWebSearch true (PySeq.slice_to num_results rs) (length rs) q), s'.
  split; [unfold search_web, bind, ret; now rewrite Hrun |].
  cbn [search_success searched_query results total_results].
  split; [reflexivity | split; [reflexivity | split; [now apply EffFacts.since_appends |]]].
  assert (Hshape :
            map Scout.search_position rs = seq 1 (length rs)
            /\ (forall e w',
                  serper_post (Scout.clean_query q) (world s) = (Raise e, w') -> rs = [])
            /\ (forall items w',
                  serper_post (Scout.clean_query q) (world s) = (Ok (Some items), w') ->
                  length rs = length items)).
  { clear Happ.
    unfold Scout._serper_search, try_catch, bind, call, ret in Hrun.
    destruct (serper_post (Scout.clean_query q) (world s)) as [[[items |] | e] w1];
      simpl in Hrun; injection Hrun as <- <-.
    - destruct (ScoutMoreFacts.build_results_shape (Scout.clean_query q) 1 items)
        as (Hlen & Hpos & _).
      rewrite Hlen. repeat split; try assumption; try discriminate.
      now intros items' w' [= <- <-].
    - repeat split; discriminate.
    - repeat split; discriminate. }
  destruct Hshape as (Hpos & Hraise & Hitems).
  split; [| split; [| split]].
  - unfold PySeq.slice_to. destruct (num_results <? 0)%Z; rewrite length_firstn; lia.
  - intros Hn. split; [now apply PySeqFacts.slice_to_length_le |].
    rewrite PySeqFacts.slice_to_nonneg by exact Hn.
    rewrite <- firstn_map, Hpos, length_firstn.
    apply seq_prefix.
  - intros e w' Hdown. rewrite (Hraise e w' Hdown).
    split; [| reflexivity]. unfold PySeq.slice_to.
    destruct (num_results <? 0)%Z; now rewrite firstn_nil.
  - intros items w' Hitems'. exact (Hitems items w' Hitems').
Qed.

End EngineMoreFacts.

(** ** Collaboration manager: similarity, themes, findings *)

Module SimilarityFacts.
Import Collab.

Lemma count_positive n : 0 < n -> (0 < Scout.count n)%Q.
Proof.
  intros Hn. unfold Scout.count. change 0%Q with (inject_Z 0).
  rewrite <- Zlt_Qlt. lia.
Qed.

Lemma count_le a b : a <= b -> (Scout.count a <= Scout.count b)%Q.
Proof. intros H. unfold Scout.count. rewrite <- Zle_Qle. lia. Qed.

Lemma count_eq a b : (Scout.count a == Scout.count b)%Q -> a = b.
Proof. unfold Scout.count, Qeq. simpl. lia. Qed.

Lemma ratio_range a b :
  a <= b -> 0 < b -> (0 <= Scout.count a / Scout.count b <= 1)%Q.
Proof.
  intros Hab Hb. pose proof (count_positive b Hb) as Hpos. split.
  - apply Qle_shift_div_l; [exact Hpos |]. rewrite Qmult_0_l.
    apply RelevanceFacts.count_nonneg.
  - apply Qle_shift_div_r; [exact Hpos |]. rewrite Qmult_1_l. now apply count_le.
Qed.

Lemma ratio_one a b :
  0 < b -> (Scout.count a / Scout.count b == 1)%Q <-> a = b.
Proof.
  intros Hb. pose proof (count_positive b Hb) as Hpos.
  assert (Hne : ~ (Scout.count b == 0)%Q) by lra.
  split.
  - intros H. apply count_eq.
    rewrite <- (Qmult_div_r (Scout.count a) (Scout.count b) Hne), H. ring.
  - intros ->. unfold Qdiv. now apply Qmult_inv_r.
Qed.

Lemma ratio_zero a b :
  0 < b -> (Scout.count a / Scout.count b == 0)%Q <-> a = 0.
Proof.
  intros Hb. pose proof (count_positive b Hb) as Hpos.
  assert (Hne : ~ (Scout.count b == 0)%Q) by lra.
  split.
  - intros H. apply count_eq.
    rewrite <- (Qmult_div_r (Scout.count a) (Scout.count b) Hne), H.
    unfold Scout.count. simpl. ring.
  - intros ->. unfold Qdiv, Scout.count. simpl. ring.
Qed.

Lemma nonempty_size (X : gset string) : X <> ∅ -> 0 < size X.
Proof.
  intros Hne. destruct (size X) eqn:Hsize; [| lia].
  apply size_empty_iff in Hsize. exfalso. apply Hne. now apply leibniz_equiv.
Qed.

(** X18. The similarity of two texts is the same in both orders and lies
    between 0 and 1. It is 1 exactly when the two texts have the same
    words, letter case apart, and at least one; it is 0 exactly when they
    share no word. *)
Theorem text_similarity_symmetric_bounded (text1 text2 : string) :
  _calculate_text_similarity text1 text2 = _calculate_text_similarity text2 text1
  /\ (0 <= _calculate_text_similarity text1 text2 <= 1)%Q
  /\ ((_calculate_text_similarity text1 text2 == 1)%Q
      <-> word_set text1 = word_set text2 /\ word_set text1 <> ∅)
  /\ ((_calculate_text_similarity text1 text2 == 0)%Q
      <-> word_set text1 ∩ word_set text2 = ∅).
Proof.
  unfold _calculate_text_similarity.
  generalize (word_set text1) (word_set text2). intros X Y.
  split; [| split; [| split]].
  - assert (Hmeet : Y ∩ X = X ∩ Y) by (apply leibniz_equiv; set_solver).
    assert (Hjoin : Y ∪ X = X ∪ Y) by (apply leibniz_equiv; set_solver).
    rewrite Hmeet, Hjoin. reflexivity.
  - case_bool_decide as Hu; [lra |].
    apply ratio_range; [| now apply nonempty_size].
    apply subseteq_size. set_solver.
  - case_bool_decide as Hu.
    + split; [intros H; exfalso; revert H; unfold Qeq; simpl; lia |].
      intros (_ & Hne). exfalso. apply Hne. set_solver.
    + rewrite ratio_one by now apply nonempty_size. split.
      * intros Hsize.
        assert (Heq : X ∩ Y ≡ X ∪ Y).
        { apply set_subseteq_size_equiv; [set_solver | lia]. }
        split; [apply leibniz_equiv; set_solver |].
        intros Hx. apply Hu. apply leibniz_equiv. set_solver.
      * intros (Heq & _). rewrite <- Heq.
        replace (X ∩ X) with X by (apply leibniz_equiv; set_solver).
        replace (X ∪ X) with X by (apply leibniz_equiv; set_solver).
        reflexivity.
  - case_bool_decide as Hu.
    + split; [intros _; apply leibniz_equiv; set_solver | reflexivity].
    + rewrite ratio_zero by now apply nonempty_size. split.
      * intros Hsize. apply leibniz_equiv. now apply size_empty_iff.
      * intros ->. apply size_empty.
Qed.

End SimilarityFacts.

Module ThemeFacts.
Import Collab SortFacts.

(** A word the counting loop counts, once stripped of punctuation. *)
Definition significant (word : string) : bool :=
  (4 <? String.length word)%nat && negb (existsb (String.eqb word) stop_words).

(** The words counted, in the order of the text. *)
Definition theme_words (agent_results : PyDict.t AgentResult) : list string :=
  List.filter significant
    (map (strip_chars theme_punctuation)
         (PyStr.split (PyStr.lower (all_text agent_results)))).

Definition occurrences (w : string) (l : list string) : nat :=
  length (List.filter (String.eqb w) l).

Definition tally_word (d : PyDict.t nat) (w : string) : PyDict.t nat :=
  PyDict.set w (default 0 (PyDict.get w d) + 1) d.

Lemma count_loop_tally words d :
  fold_left count_theme_word words d
  = fold_left tally_word
      (List.filter significant (map (strip_chars theme_punctuation) words)) d.
Proof.
  revert d. induction words as [| word words IH]; intros d; [reflexivity |].
  cbn [fold_left map List.filter]. rewrite IH. unfold count_theme_word, significant.
  destruct ((4 <? String.length (strip_chars theme_punctuation word))%nat
            && negb (existsb (String.eqb (strip_chars theme_punctuation word))
                       stop_words)); reflexivity.
Qed.

Lemma tally_count l d w :
  default 0 (PyDict.get w (fold_left tally_word l d))
  = default 0 (PyDict.get w d) + occurrences w l.
Proof.
  revert d. induction l as [| x l IH]; intros d.
  - unfold occurrences. simpl. lia.
  - cbn [fold_left]. rewrite IH. unfold occurrences, tally_word.
    cbn [List.filter]. destruct (String.eqb_spec w x) as [-> | Hne].
    + rewrite PyDictFacts.get_set_eq. simpl. lia.
    + rewrite PyDictFacts.get_set_ne by exact Hne. reflexivity.
Qed.

Lemma tally_keys l d w :
  In w (PyDict.keys (fold_left tally_word l d)) <-> In w (PyDict.keys d) \/ In w l.
Proof.
  revert d. induction l as [| x l IH]; intros d.
  - simpl. tauto.
  - cbn [fold_left]. rewrite IH. unfold tally_word.
    rewrite PyDictFacts.in_keys_set. simpl. intuition congruence.
Qed.

Lemma tally_wf l d : PyDict.wf d -> PyDict.wf (fold_left tally_word l d).
Proof.
  revert d. induction l as [| x l IH]; intros d Hd; [exact Hd |].
  cbn [fold_left]. apply IH. now apply PyDictFacts.wf_set.
Qed.

Lemma wf_in_get {V} (d : PyDict.t V) k v :
  PyDict.wf d -> In (k, v) d -> PyDict.get k d = Some v.
Proof.
  unfold PyDict.wf. induction d as [| [k' v'] d IH]; intros Hwf Hin; [contradiction |].
  cbn [PyDict.keys map fst] in Hwf. apply NoDup_cons in Hwf.
  destruct Hwf as (Hfresh & Hwf). simpl.
  destruct Hin as [[= -> ->] | Hin].
  - now rewrite String.eqb_refl.
  - destruct (String.eqb_spec k k') as [-> | Hne]; [| now apply IH].
    exfalso. apply Hfresh. apply list_elem_of_In.
    change (In k' (map fst d)). apply in_map_iff. now exists (k', v).
Qed.

Lemma firstn_nodup {A} k (l : list A) : List.NoDup l -> List.NoDup (firstn k l).
Proof.
  intros H. rewrite <- (firstn_skipn k l) in H.
  now apply List.NoDup_app_remove_r in H.
Qed.

Lemma significant_spec w :
  significant w = true -> 4 < String.length w /\ ~ In w stop_words.
Proof.
  unfold significant. intros H. apply andb_prop in H. destruct H as (Hlen & Hstop).
  split; [now apply Nat.ltb_lt in Hlen |].
  intros Hin. apply negb_true_iff in Hstop.
  assert (Hex : existsb (String.eqb w) stop_words = true).
  { apply existsb_exists. exists w. split; [exact Hin | apply String.eqb_refl]. }
  congruence.
Qed.


(** A run with two personas, the most frequent words first. Nothing
    separates one persona's summary from the next persona's analysis, so
    the last word of the one and the first word of the other are read as
    one word. *)
Lemma common_themes_sample :
  _identify_common_themes
    [ ("research", mkAgentResult None
         (Some "Solar panels lower costs. Panels last.") (Some "Costs fall!"));
      ("market", mkAgentResult None (Some "Solar (panels) sell; costs matter") None) ]
  = ["panels"; "costs"; "solar"; "lower"; "fall!solar"].
Proof. vm_compute. reflexivity. Qed.

End ThemeFacts.

(** ** Collaboration manager: sentences and lines picked from a text *)

Module SentenceFacts.
Import Collab.

(** [f] stands in [s] as it is. *)
Definition within (f s : string) : Prop :=
  exists before after, s = before +:+ (f +:+ after).

Lemma append_cons c a b : String c a +:+ b = String c (a +:+ b).
Proof. reflexivity. Qed.

Lemma append_nil_l s : EmptyString +:+ s = s.
Proof. reflexivity. Qed.

Lemma append_nil_r s : s +:+ EmptyString = s.
Proof. induction s as [| c s IH]; [reflexivity |]. now rewrite append_cons, IH. Qed.

Lemma append_associative a b c : (a +:+ b) +:+ c = a +:+ (b +:+ c).
Proof.
  induction a as [| x a IH]; [reflexivity |]. now rewrite !append_cons, IH.
Qed.

Lemma chars_append a b :
  list_ascii_of_string (a +:+ b) = list_ascii_of_string a ++ list_ascii_of_string b.
Proof.
  induction a as [| x a IH]; [reflexivity |].
  rewrite append_cons. simpl. now rewrite IH.
Qed.

Lemma within_refl s : within s s.
Proof. exists EmptyString, EmptyString. now rewrite append_nil_l, append_nil_r. Qed.

Lemma within_trans f p s : within f p -> within p s -> within f s.
Proof.
  intros (a & b & ->) (a' & b' & ->).
  exists (a' +:+ a), (b +:+ b'). now rewrite !append_associative.
Qed.

Lemma within_chars f s c :
  within f s -> In c (list_ascii_of_string f) -> In c (list_ascii_of_string s).
Proof.
  intros (a & b & ->) Hc. rewrite !chars_append, !in_app_iff. tauto.
Qed.

Lemma within_cons c f s : within f s -> within f (String c s).
Proof. intros (a & b & ->). exists (String c a), b. reflexivity. Qed.

Lemma lstrip_within p s : within (PyStr.lstrip_by p s) s.
Proof.
  induction s as [| c s IH]; [apply within_refl |]. simpl.
  destruct (p c); [now apply within_cons | apply within_refl].
Qed.

Lemma rstrip_prefix p s : exists after, s = PyStr.rstrip_by p s +:+ after.
Proof.
  induction s as [| c s (b & IH)]; [now exists EmptyString |]. simpl.
  destruct (PyStr.rstrip_by p s) as [| d r] eqn:Hr.
  - destruct (p c).
    + now exists (String c s).
    + exists s. reflexivity.
  - exists b. rewrite append_cons. now f_equal.
Qed.

Lemma rstrip_within p s : within (PyStr.rstrip_by p s) s.
Proof. destruct (rstrip_prefix p s) as (b & Hb). now exists EmptyString, b. Qed.

Lemma strip_within s : within (PyStr.strip s) s.
Proof.
  unfold PyStr.strip.
  eapply within_trans; [apply rstrip_within | apply lstrip_within].
Qed.

Lemma rstrip_idempotent p s :
  PyStr.rstrip_by p (PyStr.rstrip_by p s) = PyStr.rstrip_by p s.
Proof.
  induction s as [| c s IH]; [reflexivity |]. simpl.
  destruct (PyStr.rstrip_by p s) as [| d r] eqn:Hr.
  - destruct (p c) eqn:Hc; [reflexivity |]. simpl. now rewrite Hc.
  - change (PyStr.rstrip_by p (String c (String d r)))
      with (match PyStr.rstrip_by p (String d r) with
            | EmptyString => if p c then EmptyString else String c EmptyString
            | x => String c x
            end).
    now rewrite IH.
Qed.

(** A string that does not start with a stripped character is left alone
    on the left, also after stripping on the right. *)
Definition starts_clean (p : ascii -> bool) (s : string) : Prop :=
  match s with EmptyString => True | String c _ => p c = false end.

Lemma lstrip_starts_clean p s : starts_clean p (PyStr.lstrip_by p s).
Proof.
  induction s as [| c s IH]; [exact I |]. simpl.
  destruct (p c) eqn:Hc; [exact IH | exact Hc].
Qed.

Lemma rstrip_keeps_clean p s :
  starts_clean p s -> starts_clean p (PyStr.rstrip_by p s).
Proof.
  destruct s as [| c s]; [trivial |]. simpl. intros Hc.
  destruct (PyStr.rstrip_by p s); [now rewrite Hc | exact Hc].
Qed.

Lemma lstrip_clean p s : starts_clean p s -> PyStr.lstrip_by p s = s.
Proof. destruct s as [| c s]; [reflexivity |]. simpl. now intros ->. Qed.

Lemma strip_idempotent s : PyStr.strip (PyStr.strip s) = PyStr.strip s.
Proof.
  unfold PyStr.strip.
  rewrite (lstrip_clean PyStr.is_space
             (PyStr.rstrip_by PyStr.is_space (PyStr.lstrip_by PyStr.is_space s))).
  - apply rstrip_idempotent.
  - apply rstrip_keeps_clean, lstrip_starts_clean.
Qed.

(** The fields of [s.split(sep)] stand in [s] and hold no separator. *)
Lemma split_on_scan_fields sep s :
  (exists after, s = fst (PyStr.split_on_scan sep s) +:+ after)
  /\ ~ In sep (list_ascii_of_string (fst (PyStr.split_on_scan sep s)))
  /\ forall field, In field (snd (PyStr.split_on_scan sep s)) ->
       within field s /\ ~ In sep (list_ascii_of_string field).
Proof.
  induction s as [| c s ((b & Hb) & Hw & Hws)].
  - simpl. split; [now exists EmptyString | split; [tauto | contradiction]].
  - simpl. destruct (PyStr.split_on_scan sep s) as [w ws]. simpl in Hb, Hw, Hws.
    destruct (Ascii.eqb_spec c sep) as [-> | Hne]; simpl.
    + split; [now exists (String sep s) | split; [tauto |]].
      intros field [<- | Hin].
      * split; [| exact Hw]. apply within_cons. now exists EmptyString, b.
      * destruct (Hws field Hin) as (Hin' & Hsep).
        split; [now apply within_cons | exact Hsep].
    + split; [exists b; rewrite append_cons; now f_equal |].
      split; [intros [Heq | Hin]; [now apply Hne | now apply Hw] |].
      intros field Hin. destruct (Hws field Hin) as (Hin' & Hsep).
      split; [now apply within_cons | exact Hsep].
Qed.

Lemma split_on_fields sep s field :
  In field (PyStr.split_on sep s) ->
  within field s /\ ~ In sep (list_ascii_of_string field).
Proof.
  unfold PyStr.split_on.
  pose proof (split_on_scan_fields sep s) as ((b & Hb) & Hw & Hws).
  destruct (PyStr.split_on_scan sep s) as [w ws]. simpl in Hb, Hw, Hws.
  intros [<- | Hin]; [| now apply Hws].
  split; [now exists EmptyString, b | exact Hw].
Qed.

(** What holds of a field of [s.split(sep)] once stripped of whitespace. *)
Lemma stripped_field sep s f :
  In f (map PyStr.strip (PyStr.split_on sep s)) ->
  PyStr.strip f = f /\ within f s /\ ~ In sep (list_ascii_of_string f).
Proof.
  intros Hf. apply in_map_iff in Hf. destruct Hf as (field & <- & Hin).
  destruct (split_on_fields sep s field Hin) as (Hwithin & Hsep).
  split; [apply strip_idempotent | split].
  - eapply within_trans; [apply strip_within | exact Hwithin].
  - intros Hc. apply Hsep. eapply within_chars; [apply strip_within | exact Hc].
Qed.

Lemma mentions_any_spec keywords text :
  mentions_any keywords text = true ->
  exists keyword,
    In keyword keywords /\ PyStr.contains keyword (PyStr.lower text) = true.
Proof. unfold mentions_any. intros H. now apply existsb_exists in H. Qed.

Lemma firstn_member {A} k (l : list A) x : In x (firstn k l) -> In x l.
Proof.
  intros H. rewrite <- (firstn_skipn k l). apply in_or_app. now left.
Qed.

(** X20. The specialist findings of a persona are at most three. Each one
    stands in the analysis as it is, holds no full stop, has no white
    space at either end, is longer than 20 characters, and contains, letter
    case apart, one of the keywords of the persona. A persona that is not
    one of the seven known ones has no finding, and neither has a result
    without analysis. *)
Theorem specialist_findings_shape (agent_result : AgentResult) (agent_id : string) :
  length (_extract_specialist_findings agent_result agent_id) <= 3
  /\ (forall f, In f (_extract_specialist_findings agent_result agent_id) ->
        within f (default "" (analysis agent_result))
        /\ ~ In full_stop (list_ascii_of_string f)
        /\ PyStr.strip f = f
        /\ 20 < String.length f
        /\ exists keywords keyword,
             PyDict.get agent_id specialist_keywords = Some keywords
             /\ In keyword keywords
             /\ PyStr.contains keyword (PyStr.lower f) = true)
  /\ (~ In agent_id (PyDict.keys specialist_keywords) ->
      _extract_specialist_findings agent_result agent_id = [])
  /\ (analysis agent_result = None ->
      _extract_specialist_findings agent_result agent_id = []).
Proof.
  unfold _extract_specialist_findings. split; [| split; [| split]].
  - rewrite length_firstn. lia.
  - intros f Hf. apply firstn_member, filter_In in Hf. destruct Hf as (Hfield & Hkeep).
    apply andb_prop in Hkeep. destruct Hkeep as (Hmention & Hlong).
    destruct (stripped_field _ _ _ Hfield) as (Hstrip & Hwithin & Hsep).
    apply Nat.ltb_lt in Hlong. apply mentions_any_spec in Hmention.
    destruct Hmention as (keyword & Hkeyword & Hcontains).
    repeat split; try assumption.
    destruct (PyDict.get agent_id specialist_keywords) as [keywords |];
      [| contradiction].
    now exists keywords, keyword.
  - intros Hunknown. apply PyDictFacts.get_None_iff in Hunknown. rewrite Hunknown.
    simpl default. replace (List.filter _ _) with (@nil string); [reflexivity |].
    symmetry. apply RelevanceFacts.filter_none. intros x _. reflexivity.
  - intros ->. simpl. now rewrite andb_false_r.
Qed.

(** X21. The recommendations picked from a synthesis are at most five.
    Each one stands in the synthesis as it is, within one line, has no
    white space at either end, is longer than 20 characters, is not a
    header line, and contains, letter case apart, one of the five
    recommendation keywords. *)
Theorem recommendations_shape (synthesis_text : string) :
  length (_extract_recommendations synthesis_text) <= 5
  /\ forall r, In r (_extract_recommendations synthesis_text) ->
       within r synthesis_text
       /\ ~ In PyStr.newline_char (list_ascii_of_string r)
       /\ PyStr.strip r = r
       /\ 20 < String.length r
       /\ PyStr.startswith "#" r = false
       /\ exists keyword,
            In keyword recommendation_keywords
            /\ PyStr.contains keyword (PyStr.lower r) = true.
Proof.
  unfold _extract_recommendations. split.
  - rewrite length_firstn. lia.
  - intros r Hr. apply firstn_member, filter_In in Hr. destruct Hr as (Hfield & Hkeep).
    apply andb_prop in Hkeep. destruct Hkeep as (Hmention & Hkeep).
    apply andb_prop in Hkeep. destruct Hkeep as (Hlong & Hheader).
    destruct (stripped_field _ _ _ Hfield) as (Hstrip & Hwithin & Hsep).
    apply Nat.ltb_lt in Hlong. apply negb_true_iff in Hheader.
    apply mentions_any_spec in Hmention.
    repeat split; assumption.
Qed.

(** A run: one sentence of the analysis names a keyword of the persona. *)
Lemma specialist_findings_sample :
  _extract_specialist_findings
    (mkAgentResult None
       (Some "Overview. The Market for panels keeps growing fast. Short market.")
       None)
    "market"
  = ["The Market for panels keeps growing fast"].
Proof. vm_compute. reflexivity. Qed.

End SentenceFacts.

